(** * Installer scripts of the agent-instructions repository

    A shallow embedding of [claude/project_setup/install.py] and
    [claude/user_setup/install.py]: the safety validators, the language
    selection, the manifest filter, the backup manager and the two
    installers, over a small model of the file system. *)

From Stdlib Require Import ZArith Ascii String List Bool Lia.
From stdpp Require Import base option list gmap strings fin_maps.

#[local] Set Warnings "-register-all,-clear-no-such-hyp".
#[local] Open Scope string_scope.
#[local] Open Scope list_scope.

(** ** Text helpers: the [str] methods the scripts call

    A [str] is kept as its UTF-8 bytes, one [ascii] per byte; the methods
    that look at characters decode them.  The character classes are those
    of CPython 3.11 (Unicode 14). *)

Module Str.

Definition code (a : ascii) : N := N_of_ascii a.

(** The six low bits of a continuation byte. *)
Definition cont (a : ascii) : option N :=
  let n := code a in
  if ((128 <=? n) && (n <=? 191))%N then Some (n - 128)%N else None.

(** The first character of a text and what follows it: one to four bytes,
    shortest form only, no surrogate, nothing above U+10FFFF. *)
Definition decode_head (s : string) : option (N * string) :=
  match s with
  | EmptyString => None
  | String a s1 =>
      let n := code a in
      if (n <? 128)%N then Some (n, s1)
      else if ((194 <=? n) && (n <=? 223))%N then
        match s1 with
        | String b s2 =>
            match cont b with
            | Some x => Some (((n - 192) * 64 + x)%N, s2)
            | None => None
            end
        | _ => None
        end
      else if ((224 <=? n) && (n <=? 239))%N then
        match s1 with
        | String b (String c s3) =>
            match cont b, cont c with
            | Some x, Some y =>
                let cp := ((n - 224) * 4096 + x * 64 + y)%N in
                if ((2048 <=? cp) && negb ((55296 <=? cp) && (cp <=? 57343)))%N
                then Some (cp, s3) else None
            | _, _ => None
            end
        | _ => None
        end
      else if ((240 <=? n) && (n <=? 244))%N then
        match s1 with
        | String b (String c (String d s4)) =>
            match cont b, cont c, cont d with
            | Some x, Some y, Some z =>
                let cp := ((n - 240) * 262144 + x * 4096 + y * 64 + z)%N in
                if ((65536 <=? cp) && (cp <=? 1114111))%N
                then Some (cp, s4) else None
            | _, _, _ => None
            end
        | _ => None
        end
      else None
  end.

Fixpoint decode_go (fuel : nat) (s : string) : option (list N) :=
  match s with
  | EmptyString => Some []
  | _ =>
      match fuel with
      | O => None
      | S k =>
          match decode_head s with
          | Some (cp, r) =>
              match decode_go k r with
              | Some cps => Some (cp :: cps)
              | None => None
              end
          | None => None
          end
      end
  end.

(** The characters of a text, nothing when the bytes are not UTF-8. *)
Definition decode (s : string) : option (list N) :=
  decode_go (String.length s) s.

Definition valid_utf8 (s : string) : bool :=
  match decode s with Some _ => true | None => false end.

(** The number of bytes of the first character when it satisfies [p],
    zero otherwise. *)
Definition head_len (p : N -> bool) (s : string) : nat :=
  match decode_head s with
  | Some (cp, r) => if p cp then String.length s - String.length r else 0
  | None => 0
  end.

(** [str.isspace] of one character. *)
Definition is_space (n : N) : bool :=
  (((9 <=? n) && (n <=? 13)) || ((28 <=? n) && (n <=? 32))
   || (n =? 133) || (n =? 160) || (n =? 5760)
   || ((8192 <=? n) && (n <=? 8202)) || (n =? 8232) || (n =? 8233)
   || (n =? 8239) || (n =? 8287) || (n =? 12288))%N.

(** The code points of the digit zero of each decimal script; the nine
    other digits follow it. *)
Definition decimal_zeros : list N :=
  [48; 1632; 1776; 1984; 2406; 2534; 2662; 2790; 2918; 3046; 3174; 3302;
   3430; 3558; 3664; 3792; 3872; 4160; 4240; 6112; 6160; 6470; 6608; 6784;
   6800; 6992; 7088; 7232; 7248; 42528; 43216; 43264; 43472; 43504; 43600;
   44016; 65296; 66720; 68912; 69734; 69872; 69942; 70096; 70384; 70736;
   70864; 71248; 71360; 71472; 71904; 72016; 72784; 73040; 73120; 92768;
   92864; 93008; 120782; 120792; 120802; 120812; 120822; 123200; 123632;
   125264; 130032]%N.

(** The digits that are not decimal: superscripts, subscripts, circled
    and parenthesized digits and the like. *)
Definition other_digits : list (N * N) :=
  [(178, 179); (185, 185); (4969, 4977); (6618, 6618); (8304, 8304);
   (8308, 8313); (8320, 8329); (9312, 9320); (9332, 9340); (9352, 9360);
   (9450, 9450); (9461, 9469); (9471, 9471); (10102, 10110);
   (10112, 10120); (10122, 10130); (68160, 68163); (69216, 69224);
   (69714, 69722); (127232, 127242)]%N.

(** The value of a decimal character. *)
Definition decimal_value (n : N) : option N :=
  match List.find (fun z => (z <=? n) && (n <? z + 10))%N decimal_zeros with
  | Some z => Some (n - z)%N
  | None => None
  end.

Definition is_digit (n : N) : bool :=
  match decimal_value n with
  | Some _ => true
  | None => existsb (fun r => (fst r <=? n) && (n <=? snd r))%N other_digits
  end.

(** [str.isdigit]: at least one character, all of them digits. *)
Definition isdigit (s : string) : bool :=
  match decode s with
  | Some (c :: cs) => forallb is_digit (c :: cs)
  | _ => false
  end.

Fixpoint int_go (acc : Z) (cps : list N) : option Z :=
  match cps with
  | [] => Some acc
  | c :: cps' =>
      match decimal_value c with
      | Some v => int_go (10 * acc + Z.of_N v) cps'
      | None => None
      end
  end.

(** The longest string of digits [int] converts. *)
Definition max_str_digits : nat := 4300.

(** [int(s)] for a string of digits: a [ValueError] (nothing here) when
    a digit is not decimal and when there are more digits than
    [sys.get_int_max_str_digits()], left at its default. *)
Definition int (s : string) : option Z :=
  match decode s with
  | Some cps =>
      if (length cps <=? max_str_digits)%nat then int_go 0 cps else None
  | None => None
  end.

(** [s.lstrip()].  [skip] counts the bytes still to be passed over of a
    blank character that was just met. *)
Fixpoint lstrip_go (skip : nat) (s : string) : string :=
  match s with
  | EmptyString => EmptyString
  | String _ s' =>
      match skip with
      | S k => lstrip_go k s'
      | O =>
          match head_len is_space s with
          | S k => lstrip_go k s'
          | O => s
          end
      end
  end.

Definition lstrip (s : string) : string := lstrip_go 0 s.

(** Nothing but blank characters. *)
Definition all_space (s : string) : bool :=
  match lstrip s with EmptyString => true | _ => false end.

(** [s.rstrip()]: the text is cut where only blank characters follow. *)
Fixpoint rstrip (s : string) : string :=
  match s with
  | EmptyString => EmptyString
  | String c s' => if all_space s then EmptyString else String c (rstrip s')
  end.

Definition strip (s : string) : string := rstrip (lstrip s).

Definition snoc (w : string) (c : ascii) : string := w +:+ String c EmptyString.

Definition flush (cur : option string) : list string :=
  match cur with Some w => [w] | None => [] end.

(** [str.split()] without a separator: the maximal runs of non-blank
    characters, in order. [cur] is the run being read. *)
Fixpoint split_go (skip : nat) (cur : option string) (s : string)
  : list string :=
  match s with
  | EmptyString => flush cur
  | String c s' =>
      match skip with
      | S k => split_go k cur s'
      | O =>
          match head_len is_space s with
          | S k => flush cur ++ split_go k None s'
          | O => split_go 0 (Some (snoc (default EmptyString cur) c)) s'
          end
      end
  end.

Definition split (s : string) : list string := split_go 0 None s.

Fixpoint is_prefix (p s : string) : bool :=
  match p, s with
  | EmptyString, _ => true
  | String a p', String b s' => if Ascii.eqb a b then is_prefix p' s' else false
  | String _ _, EmptyString => false
  end.

(** [sub in s] for strings. *)
Fixpoint contains (sub s : string) : bool :=
  is_prefix sub s ||
  match s with
  | EmptyString => false
  | String _ s' => contains sub s'
  end.

(** [s.split(sep)] for a non-empty separator: left to right, occurrences
    do not overlap. [skip] counts the characters of a separator that was
    just matched and are still to be passed over. *)
Fixpoint split_on_go (sep : string) (skip : nat) (cur : string) (s : string)
  : list string :=
  match s with
  | EmptyString => [cur]
  | String c s' =>
      match skip with
      | S k => split_on_go sep k cur s'
      | O =>
          if is_prefix sep s
          then cur :: split_on_go sep (String.length sep - 1) EmptyString s'
          else split_on_go sep 0 (snoc cur c) s'
      end
  end.

Definition split_on (sep s : string) : list string :=
  split_on_go sep 0 EmptyString s.

(** [sep.join(l)]. *)
Fixpoint join (sep : string) (l : list string) : string :=
  match l with
  | [] => EmptyString
  | [x] => x
  | x :: l' => x +:+ sep +:+ join sep l'
  end.

Definition cr : ascii := ascii_of_N 13.
Definition lf : ascii := ascii_of_N 10.

(** The line boundaries of [str.splitlines]: line feed, vertical tab,
    form feed, carriage return, the separators 0x1c .. 0x1e, next line
    (U+0085), line separator (U+2028) and paragraph separator (U+2029). *)
Definition is_linebreak (n : N) : bool :=
  (((10 <=? n) && (n <=? 13)) || ((28 <=? n) && (n <=? 30))
   || (n =? 133) || (n =? 8232) || (n =? 8233))%N.

(** The number of bytes of the line boundary a text starts with: a
    carriage return before a line feed makes one boundary with it. *)
Definition break_len (s : string) : nat :=
  match s with
  | String c (String d _) =>
      if Ascii.eqb c cr && Ascii.eqb d lf then 2
      else head_len is_linebreak s
  | _ => head_len is_linebreak s
  end.

(** [str.splitlines()]: no empty last line after a final boundary. *)
Fixpoint splitlines_go (skip : nat) (cur : option string) (s : string)
  : list string :=
  match s with
  | EmptyString => flush cur
  | String c s' =>
      match skip with
      | S k => splitlines_go k cur s'
      | O =>
          match break_len s with
          | S k => default EmptyString cur :: splitlines_go k None s'
          | O => splitlines_go 0 (Some (snoc (default EmptyString cur) c)) s'
          end
      end
  end.

Definition splitlines (s : string) : list string := splitlines_go 0 None s.

End Str.


(** ** Paths

    A path is absolute and is kept as the list of its components below the
    root, so that [pathlib]'s [parts] is the root followed by that list.  A
    relative argument of the scripts stands for its join with the working
    directory. *)

Definition Path := list string.

Definition parts (p : Path) : list string := "/" :: p.

(** [p / name], for a name that is a single component. *)
Definition child (p : Path) (name : string) : Path := p ++ [name].

(** [p.name]: the last component, empty for the root. *)
Definition name (p : Path) : string := default EmptyString (last p).

(** [p.parent]. *)
Definition parent (p : Path) : Path := removelast p.

(** [p.parents]: the strict ancestors, nearest first, down to the root. *)
Fixpoint parents_go (n : nat) (p : Path) : list Path :=
  match n with
  | O => []
  | S k => take k p :: parents_go k p
  end.

Definition parents (p : Path) : list Path := parents_go (length p) p.

(** [p.relative_to(base)] succeeds when [base] is [p] or an ancestor. *)
Fixpoint relative_to (p base : Path) {struct base} : option Path :=
  match base, p with
  | [], _ => Some p
  | b :: base', c :: p' => if decide (b = c) then relative_to p' base' else None
  | _ :: _, [] => None
  end.

(** ** The file system

    A tree of nodes under the root directory.  A symbolic link stores the
    absolute path it points at. *)

Inductive node :=
  | File (content : string)
  | Dir (entries : gmap string node)
  | Symlink (target : Path)
  | Special.

(** [os.lstat]: the node at a path, links not followed.  The directories
    on the way are real directories: a link met on the way is not
    followed, the path is then taken as one that leads nowhere.  The
    properties below are about paths without a link on the way, and say
    so where a link would change what the scripts do. *)
Fixpoint lstat (fs : node) (p : Path) : option node :=
  match p with
  | [] => Some fs
  | c :: p' =>
      match fs with
      | Dir es => match es !! c with Some n => lstat n p' | None => None end
      | _ => None
      end
  end.

(** The kernel gives up after forty nested links. *)
Definition max_links : nat := 40.

Fixpoint stat_go (fuel : nat) (fs : node) (p : Path) : option node :=
  match lstat fs p with
  | Some (Symlink t) =>
      match fuel with
      | O => None
      | S k => stat_go k fs t
      end
  | r => r
  end.

(** [os.stat]: links at the end of the path are followed. *)
Definition stat (fs : node) (p : Path) : option node := stat_go max_links fs p.

Definition is_dir (fs : node) (p : Path) : bool :=
  match stat fs p with Some (Dir _) => true | _ => false end.

Definition is_file (fs : node) (p : Path) : bool :=
  match stat fs p with Some (File _) => true | _ => false end.

Definition is_symlink (fs : node) (p : Path) : bool :=
  match lstat fs p with Some (Symlink _) => true | _ => false end.

(** [Path.exists]: a dangling link does not exist. *)
Definition path_exists (fs : node) (p : Path) : bool :=
  match stat fs p with Some _ => true | None => false end.

(** Writes [new] at [p] ([None] removes the entry); the parent has to be a
    directory. *)
Fixpoint put (fs : node) (p : Path) (new : option node) : option node :=
  match p with
  | [] => None
  | c :: p' =>
      match fs with
      | Dir es =>
          match p' with
          | [] => Some (Dir (match new with
                             | Some n => <[c := n]> es
                             | None => delete c es
                             end))
          | _ :: _ =>
              match es !! c with
              | Some sub =>
                  match put sub p' new with
                  | Some sub' => Some (Dir (<[c := sub']> es))
                  | None => None
                  end
              | None => None
              end
          end
      | _ => None
      end
  end.

(** ** Exceptions *)

(** The exception classes that reach the caller. *)
Inductive pyexc :=
  | RuntimeError | ValueError | FileNotFoundError | FileExistsError
  | NotADirectoryError | IsADirectoryError | OSError | ShutilError
  | IndexError | CalledProcessError | KeyboardInterrupt | EOFError.

(** One constructor per [raise] of the two scripts, and [Lib] for what the
    library calls raise themselves. *)
Inductive error :=
  | UnsafeDirectory (excluded : Path)
  | RootDeletion
  | PathTooShort (n : nat) (p : Path)
  | UnsafeDeletion (p : Path)
  | UnexpectedDirectory (p : Path)
  | PathNotFound (p : Path)
  | FishyPath (p : Path)
  | ManifestNotFound (p : Path)
  | NoLanguagesForManifest
  | NoLanguagesToKeep
  | LanguagesDirNotFound (p : Path)
  | NoLanguagesSelected
  | InvalidNumber (part : string)
  | UnknownLanguage (part : string)
  | LanguageNotFound (lang : string)
  | RootRun
  | NotRelativeTo (p base : Path)
  | UserSetupNotFound (p : Path)
  | ManifestMissing (p : Path)
  | Cancelled
  | EndOfInput
  | Lib (exc : pyexc) (p : Path).

Definition exc_class (e : error) : pyexc :=
  match e with
  | UnsafeDirectory _ | PathTooShort _ _ | UnsafeDeletion _
  | UnexpectedDirectory _ | NoLanguagesForManifest | NoLanguagesToKeep
  | NoLanguagesSelected | InvalidNumber _ | UnknownLanguage _
  | NotRelativeTo _ _ => ValueError
  | RootDeletion | FishyPath _ | RootRun => RuntimeError
  | PathNotFound _ | ManifestNotFound _ | LanguagesDirNotFound _
  | LanguageNotFound _ | UserSetupNotFound _ | ManifestMissing _ =>
      FileNotFoundError
  | Cancelled => KeyboardInterrupt
  | EndOfInput => EOFError
  | Lib exc _ => exc
  end.

Inductive result (A : Type) :=
  | Ok (a : A)
  | Err (e : error).

Arguments Ok {A} a.
Arguments Err {A} e.

Definition is_ok {A} (r : result A) : bool :=
  match r with Ok _ => true | Err _ => false end.

(** ** The world the scripts run in *)

(** The library calls that change the file system, as they are issued. *)
Inductive event :=
  | Rmtree (p : Path)
  | Unlink (p : Path)
  | Mkdir (p : Path)
  | Move (src dst : Path)
  | Copytree (src dst : Path)
  | Copy2 (src dst : Path)
  | WriteText (p : Path)
  | SymlinkTo (link target : Path)
  | GitClone (dst : Path).

Record World := mkWorld { w_fs : node; w_log : list event }.

(** What the scripts read from their surroundings: the effective user id,
    the home directory, the clock already formatted as [%Y%m%d_%H%M%S],
    [Path.resolve], which depends on the links present in the file system,
    and what a [git clone] of the configuration repository delivers (nothing
    when the clone fails). *)
Record Env := mkEnv {
  euid : Z;
  home : Path;
  now : string;
  resolve : node -> Path -> Path;
  remote : option node
}.

(** A computation changes the world and returns or raises; what was done
    before a [raise] stays done. *)
Definition M (A : Type) : Type := World -> World * result A.

#[global] Instance M_ret : MRet M := fun A a w => (w, Ok a).

#[global] Instance M_bind : MBind M := fun A B f m w =>
  match m w with
  | (w', Ok a) => f a w'
  | (w', Err e) => (w', Err e)
  end.

Definition raise {A} (e : error) : M A := fun w => (w, Err e).

(** Reads the file system. *)
Definition ask {A} (f : node -> A) : M A := fun w => (w, Ok (f (w_fs w))).

(** Issues a library call: it is logged, then it changes the file system
    or raises. *)
Definition issue (ev : event) (f : node -> result node) : M unit := fun w =>
  let log' := w_log w ++ [ev] in
  match f (w_fs w) with
  | Ok fs' => (mkWorld fs' log', Ok tt)
  | Err e => (mkWorld (w_fs w) log', Err e)
  end.

(** [for x in l: body(x)]. *)
Fixpoint for_each {A} (l : list A) (body : A -> M unit) : M unit :=
  match l with
  | [] => mret tt
  | x :: l' => body x ;; for_each l' body
  end.

Definition when (b : bool) (m : M unit) : M unit := if b then m else mret tt.

(** ** Library calls on the file system *)

Definition put_or (exc : pyexc) (fs : node) (p : Path) (new : option node)
  : result node :=
  match put fs p new with
  | Some fs' => Ok fs'
  | None => Err (Lib exc p)
  end.

(** [Path.unlink]. *)
Definition unlink (p : Path) : M unit :=
  issue (Unlink p) (fun fs =>
    match lstat fs p with
    | None => Err (Lib FileNotFoundError p)
    | Some (Dir _) => Err (Lib IsADirectoryError p)
    | Some _ => put_or OSError fs p None
    end).

(** [shutil.rmtree]: refuses a symbolic link. *)
Definition rmtree (p : Path) : M unit :=
  issue (Rmtree p) (fun fs =>
    match lstat fs p with
    | None => Err (Lib FileNotFoundError p)
    | Some (Dir _) => put_or OSError fs p None
    | Some (Symlink _) => Err (Lib OSError p)
    | Some _ => Err (Lib NotADirectoryError p)
    end).

(** [Path.mkdir()] with its defaults: the path must be free and its parent
    must exist. *)
Definition mkdir (p : Path) : M unit :=
  issue (Mkdir p) (fun fs =>
    match lstat fs p with
    | Some _ => Err (Lib FileExistsError p)
    | None => put_or FileNotFoundError fs p (Some (Dir ∅))
    end).

(** [os.rename] as [shutil.move] uses it: onto a free path, or a
    non-directory over a non-directory. *)
Definition rename (fs : node) (src dst : Path) : result node :=
  match lstat fs src with
  | None => Err (Lib FileNotFoundError src)
  | Some n =>
      let go :=
        match put fs src None with
        | Some fs1 => put_or OSError fs1 dst (Some n)
        | None => Err (Lib OSError src)
        end in
      match lstat fs dst, n with
      | None, _ => go
      | Some (Dir _), _ | Some _, Dir _ => Err (Lib OSError dst)
      | Some _, _ => go
      end
  end.

(** What [shutil.move] does once it knows where to: [os.rename], and the
    copy it falls back on when that is refused.  A directory is refused
    over anything that is not a directory, and its copy, made with
    [copytree], stops at the target that is there. *)
Definition rename_or_copy (fs : node) (src dst : Path) : result node :=
  match lstat fs src, lstat fs dst with
  | Some (Dir _), Some (File _ | Symlink _ | Special) =>
      Err (Lib FileExistsError dst)
  | _, _ => rename fs src dst
  end.

(** [shutil.move]: into [dst] when [dst] is a directory, onto it
    otherwise. *)
Definition move (src dst : Path) : M unit :=
  issue (Move src dst) (fun fs =>
    if is_dir fs dst then
      let real_dst := child dst (name src) in
      if path_exists fs real_dst then Err (Lib ShutilError real_dst)
      else rename_or_copy fs src real_dst
    else rename_or_copy fs src dst).

(** [shutil.copytree] of a source directory (a link to one is followed)
    that holds files and directories only, as the bundles of the
    properties below do: it is reproduced at [dst], which must be free.
    With a link inside the tree the library copies what the link leads
    to, and raises when it leads nowhere; this is not modelled.  [dst] is
    created in a directory that exists, as it does wherever the
    installers copy. *)
Definition copytree (src dst : Path) : M unit :=
  issue (Copytree src dst) (fun fs =>
    match stat fs src with
    | None => Err (Lib FileNotFoundError src)
    | Some (Dir es) =>
        match lstat fs dst with
        | Some _ => Err (Lib FileExistsError dst)
        | None => put_or FileNotFoundError fs dst (Some (Dir es))
        end
    | Some _ => Err (Lib NotADirectoryError src)
    end).

(** [open(p, "w").write(c)]: a link is followed, a missing file is
    created. *)
Fixpoint write_go (fuel : nat) (fs : node) (p : Path) (c : string)
  : result node :=
  match lstat fs p with
  | Some (Symlink t) =>
      match fuel with
      | O => Err (Lib OSError p)
      | S k => write_go k fs t c
      end
  | Some (Dir _) => Err (Lib IsADirectoryError p)
  | Some Special => Err (Lib OSError p)
  | Some (File _) | None => put_or FileNotFoundError fs p (Some (File c))
  end.

(** [Path.write_text]. *)
Definition write_text (p : Path) (c : string) : M unit :=
  issue (WriteText p) (fun fs => write_go max_links fs p c).

(** [open(p, "rb").read()]. *)
Definition read_bytes (p : Path) : M string := fun w =>
  match stat (w_fs w) p with
  | Some (File c) => (w, Ok c)
  | Some (Dir _) => (w, Err (Lib IsADirectoryError p))
  | Some _ => (w, Err (Lib OSError p))
  | None => (w, Err (Lib FileNotFoundError p))
  end.

(** [Path.read_text]: the bytes are decoded as UTF-8, the encoding of the
    locale; bytes that are not UTF-8 raise [UnicodeDecodeError], which is
    a [ValueError].  The translation of line ends is left out: the one
    reader of the text cuts it with [splitlines], for which a carriage
    return, a line feed and the two in a row end a line alike. *)
Definition read_text (p : Path) : M string :=
  bytes ← read_bytes p;
  if Str.valid_utf8 bytes then mret bytes else raise (Lib ValueError p).

(** [shutil.copy2]: into [dst] when [dst] is a directory, onto it
    otherwise. *)
Definition copy2 (src dst : Path) : M unit :=
  issue (Copy2 src dst) (fun fs =>
    match stat fs src with
    | Some (File c) =>
        write_go max_links fs
          (if is_dir fs dst then child dst (name src) else dst) c
    | Some (Dir _) => Err (Lib IsADirectoryError src)
    | Some _ => Err (Lib OSError src)
    | None => Err (Lib FileNotFoundError src)
    end).

(** [Path.iterdir], as a list. *)
Definition iterdir (p : Path) : M (list Path) := fun w =>
  match stat (w_fs w) p with
  | Some (Dir es) => (w, Ok (child p <$> (map_to_list es).*1))
  | Some _ => (w, Err (Lib NotADirectoryError p))
  | None => (w, Err (Lib FileNotFoundError p))
  end.

(** [Path.symlink_to]. *)
Definition symlink_to (link target : Path) : M unit :=
  issue (SymlinkTo link target) (fun fs =>
    match lstat fs link with
    | Some _ => Err (Lib FileExistsError link)
    | None => put_or FileNotFoundError fs link (Some (Symlink target))
    end).

(** [git clone <url> dst]: [dst] must be free or an empty directory. *)
Definition git_clone (origin : option node) (dst : Path) : M unit :=
  issue (GitClone dst) (fun fs =>
    match origin with
    | None => Err (Lib CalledProcessError dst)
    | Some tree =>
        match lstat fs dst with
        | None => put_or CalledProcessError fs dst (Some tree)
        | Some (Dir es) =>
            if (size es =? 0)%nat
            then put_or CalledProcessError fs dst (Some tree)
            else Err (Lib CalledProcessError dst)
        | Some _ => Err (Lib CalledProcessError dst)
        end
    end).

Definition nl : string := String Str.lf EmptyString.

(** What [input] hands back: a line, the end of the input, or the
    operator's interrupt. *)
Inductive console :=
  | Line (s : string)
  | EndOfFile
  | Interrupt.

(** ** [claude/project_setup/install.py] *)

Module Project.

Definition excluded_dirs (env : Env) : list Path :=
  [ home env;
    child (home env) "Documents";
    child (home env) "Desktop";
    child (home env) "Downloads";
    ["tmp"]; ["var"]; ["Users"]; ["home"]; ["System"]; ["usr"]; ["opt"] ].

Fixpoint check_excluded (env : Env) (resolved_target : Path)
  (excluded : list Path) : M unit :=
  match excluded with
  | [] => mret tt
  | ex :: rest =>
      excluded_resolved ← ask (fun fs => resolve env fs ex);
      if decide (resolved_target = excluded_resolved)
      then raise (UnsafeDirectory ex)
      else check_excluded env resolved_target rest
  end.

Definition check_safe_directory (env : Env) (target_dir : Path) : M unit :=
  resolved_target ← ask (fun fs => resolve env fs target_dir);
  check_excluded env resolved_target (excluded_dirs env).

Definition temp_roots : list Path :=
  [ ["tmp"];
    ["private"; "var"; "folders"];
    ["var"; "folders"];
    ["var"; "tmp"];
    ["private"; "tmp"] ].

(** The loop that sets [is_safe]. *)
Fixpoint scan_roots (is_safe : bool) (roots : list Path) (resolved_path : Path)
  : bool :=
  match roots with
  | [] => is_safe
  | single_root :: rest =>
      scan_roots
        (if bool_decide (single_root ∈ parents resolved_path) then true
         else is_safe)
        rest resolved_path
  end.

Definition safe_delete (env : Env) (path : Path) (directory_okay : bool)
  : M unit :=
  if (euid env =? 0)%Z then raise RootDeletion
  else
    resolved_path ← ask (fun fs => resolve env fs path);
    if (length (parts resolved_path) <=? 1)%nat
    then raise (PathTooShort (length (parts resolved_path)) resolved_path)
    else
      let is_safe := scan_roots false temp_roots resolved_path in
      if negb is_safe then raise (UnsafeDeletion resolved_path)
      else
        d ← ask (fun fs => is_dir fs resolved_path);
        if d && directory_okay then rmtree resolved_path
        else if d && negb directory_okay
        then raise (UnexpectedDirectory resolved_path)
        else
          f ← ask (fun fs => is_file fs resolved_path);
          l ← ask (fun fs => is_symlink fs resolved_path);
          if f || l then unlink resolved_path
          else
            e ← ask (fun fs => path_exists fs resolved_path);
            if negb e then raise (PathNotFound resolved_path)
            else raise (FishyPath resolved_path).

Definition marker : string := "@agent_instructions/languages/".

(** The test one line of the manifest goes through. *)
Definition keep_line (keep_languages : list string) (line : string) : bool :=
  if Str.contains marker line then
    let parts := Str.split_on marker line in
    if (1 <? length parts)%nat then
      let lang_part :=
        default EmptyString
          (head (Str.split_on "/" (default EmptyString (parts !! 1%nat)))) in
      bool_decide (lang_part ∈ keep_languages)
    else false
  else true.

(** The loop that fills [filtered_lines]. *)
Fixpoint filter_lines (keep_languages : list string) (filtered_lines : list string)
  (lines : list string) : list string :=
  match lines with
  | [] => filtered_lines
  | line :: rest =>
      filter_lines keep_languages
        (if keep_line keep_languages line
         then filtered_lines ++ [line] else filtered_lines)
        rest
  end.

Definition clean_claude_md (claude_md_path : Path) (keep_languages : list string)
  : M unit :=
  f ← ask (fun fs => is_file fs claude_md_path);
  if negb f then raise (ManifestNotFound claude_md_path)
  else
    match keep_languages with
    | [] => raise NoLanguagesForManifest
    | _ =>
        text ← read_text claude_md_path;
        let lines := Str.splitlines text in
        let filtered_lines := filter_lines keep_languages [] lines in
        write_text claude_md_path (Str.join nl filtered_lines +:+ nl)
    end.

Definition languages_dir (temp_source_dir : Path) : Path :=
  child (child temp_source_dir "agent_instructions") "languages".

Definition clean_language_files (env : Env) (temp_source_dir : Path)
  (keep_languages : list string) : M unit :=
  match keep_languages with
  | [] => raise NoLanguagesToKeep
  | _ =>
      let lang_dir := languages_dir temp_source_dir in
      e ← ask (fun fs => path_exists fs lang_dir);
      if negb e then raise (LanguagesDirNotFound lang_dir)
      else
        entries ← iterdir lang_dir;
        for_each entries (fun lang_path =>
          d ← ask (fun fs => is_dir fs lang_path);
          when (d && negb (bool_decide (name lang_path ∈ keep_languages)))
            (safe_delete env lang_path true))
  end.

(** One word of the answer: a number picks by position, anything else is
    taken as a name.  A word of digits that [int] refuses raises the
    [ValueError] of [int]. *)
Definition select_part (available_languages : list string) (part : string)
  : result string :=
  if Str.isdigit part then
    match Str.int part with
    | None => Err (Lib ValueError [])
    | Some n =>
        let index := (n - 1)%Z in
        if ((0 <=? index) && (index <? Z.of_nat (length available_languages)))%Z
        then
          match available_languages !! Z.to_nat index with
          | Some lang => Ok lang
          | None => Err (Lib IndexError [])
          end
        else Err (InvalidNumber part)
    end
  else if bool_decide (part ∈ available_languages) then Ok part
  else Err (UnknownLanguage part).

(** The loop that fills [chosen_languages]; it stops at the first word
    that raises. *)
Fixpoint select_parts (available_languages : list string)
  (chosen_languages : list string) (parts : list string)
  : result (list string) :=
  match parts with
  | [] => Ok chosen_languages
  | part :: rest =>
      match select_part available_languages part with
      | Ok lang =>
          select_parts available_languages (chosen_languages ++ [lang]) rest
      | Err e => Err e
      end
  end.

(** The loop that removes duplicates: [seen] is the set, the result is
    [unique_languages]. *)
Fixpoint unique_go (seen : gset string) (unique_languages : list string)
  (chosen_languages : list string) : list string :=
  match chosen_languages with
  | [] => unique_languages
  | lang :: rest =>
      if bool_decide (lang ∈ seen)
      then unique_go seen unique_languages rest
      else unique_go ({[lang]} ∪ seen) (unique_languages ++ [lang]) rest
  end.

Definition choose_languages_interactively (available_languages : list string)
  (answer : console) : result (list string) :=
  match answer with
  | Interrupt => Err Cancelled
  | EndOfFile => Err EndOfInput
  | Line s =>
      let user_input := Str.strip s in
      match user_input with
      | EmptyString => Err NoLanguagesSelected
      | _ =>
          match select_parts available_languages [] (Str.split user_input) with
          | Ok chosen_languages => Ok (unique_go ∅ [] chosen_languages)
          | Err e => Err e
          end
      end
  end.

(** The loop that fills [conflicts]. *)
Fixpoint find_conflicts (dest_dir : Path) (conflicts : list string)
  (source_items : list Path) : M (list string) :=
  match source_items with
  | [] => mret conflicts
  | source_item :: rest =>
      let dest_item := child dest_dir (name source_item) in
      e ← ask (fun fs => path_exists fs dest_item);
      find_conflicts dest_dir
        (if e : bool then conflicts ++ [name dest_item] else conflicts) rest
  end.

Definition backup_name (timestamp : string) : string :=
  ".claude_backup_" +:+ timestamp.

Definition backup_conflicting_files (env : Env) (dest_dir : Path)
  (source_items : list Path) : M unit :=
  conflicts ← find_conflicts dest_dir [] source_items;
  match conflicts with
  | [] => mret tt
  | _ =>
      let timestamp := now env in
      let backup_dir := child dest_dir (backup_name timestamp) in
      mkdir backup_dir ;;
      for_each conflicts (fun item_name =>
        let source_path := child dest_dir item_name in
        let dest_path := child backup_dir item_name in
        move source_path dest_path)
  end.

Definition files_to_remove : list string :=
  ["README.md"; "install.sh"; "install.py"].

(** The final loop of [install_configuration]. *)
Definition copy_items (dest_dir : Path) (source_items : list Path) : M unit :=
  for_each source_items (fun item =>
    let dest := child dest_dir (name item) in
    d ← ask (fun fs => is_dir fs item);
    if d : bool then
      e ← ask (fun fs => path_exists fs dest);
      when e (rmtree dest) ;;
      copytree item dest
    else copy2 item dest).

(** [Path(s).parts] below the root: what stands between the slashes, the
    empty and the "." components dropped. *)
Definition components (s : string) : list string :=
  filter (fun c => c <> EmptyString /\ c <> ".") (Str.split_on "/" s).

(** How the system walks the components of a path from the directory
    [cur]: each component is entered from a directory, and ".." leads
    back to the parent. *)
Fixpoint walk (fs : node) (cur : Path) (comps : list string) : option Path :=
  match comps with
  | [] => Some cur
  | c :: comps' =>
      match lstat fs cur with
      | Some (Dir _) =>
          walk fs (if decide (c = "..") then parent cur else child cur c) comps'
      | _ => None
      end
  end.

(** [(p / s).exists()] for any string [s]: the components of [s] are
    joined to [p], or stand for themselves when [s] is absolute, and the
    path is walked. *)
Definition join_exists (fs : node) (p : Path) (s : string) : bool :=
  match walk fs (if Str.is_prefix "/" s then [] else p) (components s) with
  | Some q => path_exists fs q
  | None => false
  end.

Definition install_configuration (env : Env) (dest_dir temp_source_dir : Path)
  (languages : list string) : M unit :=
  let lang_dir := languages_dir temp_source_dir in
  for_each languages (fun lang =>
    e ← ask (fun fs => join_exists fs lang_dir lang);
    when (negb e) (raise (LanguageNotFound lang))) ;;
  clean_language_files env temp_source_dir languages ;;
  clean_claude_md (child temp_source_dir "CLAUDE.md") languages ;;
  for_each files_to_remove (fun file_name =>
    let file_path := child temp_source_dir file_name in
    e ← ask (fun fs => path_exists fs file_path);
    when e (unlink file_path)) ;;
  source_items ← iterdir temp_source_dir;
  backup_conflicting_files env dest_dir source_items ;;
  copy_items dest_dir source_items.

End Project.

(** ** [claude/user_setup/install.py] *)

Module User.

Definition check_safe_directory (env : Env) (config_dir : Path) : M unit :=
  let home_dir := home env in
  resolved ← ask (fun fs => resolve env fs config_dir);
  resolved_home ← ask (fun fs => resolve env fs home_dir);
  match relative_to resolved resolved_home with
  | Some _ => mret tt
  | None => raise (NotRelativeTo resolved resolved_home)
  end.

Definition backup_existing_config (env : Env) (config_dir : Path) : M unit :=
  e ← ask (fun fs => path_exists fs config_dir);
  if negb e then mret tt
  else
    let timestamp := now env in
    let backup_dir := child (home env) (".claude_backup_" +:+ timestamp) in
    move config_dir backup_dir.

Definition install_with_git_clone (env : Env) (config_dir : Path) : M unit :=
  let repo_dir := child config_dir "instructions_repository_clone" in
  git_clone (remote env) repo_dir ;;
  let user_setup_dir := child (child repo_dir "claude") "user_setup" in
  e ← ask (fun fs => path_exists fs user_setup_dir);
  if negb e then raise (UserSetupNotFound user_setup_dir)
  else
    let claude_md := child user_setup_dir "CLAUDE.md" in
    e ← ask (fun fs => path_exists fs claude_md);
    if negb e then raise (ManifestMissing claude_md)
    else
      symlink_to (child config_dir "CLAUDE.md") claude_md ;;
      let commands_dir := child user_setup_dir "commands" in
      e ← ask (fun fs => path_exists fs commands_dir);
      when e (symlink_to (child config_dir "commands") commands_dir).

Definition main (env : Env) : M unit :=
  let config_dir := child (home env) ".claude" in
  if (euid env =? 0)%Z then raise RootRun
  else
    backup_existing_config env config_dir ;;
    mkdir config_dir ;;
    install_with_git_clone env config_dir.

End User.

(** ** Reference definitions for the language selection *)

(** A word of the answer is acceptable: a number between one and the
    number of available languages, or the name of one of them.  A word
    made of digits is a number when [int] converts it. *)
Definition part_ok (available_languages : list string) (part : string) : bool :=
  if Str.isdigit part
  then
    match Str.int part with
    | Some n => ((1 <=? n) && (n <=? Z.of_nat (length available_languages)))%Z
    | None => false
    end
  else bool_decide (part ∈ available_languages).

(** The language an acceptable word stands for. *)
Definition part_value (available_languages : list string) (part : string) : string :=
  if Str.isdigit part
  then
    default EmptyString
      (available_languages !! Z.to_nat (default 0%Z (Str.int part) - 1))
  else part.

(** The error an unacceptable word raises: of a word made of digits, the
    invalid-number error when it is a number and the error of [int] when
    it is not; the unknown-language error of any other word. *)
Definition part_error (part : string) : error :=
  if Str.isdigit part then
    match Str.int part with
    | Some _ => InvalidNumber part
    | None => Lib ValueError []
    end
  else UnknownLanguage part.

(** A list without its repetitions, every element at its first place. *)
Fixpoint first_seen (l : list string) : list string :=
  match l with
  | [] => []
  | x :: l' => x :: filter (fun y => y ≠ x) (first_seen l')
  end.

(** ** Sample surroundings used in the examples *)

(** A user [alice], no link in sight: every path resolves to itself. *)
Definition plain_env : Env :=
  {| euid := 1000;
     home := ["home"; "alice"];
     now := "20250914_120000";
     resolve := fun _ p => p;
     remote := None |}.

Definition dir_of (l : list (string * node)) : node := Dir (list_to_map l).

Definition empty_world : World := mkWorld (Dir ∅) [].

(** ** Reference definitions for paths and trees *)

(** [p] lies strictly inside [root]. *)
Definition strictly_inside (root p : Path) : Prop :=
  exists rest, rest <> [] /\ p = root ++ rest.

(** No symbolic link at [p] nor on the way to it: the path is one that
    [Path.resolve] returns. *)
Definition link_free (fs : node) (p : Path) : Prop :=
  forall q t, q `prefix_of` p -> lstat fs q <> Some (Symlink t).

(** A name a directory entry can bear: not empty, without a slash, and
    neither "." nor "..". *)
Definition plain_name (s : string) : bool :=
  negb (Str.contains "/" s) && negb (bool_decide (s ∈ [EmptyString; "."; ".."])).

(** The tree [fs] with the node at [d] replaced by [sub]. *)
Definition graft (fs : node) (d : Path) (sub : node) : option node :=
  match d with
  | [] => Some sub
  | _ :: _ => put fs d (Some sub)
  end.

(** A scratch area under /tmp holding a directory, a file, a link that
    leads nowhere and a device. *)
Definition scratch_fs : node :=
  dir_of [("tmp", dir_of [("work", dir_of [
    ("d", dir_of [("inner.txt", File "x")]);
    ("f", File "data");
    ("l", Symlink ["nowhere"]);
    ("s", Special)])])].

Definition scratch_world : World := mkWorld scratch_fs [].

Definition root_env : Env :=
  {| euid := 0;
     home := ["root"];
     now := "20250914_120000";
     resolve := fun _ p => p;
     remote := None |}.

(** ** Reference definitions for the manifest filter *)

(** The language a manifest line names: what stands between the first
    marker and the next slash, when the line can be cut at a marker. *)
Definition language_segment (line : string) : option string :=
  match Str.split_on Project.marker line with
  | _ :: after :: _ => head (Str.split_on "/" after)
  | _ => None
  end.

Definition sample_manifest : string :=
  "@agent_instructions/languages/python/x.md" +:+ nl +:+
  "@agent_instructions/languages/go/y.md" +:+ nl +:+
  "plain text" +:+ nl.

Definition manifest_world : World :=
  mkWorld (dir_of [("tmp", dir_of [("src", dir_of [
    ("CLAUDE.md", File sample_manifest)])])]) [].

(** ** Sample surroundings with links *)

(** Follows the links at the end of a path, as [Path.resolve] does. *)
Fixpoint chase (fuel : nat) (fs : node) (p : Path) : Path :=
  match lstat fs p with
  | Some (Symlink t) =>
      match fuel with
      | O => p
      | S k => chase k fs t
      end
  | _ => p
  end.

(** What a clone delivers: the manifest and the commands folder of the
    user setup. *)
Definition full_repo : node :=
  dir_of [("claude", dir_of [("user_setup", dir_of [
    ("CLAUDE.md", File "instructions");
    ("commands", dir_of [("review.md", File "review")])])])].

(** A clone whose user setup has the manifest and no commands folder. *)
Definition repo_without_commands : node :=
  dir_of [("claude", dir_of [("user_setup", dir_of [
    ("CLAUDE.md", File "instructions")])])].

Definition linked_env (origin : node) : Env :=
  {| euid := 1000;
     home := ["home"; "alice"];
     now := "20250914_120000";
     resolve := chase max_links;
     remote := Some origin |}.

(** The configuration directory of [alice] is a link to a directory
    outside her home. *)
Definition linked_world : World :=
  mkWorld (dir_of [
    ("home", dir_of [("alice", dir_of [(".claude", Symlink ["opt"; "cfg"])])]);
    ("opt", dir_of [("cfg", dir_of [("old.md", File "old")])])]) [].

(** [alice] has a fresh, empty configuration directory. *)
Definition fresh_config_world : World :=
  mkWorld (dir_of [
    ("home", dir_of [("alice", dir_of [(".claude", Dir ∅)])])]) [].

(** ** Sample destination for the backup manager *)

(** A project directory holding foo.txt and notes.md, and a scratch copy
    of a bundle with foo.txt and bar.txt. *)
Definition project_world : World :=
  mkWorld (dir_of [
    ("work", dir_of [("proj", dir_of [
      ("foo.txt", File "old foo");
      ("notes.md", File "mine")])]);
    ("tmp", dir_of [("src", dir_of [
      ("foo.txt", File "new foo");
      ("bar.txt", File "new bar")])])]) [].

(** The [Move] calls that put the colliding names into the backup
    directory. *)
Definition backup_moves (dest_dir : Path) (b : string) (conflicts : list string)
  : list event :=
  (fun n => Move (child dest_dir n) (child (child dest_dir b) n)) <$> conflicts.

(** ** Sample bundle and destinations for the project installer *)

(** A scratch copy of the bundle: the manifest, two languages, the
    packaging files. *)
Definition sample_bundle : node :=
  dir_of [
    ("CLAUDE.md", File sample_manifest);
    ("README.md", File "readme");
    ("install.py", File "installer");
    ("agent_instructions", dir_of [("languages", dir_of [
      ("python", dir_of [("x.md", File "python rules")]);
      ("go", dir_of [("y.md", File "go rules")])])])].

(** The destination holds a link named like the bundle's directory; it
    points at the manifest the installer is about to copy, which is not
    there yet. *)
Definition dangling_world : World :=
  mkWorld (dir_of [
    ("work", dir_of [("proj", dir_of [
      ("agent_instructions", Symlink ["work"; "proj"; "CLAUDE.md"])])]);
    ("tmp", dir_of [("src", sample_bundle)])]) [].

(** An empty destination. *)
Definition empty_dest_world : World :=
  mkWorld (dir_of [
    ("work", dir_of [("proj", Dir ∅)]);
    ("tmp", dir_of [("src", sample_bundle)])]) [].
(** ** The two phases of [install_configuration] *)

(** The first phase: the languages are validated and the scratch copy is
    cleaned (up to the removal of the packaging files). *)
Definition prepare_source (env : Env) (temp_source_dir : Path)
  (languages : list string) : M unit :=
  let lang_dir := Project.languages_dir temp_source_dir in
  for_each languages (fun lang =>
    e ← ask (fun fs => Project.join_exists fs lang_dir lang);
    when (negb e) (raise (LanguageNotFound lang))) ;;
  Project.clean_language_files env temp_source_dir languages ;;
  Project.clean_claude_md (child temp_source_dir "CLAUDE.md") languages ;;
  for_each Project.files_to_remove (fun file_name =>
    let file_path := child temp_source_dir file_name in
    e ← ask (fun fs => path_exists fs file_path);
    when e (unlink file_path)).

(** The second phase: the items are listed, colliding entries are backed
    up, the items are copied. *)
Definition install_items (env : Env) (dest_dir temp_source_dir : Path) : M unit :=
  source_items ← iterdir temp_source_dir;
  Project.backup_conflicting_files env dest_dir source_items ;;
  Project.copy_items dest_dir source_items.

(** A call that deletes. *)
Definition is_removal (ev : event) : bool :=
  match ev with
  | Rmtree _ | Unlink _ => true
  | _ => false
  end.

(** A call the copy loop issues when it copies. *)
Definition is_copy (ev : event) : bool :=
  match ev with
  | Copytree _ _ | Copy2 _ _ => true
  | _ => false
  end.

(** The names of the entries of a directory, as [iterdir] lists them. *)
Definition listing (es : gmap string node) : list string := (map_to_list es).*1.

(** The destination already holds a manifest and a file of its own. *)
Definition used_dest_world : World :=
  mkWorld (dir_of [
    ("work", dir_of [("proj", dir_of [
      ("CLAUDE.md", File "old manifest");
      ("notes.md", File "mine")])]);
    ("tmp", dir_of [("src", sample_bundle)])]) [].

(** The entries of the directory at a path, nothing when there is no
    directory there. *)
Definition entries_at (fs : node) (p : Path) : gmap string node :=
  match stat fs p with
  | Some (Dir es) => es
  | _ => ∅
  end.

(** ** Reference definitions for a whole installation *)

Definition is_dir_node (n : node) : bool :=
  match n with Dir _ => true | _ => false end.

Definition is_link_node (n : node) : bool :=
  match n with Symlink _ => true | _ => false end.

(** A file or a directory. *)
Definition is_plain (n : node) : bool :=
  match n with File _ | Dir _ => true | _ => false end.

(** Files and directories only, all the way down. *)
Definition plain_tree (n : node) : Prop :=
  forall p m, lstat n p = Some m -> is_plain m = true.

(** The entry is a directory that is not kept. *)
Definition dropped_language (languages : list string) (k : string)
  (o : option node) : bool :=
  match o with
  | Some (Dir _) => negb (bool_decide (k ∈ languages))
  | _ => false
  end.

(** The languages folder once the directories of the other languages are
    gone. *)
Definition kept_languages (languages : list string) (les : gmap string node)
  : gmap string node :=
  filter (fun kn => dropped_language languages kn.1 (Some kn.2) = false) les.

(** The manifest once filtered. *)
Definition filtered_manifest (languages : list string) (content : string)
  : string :=
  Str.join nl (Project.filter_lines languages [] (Str.splitlines content)) +:+ nl.

(** The entries of the scratch copy once it is cleaned. *)
Definition cleaned_bundle (languages : list string) (ses : gmap string node)
  : gmap string node :=
  match ses !! "agent_instructions", ses !! "CLAUDE.md" with
  | Some (Dir ai), Some (File c) =>
      match ai !! "languages" with
      | Some (Dir les) =>
          foldl (fun m f => delete f m)
            (<["CLAUDE.md" := File (filtered_manifest languages c)]>
               (<["agent_instructions" :=
                    Dir (<["languages" := Dir (kept_languages languages les)]> ai)]>
                  ses))
            Project.files_to_remove
      | _ => ses
      end
  | _, _ => ses
  end.

(** A bundle the installer can clean and copy: languages are asked for
    by their plain names and are there, the manifest is a file that holds
    text, the packaging files are files, and the bundle is made of files
    and directories only. *)
Record bundle_ok (languages : list string) (ses : gmap string node) : Prop := {
  bundle_languages : languages <> [];
  bundle_names : forall lang, lang ∈ languages -> plain_name lang = true;
  bundle_tree :
    exists ai les c,
      ses !! "agent_instructions" = Some (Dir ai)
      /\ ai !! "languages" = Some (Dir les)
      /\ ses !! "CLAUDE.md" = Some (File c)
      /\ Str.valid_utf8 c = true
      /\ (forall lang, lang ∈ languages -> is_Some (les !! lang));
  bundle_packaging :
    forall f n, f ∈ Project.files_to_remove -> ses !! f = Some n ->
                exists c, n = File c;
  bundle_plain : plain_tree (Dir ses)
}.

(** Where the installer runs: not as root, with a scratch directory
    strictly inside a temporary root; [Path.resolve] returns as it is a
    path below the scratch directory that holds no link. *)
Record scratch_ok (env : Env) (temp_source_dir : Path) : Prop := {
  scratch_user : euid env <> 0%Z;
  scratch_resolved :
    forall fs p, link_free fs (temp_source_dir ++ p) ->
                 resolve env fs (temp_source_dir ++ p) = temp_source_dir ++ p;
  scratch_temp :
    exists root, root ∈ Project.temp_roots
                 /\ strictly_inside root temp_source_dir
}.

(** Neither path lies inside the other. *)
Definition apart (p q : Path) : Prop :=
  ¬ p `prefix_of` q /\ ¬ q `prefix_of` p.

(** ** Two installations in a row *)

(** The same surroundings, five minutes later. *)
Definition later_env : Env :=
  {| euid := 1000;
     home := ["home"; "alice"];
     now := "20250914_120500";
     resolve := fun _ p => p;
     remote := None |}.

(** The bundle is extracted afresh into the scratch directory. *)
Definition extract_again (w : World) : World :=
  mkWorld (default (w_fs w) (put (w_fs w) ["tmp"; "src"] (Some sample_bundle)))
    (w_log w).

Definition sample_languages : gmap string node :=
  list_to_map [
    ("python", dir_of [("x.md", File "python rules")]);
    ("go", dir_of [("y.md", File "go rules")])].

Definition sample_instructions : gmap string node :=
  list_to_map [("languages", Dir sample_languages)].

Definition sample_entries : gmap string node :=
  list_to_map [
    ("CLAUDE.md", File sample_manifest);
    ("README.md", File "readme");
    ("install.py", File "installer");
    ("agent_instructions", Dir sample_instructions)].

Definition used_entries : gmap string node :=
  list_to_map [("CLAUDE.md", File "old manifest"); ("notes.md", File "mine")].

(** ** More sample destinations *)

(** The destination holds a manifest and a backup directory under the
    name the next backup would take. *)
Definition stale_backup_entries : gmap string node :=
  list_to_map [
    ("CLAUDE.md", File "old manifest");
    (".claude_backup_20250914_120000", Dir ∅)].

Definition stale_backup_world : World :=
  mkWorld (dir_of [
    ("work", dir_of [("proj", Dir stale_backup_entries)]);
    ("tmp", dir_of [("src", sample_bundle)])]) [].

(** The destination holds a manifest and a README of its own. *)
Definition readme_entries : gmap string node :=
  list_to_map [
    ("README.md", File "about this project");
    ("CLAUDE.md", File "old manifest")].

Definition readme_dest_world : World :=
  mkWorld (dir_of [
    ("work", dir_of [("proj", Dir readme_entries)]);
    ("tmp", dir_of [("src", sample_bundle)])]) [].

(** ** Reference definitions for the user installation *)

(** The name under which the user script saves a configuration. *)
Definition user_backup_name (env : Env) : string :=
  ".claude_backup_" +:+ now env.

(** The entries of the home directory once the old configuration, if
    there is one, is saved. *)
Definition saved_home (env : Env) (hs : gmap string node) : gmap string node :=
  match hs !! ".claude" with
  | Some n => <[user_backup_name env := n]> (delete ".claude" hs)
  | None => hs
  end.

(** The entries of a configuration directory once installed: the clone,
    the link to its manifest and, when the clone has a commands folder,
    the link to it. *)
Definition installed_config (config_dir : Path) (repo : node)
  (commands : bool) : gmap string node :=
  let user_setup_dir :=
    child (child (child config_dir "instructions_repository_clone") "claude")
      "user_setup" in
  let base : gmap string node :=
    <["CLAUDE.md" := Symlink (child user_setup_dir "CLAUDE.md")]>
      {["instructions_repository_clone" := repo]} in
  if commands
  then <["commands" := Symlink (child user_setup_dir "commands")]> base
  else base.

(** [alice] has a configuration of her own. *)
Definition old_config_entries : gmap string node :=
  list_to_map [(".claude", dir_of [("settings.json", File "mine")])].

Definition old_config_world : World :=
  mkWorld (dir_of [("home", dir_of [("alice", Dir old_config_entries)])]) [].

(** The configuration of [alice] is a link that leads nowhere. *)
Definition dangling_config_world : World :=
  mkWorld (dir_of [
    ("home", dir_of [("alice", dir_of [(".claude", Symlink ["nowhere"])])])]) [].

(** ** The command line of [claude/project_setup/install.py] *)

(** What a zip archive of the repository unpacks to: one folder, as the
    archives of a branch are made, and its entries. *)
Record Archive := mkArchive {
  zip_root : string;
  zip_tree : gmap string node
}.

(** One run of the command: the working directory, the parsed arguments,
    what [input] hands back, what each of the two downloads delivers
    (nothing when it fails), how [zipfile] reads the bytes of an archive
    (nothing when they are no archive), and the names [mkdtemp] settles
    on for the two temporary directories. *)
Record Invocation := mkInvocation {
  cwd : Path;
  arg_languages : list string;
  arg_interactive : bool;
  answer : console;
  listing_download : option string;
  install_download : option string;
  unzip : string -> option Archive;
  listing_temp : Path;
  install_temp : Path
}.

(** The exceptions of the command: those of the functions above, those
    of the download and of [zipfile], and the two [raise] of its own. *)
Inductive cli_error :=
  | Script (e : error)
  | URLError
  | BadZipFile (p : Path)
  | RepoLanguagesDirNotFound (p : Path)
  | ProjectSetupNotFound (p : Path).

Inductive outcome (A : Type) :=
  | Done (a : A)
  | Raised (e : cli_error).

Arguments Done {A} a.
Arguments Raised {A} e.

Definition Cli (A : Type) : Type := World -> World * outcome A.

#[global] Instance Cli_ret : MRet Cli := fun A a w => (w, Done a).

#[global] Instance Cli_bind : MBind Cli := fun A B f m w =>
  match m w with
  | (w', Done a) => f a w'
  | (w', Raised e) => (w', Raised e)
  end.

Definition throw {A} (e : cli_error) : Cli A := fun w => (w, Raised e).

Definition lift {A} (m : M A) : Cli A := fun w =>
  match m w with
  | (w', Ok a) => (w', Done a)
  | (w', Err e) => (w', Raised (Script e))
  end.

Definition lift_result {A} (r : result A) : Cli A := fun w =>
  match r with
  | Ok a => (w, Done a)
  | Err e => (w, Raised (Script e))
  end.

(** [TemporaryDirectory.cleanup]: the tree is removed; a directory that
    is gone already is passed over. *)
Definition cleanup (temp_dir : Path) : M unit :=
  issue (Rmtree temp_dir) (fun fs =>
    match lstat fs temp_dir with
    | None => Ok fs
    | Some (Dir _) => put_or OSError fs temp_dir None
    | Some (Symlink _) => Err (Lib OSError temp_dir)
    | Some _ => Err (Lib NotADirectoryError temp_dir)
    end).

(** [with tempfile.TemporaryDirectory(...) as temp_dir: body]: the
    directory is made under the name [mkdtemp] settles on, and removed
    when the body returns and when it raises. *)
Definition with_temporary_directory {A} (temp_dir : Path) (body : Cli A) : Cli A :=
  fun w =>
    match mkdir temp_dir w with
    | (w1, Err e) => (w1, Raised (Script e))
    | (w1, Ok _) =>
        match body w1 with
        | (w2, r) =>
            match cleanup temp_dir w2 with
            | (w3, Ok _) => (w3, r)
            | (w3, Err e) => (w3, Raised (Script e))
            end
        end
    end.

(** [urllib.request.urlretrieve(url, filename)]. *)
Definition urlretrieve (download : option string) (filename : Path) : Cli unit :=
  match download with
  | None => throw URLError
  | Some bytes => lift (write_text filename bytes)
  end.

(** The members of an archive are written below [path], a directory:
    the root folder is made there with its entries.  A file of that name
    is in the way; the scripts extract into directories they have just
    made, where no directory of that name is met. *)
Definition extract_archive (a : Archive) (path : Path) : M unit := fun w =>
  let root := child path (zip_root a) in
  match stat (w_fs w) path with
  | Some (Dir _) =>
      match lstat (w_fs w) root with
      | None =>
          match put (w_fs w) root (Some (Dir (zip_tree a))) with
          | Some fs' => (mkWorld fs' (w_log w), Ok tt)
          | None => (w, Err (Lib OSError root))
          end
      | Some _ => (w, Err (Lib FileExistsError root))
      end
  | Some _ => (w, Err (Lib NotADirectoryError path))
  | None => (w, Err (Lib FileNotFoundError path))
  end.

(** [with zipfile.ZipFile(zip_path, "r") as zip_file:
    zip_file.extractall(path)]: the file is read, its bytes are taken
    for an archive, the members are written.  The extraction is seen in
    the file system only, the log has no call for it. *)
Definition extractall (inv : Invocation) (zip_path path : Path) : Cli unit :=
  bytes ← lift (read_bytes zip_path);
  match unzip inv bytes with
  | None => throw (BadZipFile zip_path)
  | Some a => lift (extract_archive a path)
  end.

Module ProjectCli.

Definition get_available_languages (inv : Invocation) : Cli (list string) :=
  let temp_dir := listing_temp inv in
  with_temporary_directory temp_dir (
    let zip_path := child temp_dir "repo.zip" in
    urlretrieve (listing_download inv) zip_path ;;
    extractall inv zip_path temp_dir ;;
    let lang_dir :=
      child (child (child (child (child temp_dir "ai-tool-config-main")
        "claude") "project_setup") "agent_instructions") "languages" in
    e ← lift (ask (fun fs => path_exists fs lang_dir));
    if negb e then throw (RepoLanguagesDirNotFound lang_dir)
    else
      entries ← lift (iterdir lang_dir);
      dirs ← lift (ask (fun fs => filter (fun p => is_dir fs p = true) entries));
      mret (name <$> dirs)).

Definition main (env : Env) (inv : Invocation) : Cli unit :=
  dest_dir ← lift (ask (fun fs => resolve env fs (cwd inv)));
  if (euid env =? 0)%Z then throw (Script RootRun)
  else
    lift (Project.check_safe_directory env dest_dir) ;;
    languages ←
      (if arg_interactive inv then
         available_languages ← get_available_languages inv;
         lift_result
           (Project.choose_languages_interactively available_languages
              (answer inv))
       else
         match arg_languages inv with
         | _ :: _ => mret (arg_languages inv)
         | [] => get_available_languages inv
         end);
    let temp_path := install_temp inv in
    with_temporary_directory temp_path (
      let zip_path := child temp_path "repo.zip" in
      urlretrieve (install_download inv) zip_path ;;
      let extract_dir := child temp_path "extract" in
      lift (mkdir extract_dir) ;;
      extractall inv zip_path extract_dir ;;
      let temp_source_dir :=
        child (child (child extract_dir "ai-tool-config-main") "claude")
          "project_setup" in
      e ← lift (ask (fun fs => path_exists fs temp_source_dir));
      if negb e then throw (ProjectSetupNotFound temp_source_dir)
      else
        lift (Project.install_configuration env dest_dir temp_source_dir
                languages)).

End ProjectCli.

(** The names of the entries that are directories, in the order
    [iterdir] lists them. *)
Definition directory_names (es : gmap string node) : list string :=
  filter (fun k => is_dir_node (default Special (es !! k)) = true) (listing es).

(** The path of the languages folder inside an archive. *)
Definition archive_languages : Path :=
  ["claude"; "project_setup"; "agent_instructions"; "languages"].

(** An archive of the repository with two languages, and a command that
    lists them. *)
Definition sample_archive : Archive :=
  {| zip_root := "ai-tool-config-main";
     zip_tree := list_to_map [("claude", dir_of [("project_setup", sample_bundle)])] |}.

Definition sample_unzip (bytes : string) : option Archive :=
  if String.eqb bytes "PK" then Some sample_archive else None.

Definition sample_invocation : Invocation :=
  {| cwd := ["work"; "proj"];
     arg_languages := ["python"];
     arg_interactive := false;
     answer := EndOfFile;
     listing_download := Some "PK";
     install_download := Some "PK";
     unzip := sample_unzip;
     listing_temp := ["tmp"; "claude_lang_check_k3"];
     install_temp := ["tmp"; "claude_install_x7"] |}.

(** The body of the [with] block of [main]: the archive is downloaded
    and extracted into the temporary directory, and the configuration is
    installed from it. *)
Definition download_and_install (env : Env) (inv : Invocation)
  (dest_dir : Path) (languages : list string) : Cli unit :=
  let temp_path := install_temp inv in
  let zip_path := child temp_path "repo.zip" in
  urlretrieve (install_download inv) zip_path ;;
  let extract_dir := child temp_path "extract" in
  lift (mkdir extract_dir) ;;
  extractall inv zip_path extract_dir ;;
  let temp_source_dir :=
    child (child (child extract_dir "ai-tool-config-main") "claude")
      "project_setup" in
  e ← lift (ask (fun fs => path_exists fs temp_source_dir));
  if negb e then throw (ProjectSetupNotFound temp_source_dir)
  else
    lift (Project.install_configuration env dest_dir temp_source_dir
            languages).

(** The path of the project setup inside an archive. *)
Definition archive_project_setup : Path := ["claude"; "project_setup"].

(** The same command with its languages given on the command line. *)
Definition with_languages (languages : list string) (inv : Invocation)
  : Invocation :=
  {| cwd := cwd inv;
     arg_languages := languages;
     arg_interactive := false;
     answer := answer inv;
     listing_download := listing_download inv;
     install_download := install_download inv;
     unzip := unzip inv;
     listing_temp := listing_temp inv;
     install_temp := install_temp inv |}.

(** The sample command run with [--interactive] and a language on the
    command line; the answer picks the second language listed. *)
Definition interactive_invocation : Invocation :=
  {| cwd := ["work"; "proj"];
     arg_languages := ["rust"];
     arg_interactive := true;
     answer := Line "2";
     listing_download := Some "PK";
     install_download := Some "PK";
     unzip := sample_unzip;
     listing_temp := ["tmp"; "claude_lang_check_k3"];
     install_temp := ["tmp"; "claude_install_x7"] |}.

(** The surroundings of [linked_env], five minutes later. *)
Definition later_linked_env (origin : node) : Env :=
  {| euid := 1000;
     home := ["home"; "alice"];
     now := "20250914_120500";
     resolve := chase max_links;
     remote := Some origin |}.

(** ** Sample surroundings where links are followed *)

(** The user [alice] again, with a [Path.resolve] that follows the link
    a path ends in. *)
Definition following_env : Env :=
  {| euid := 1000;
     home := ["home"; "alice"];
     now := "20250914_120000";
     resolve := chase max_links;
     remote := None |}.


(** A project directory in which foo.txt is a link that leads nowhere,
    and a scratch copy of a bundle with foo.txt. *)
Definition dangling_entry_world : World :=
  mkWorld (dir_of [
    ("work", dir_of [("proj", dir_of [
      ("foo.txt", Symlink ["nowhere"]);
      ("notes.md", File "mine")])]);
    ("tmp", dir_of [("src", dir_of [("foo.txt", File "new foo")])])]) [].

(** * Properties *)

(** ** Running computations *)

Lemma bind_ask {A B} (f : node -> A) (k : A -> M B) w :
  (ask f ≫= k) w = k (f (w_fs w)) w.
Proof. reflexivity. Qed.

Lemma bind_ret {A B} (a : A) (k : A -> M B) w : (mret a ≫= k) w = k a w.
Proof. reflexivity. Qed.

Lemma bind_raise {A B} (e : error) (k : A -> M B) w :
  (raise e ≫= k) w = (w, Err e).
Proof. reflexivity. Qed.

Lemma bind_ok {A B} (m : M A) (k : A -> M B) w w' a :
  m w = (w', Ok a) -> (m ≫= k) w = k a w'.
Proof. intros H. unfold mbind, M_bind. by rewrite H. Qed.

Lemma bind_err {A B} (m : M A) (k : A -> M B) w w' e :
  m w = (w', Err e) -> (m ≫= k) w = (w', Err e).
Proof. intros H. unfold mbind, M_bind. by rewrite H. Qed.

Lemma bind_assoc {A B C} (m : M A) (k : A -> M B) (h : B -> M C) w :
  ((m ≫= k) ≫= h) w = (m ≫= (fun a => k a ≫= h)) w.
Proof.
  unfold mbind, M_bind. destruct (m w) as [w' [a | e]]; reflexivity.
Qed.


Lemma read_text_run w p c :
  stat (w_fs w) p = Some (File c) -> Str.valid_utf8 c = true ->
  read_text p w = (w, Ok c).
Proof.
  intros Hst Hv. unfold read_text, mbind, M_bind, read_bytes.
  by rewrite Hst, Hv.
Qed.

Lemma read_text_undecodable w p c :
  stat (w_fs w) p = Some (File c) -> Str.valid_utf8 c = false ->
  read_text p w = (w, Err (Lib ValueError p)).
Proof.
  intros Hst Hv. unfold read_text, mbind, M_bind, read_bytes.
  by rewrite Hst, Hv.
Qed.

(** ** Language selection *)

Section Selection.

Variable available : list string.

Lemma select_part_ok part :
  part_ok available part = true ->
  Project.select_part available part = Ok (part_value available part).
Proof.
  unfold part_ok, Project.select_part, part_value.
  destruct (Str.isdigit part).
  - destruct (Str.int part) as [n |]; [| done].
    intros [H1 H2]%andb_prop. apply Z.leb_le in H1, H2.
    replace ((0 <=? n - 1)%Z) with true by (symmetry; apply Z.leb_le; lia).
    replace ((n - 1 <? Z.of_nat (length available))%Z) with true
      by (symmetry; apply Z.ltb_lt; lia).
    simpl.
    destruct (lookup_lt_is_Some_2 available (Z.to_nat (n - 1))) as [x Hx];
      [lia | by rewrite Hx].
  - intros H. by rewrite H.
Qed.

Lemma select_part_bad part :
  part_ok available part = false ->
  Project.select_part available part = Err (part_error part).
Proof.
  unfold part_ok, Project.select_part, part_error.
  destruct (Str.isdigit part).
  - destruct (Str.int part) as [n |]; [| done].
    intros H. apply andb_false_iff in H.
    destruct ((0 <=? n - 1)%Z) eqn:E1; [| done].
    destruct ((n - 1 <? Z.of_nat (length available))%Z) eqn:E2; [| done].
    apply Z.leb_le in E1. apply Z.ltb_lt in E2.
    destruct H as [H | H]; apply Z.leb_gt in H; lia.
  - intros H. by rewrite H.
Qed.

Lemma select_parts_ok parts : forall chosen,
  forallb (part_ok available) parts = true ->
  Project.select_parts available chosen parts
  = Ok (chosen ++ (part_value available <$> parts)).
Proof.
  induction parts as [| part rest IH]; intros chosen H; simpl in *.
  - by rewrite app_nil_r.
  - apply andb_prop in H as [H1 H2].
    rewrite (select_part_ok _ H1), (IH _ H2).
    by rewrite <- app_assoc.
Qed.

Lemma select_parts_bad pre part post : forall chosen,
  forallb (part_ok available) pre = true ->
  part_ok available part = false ->
  Project.select_parts available chosen (pre ++ part :: post)
  = Err (part_error part).
Proof.
  induction pre as [| p pre IH]; intros chosen Hpre Hbad; simpl in *.
  - by rewrite (select_part_bad _ Hbad).
  - apply andb_prop in Hpre as [H1 H2].
    rewrite (select_part_ok _ H1). by apply IH.
Qed.

Lemma forallb_split_first parts :
  forallb (part_ok available) parts = false ->
  exists pre part post,
    parts = pre ++ part :: post
    /\ forallb (part_ok available) pre = true
    /\ part_ok available part = false.
Proof.
  induction parts as [| p rest IH]; simpl; [done |].
  destruct (part_ok available p) eqn:E; simpl.
  - intros (pre & part & post & -> & Hpre & Hbad)%IH.
    exists (p :: pre), part, post. simpl. by rewrite E.
  - intros _. by exists [], p, rest.
Qed.

Lemma part_value_available part :
  part_ok available part = true -> part_value available part ∈ available.
Proof.
  unfold part_ok, part_value. destruct (Str.isdigit part).
  - destruct (Str.int part) as [n |]; [| done]. cbn [default from_option id].
    intros [H1 H2]%andb_prop. apply Z.leb_le in H1, H2.
    destruct (lookup_lt_is_Some_2 available (Z.to_nat (n - 1))) as [x Hx];
      [lia |].
    rewrite Hx. simpl. by eapply list_elem_of_lookup_2.
  - by intros H%bool_decide_eq_true.
Qed.

End Selection.

Lemma filter_first_seen (P : string -> Prop) `{!forall x, Decision (P x)} l :
  first_seen (filter P l) = filter P (first_seen l).
Proof.
  induction l as [| x l IH]; [done |].
  rewrite filter_cons. destruct (decide (P x)) as [Hx | Hx]; simpl.
  - rewrite filter_cons, decide_True by done. f_equal.
    rewrite IH. rewrite !list_filter_filter.
    apply list_filter_iff. tauto.
  - rewrite filter_cons, decide_False by done.
    rewrite IH, list_filter_filter.
    apply list_filter_iff. intros y. split; [| tauto].
    intros Hy. split; [done |]. intros ->. done.
Qed.

Lemma unique_go_first_seen chosen : forall seen unique,
  Project.unique_go seen unique chosen
  = unique ++ first_seen (filter (fun x => x ∉ seen) chosen).
Proof.
  induction chosen as [| x l IH]; intros seen unique; simpl.
  - by rewrite app_nil_r.
  - rewrite filter_cons. case_bool_decide as Hx.
    + rewrite decide_False by tauto. apply IH.
    + rewrite decide_True by done. rewrite IH. simpl.
      rewrite <- app_assoc. simpl. do 2 f_equal.
      rewrite <- filter_first_seen, list_filter_filter.
      f_equal. apply list_filter_iff. intros y. set_solver.
Qed.

Lemma first_seen_elem l x : x ∈ first_seen l <-> x ∈ l.
Proof.
  induction l as [| y l IH]; simpl; [done |].
  rewrite !elem_of_cons, list_elem_of_filter, IH.
  destruct (decide (x = y)); naive_solver.
Qed.

Lemma first_seen_NoDup l : NoDup (first_seen l).
Proof.
  induction l as [| y l IH]; simpl; [constructor |].
  constructor.
  - rewrite list_elem_of_filter. tauto.
  - by apply NoDup_filter.
Qed.

Lemma choose_nonempty available s :
  Str.strip s <> EmptyString ->
  Project.choose_languages_interactively available (Line s)
  = match Project.select_parts available [] (Str.split (Str.strip s)) with
    | Ok chosen => Ok (Project.unique_go ∅ [] chosen)
    | Err e => Err e
    end.
Proof.
  intros H. unfold Project.choose_languages_interactively.
  by destruct (Str.strip s).
Qed.

Lemma unique_go_empty chosen : Project.unique_go ∅ [] chosen = first_seen chosen.
Proof.
  rewrite unique_go_first_seen. simpl. f_equal.
  induction chosen as [| x l IH]; [done |].
  rewrite filter_cons, decide_True by set_solver. by rewrite IH.
Qed.

(** C6. The answer to the language prompt is stripped and cut into words
    at its blank characters, those of [str.isspace]; an empty answer
    fails; a word made of digits, those of [str.isdigit], is a number
    when [int] converts it, and any other word is a name.  When every
    word is a number between one and the number of available languages
    or the name of an available language, the result is the list of the
    languages the words stand for, without repetitions and in the order
    they were first given; otherwise the call fails, at the first word
    that is neither, with the invalid-number error (a number), the error
    of [int] (digits that are no number) or the unknown-language error
    (a name).  A result holds no language twice and only available ones.
    With python, go and rust available, "1 3" gives python and rust,
    "python python go" gives python and go, and "4", "java" and the
    empty answer fail. *)
Theorem choose_languages_interactively_spec (available : list string) (s : string) :
  let words := Str.split (Str.strip s) in
  let answer := Project.choose_languages_interactively available (Line s) in
  (Str.strip s = EmptyString -> answer = Err NoLanguagesSelected)
  /\ (Str.strip s <> EmptyString ->
      forallb (part_ok available) words = true ->
      answer = Ok (first_seen (part_value available <$> words)))
  /\ (Str.strip s <> EmptyString ->
      forall pre part post,
        words = pre ++ part :: post ->
        forallb (part_ok available) pre = true ->
        part_ok available part = false ->
        answer = Err (part_error part))
  /\ (forallb (part_ok available) words = false -> is_ok answer = false)
  /\ (forall langs, answer = Ok langs ->
      NoDup langs /\ forall lang, lang ∈ langs -> lang ∈ available)
  /\ Project.choose_languages_interactively ["python"; "go"; "rust"] (Line "1 3")
     = Ok ["python"; "rust"]
  /\ Project.choose_languages_interactively ["python"; "go"; "rust"]
       (Line "python python go") = Ok ["python"; "go"]
  /\ Project.choose_languages_interactively ["python"; "go"; "rust"] (Line "4")
     = Err (InvalidNumber "4")
  /\ Project.choose_languages_interactively ["python"; "go"; "rust"] (Line "java")
     = Err (UnknownLanguage "java")
  /\ Project.choose_languages_interactively ["python"; "go"; "rust"] (Line "")
     = Err NoLanguagesSelected.
Proof.
  intros words answer.
  assert (Hgood : Str.strip s <> EmptyString ->
            forallb (part_ok available) words = true ->
            answer = Ok (first_seen (part_value available <$> words))).
  { intros Hne Hall. subst answer. rewrite choose_nonempty by done.
    fold words. rewrite select_parts_ok by done. simpl.
    by rewrite unique_go_empty. }
  assert (Hbad : Str.strip s <> EmptyString ->
            forall pre part post,
              words = pre ++ part :: post ->
              forallb (part_ok available) pre = true ->
              part_ok available part = false ->
              answer = Err (part_error part)).
  { intros Hne pre part post Hw Hpre Hpart. subst answer.
    rewrite choose_nonempty by done. fold words. rewrite Hw.
    by rewrite select_parts_bad. }
  assert (Hempty : Str.strip s = EmptyString -> answer = Err NoLanguagesSelected).
  { intros He. subst answer. unfold Project.choose_languages_interactively.
    by rewrite He. }
  split; [done |]. split; [done |]. split; [done |].
  split.
  { intros Hall. destruct (decide (Str.strip s = EmptyString)) as [He | Hne].
    - by rewrite Hempty.
    - destruct (forallb_split_first _ _ Hall) as (pre & part & post & Hw & Hp & Hb).
      by rewrite (Hbad Hne _ _ _ Hw Hp Hb). }
  split.
  { intros langs Hans.
    destruct (decide (Str.strip s = EmptyString)) as [He | Hne].
    { rewrite Hempty in Hans; done. }
    destruct (forallb (part_ok available) words) eqn:Hall.
    - rewrite Hgood in Hans by done. injection Hans as <-.
      split; [apply first_seen_NoDup |].
      intros lang Hl. apply (proj1 (first_seen_elem _ _)) in Hl.
      apply list_elem_of_fmap in Hl as (part & -> & Hpart).
      apply part_value_available.
      rewrite forallb_forall in Hall. apply Hall.
      by apply list_elem_of_In.
    - destruct (forallb_split_first _ _ Hall) as (pre & part & post & Hw & Hp & Hb).
      rewrite (Hbad Hne _ _ _ Hw Hp Hb) in Hans. done. }
  repeat split; vm_compute; reflexivity.
Qed.

Lemma choose_languages_interactively_witness :
  Project.choose_languages_interactively ["python"; "go"; "rust"] (Line " 2 go 1 ")
  = Ok ["go"; "python"]
  /\ Project.choose_languages_interactively ["python"; "go"; "rust"] (Line "1 0 java")
     = Err (InvalidNumber "0")
  /\ Project.choose_languages_interactively ["python"; "go"; "rust"] (Line "   ")
     = Err NoLanguagesSelected.
Proof.
  pose proof (choose_languages_interactively_spec ["python"; "go"; "rust"] " 2 go 1 ")
    as (_ & H1 & _).
  pose proof (choose_languages_interactively_spec ["python"; "go"; "rust"] "1 0 java")
    as (_ & _ & H2 & _).
  pose proof (choose_languages_interactively_spec ["python"; "go"; "rust"] "   ")
    as (H3 & _).
  split; [| split].
  - apply H1; [vm_compute; discriminate | vm_compute; reflexivity].
  - apply (H2 ltac:(vm_compute; discriminate) ["1"] "0" ["java"]); reflexivity.
  - apply H3. reflexivity.
Defined.

(** ** The install-target validator of the project script *)

Lemma check_excluded_run env rt excluded w :
  exists r,
    Project.check_excluded env rt excluded w = (w, r)
    /\ (is_ok r = false <->
        exists ex, ex ∈ excluded /\ resolve env (w_fs w) ex = rt)
    /\ (forall e, r = Err e ->
        exists ex, e = UnsafeDirectory ex /\ ex ∈ excluded
                   /\ resolve env (w_fs w) ex = rt).
Proof.
  induction excluded as [| ex rest IH]; simpl.
  - exists (Ok tt). split; [done |]. split; [| done].
    split; [done |]. intros (ex & Hin & _). by apply elem_of_nil in Hin.
  - rewrite bind_ask.
    destruct (decide (rt = resolve env (w_fs w) ex)) as [Heq | Hne].
    + exists (Err (UnsafeDirectory ex)). split; [done |]. split.
      * split; [| done]. intros _. exists ex. split; [left | done].
      * intros e [= <-]. exists ex. split; [done |]. split; [left | done].
    + destruct IH as (r & Hrun & Hiff & Herr). exists r.
      split; [done |]. split.
      * rewrite Hiff. split.
        -- intros (ex' & Hin & Hres). exists ex'. split; [by right | done].
        -- intros (ex' & Hin & Hres). apply elem_of_cons in Hin as [-> | Hin].
           ++ by destruct Hne.
           ++ by exists ex'.
      * intros e He. destruct (Herr e He) as (ex' & -> & Hin & Hres).
        exists ex'. split; [done |]. split; [by right | done].
Qed.

(** C3. The install-target validator of the project script changes
    nothing and fails exactly when the resolved target equals the resolved
    form of an entry of the deny-list (home, its Documents, Desktop and
    Downloads, /tmp, /var, /Users, /home, /System, /usr, /opt), naming such
    an entry in its error; a target that resolves to none of them passes,
    a strict subdirectory of /usr included. *)
Theorem project_check_safe_directory_denylist (env : Env) (w : World) (target_dir : Path) :
  (exists r,
    Project.check_safe_directory env target_dir w = (w, r)
    /\ (is_ok r = false <->
        exists ex, ex ∈ Project.excluded_dirs env
                   /\ resolve env (w_fs w) ex = resolve env (w_fs w) target_dir)
    /\ (forall e, r = Err e ->
        exists ex, e = UnsafeDirectory ex /\ ex ∈ Project.excluded_dirs env
                   /\ resolve env (w_fs w) ex = resolve env (w_fs w) target_dir))
  /\ Project.excluded_dirs env
     = [ home env; home env ++ ["Documents"]; home env ++ ["Desktop"];
         home env ++ ["Downloads"]; ["tmp"]; ["var"]; ["Users"]; ["home"];
         ["System"]; ["usr"]; ["opt"] ]
  /\ Project.check_safe_directory plain_env ["usr"; "local"] empty_world
     = (empty_world, Ok tt)
  /\ Project.check_safe_directory plain_env ["usr"] empty_world
     = (empty_world, Err (UnsafeDirectory ["usr"])).
Proof.
  split; [| split; [reflexivity | split; vm_compute; reflexivity]].
  unfold Project.check_safe_directory. rewrite bind_ask.
  apply check_excluded_run.
Qed.

(** ** Paths *)

Lemma parents_go_elem n p q :
  q ∈ parents_go n p <-> exists k, (k < n)%nat /\ q = take k p.
Proof.
  induction n as [| n IH]; simpl.
  - split; [by intros ?%elem_of_nil | intros (k & ? & _); lia].
  - rewrite elem_of_cons, IH. split.
    + intros [-> | (k & Hk & ->)]; [exists n | exists k]; split; (lia || done).
    + intros (k & Hk & ->). destruct (decide (k = n)) as [-> | Hne];
        [by left | right; exists k; split; (lia || done)].
Qed.

(** [root in p.parents] says that [p] lies strictly inside [root]. *)
Lemma parents_strictly_inside root p :
  root ∈ parents p <-> strictly_inside root p.
Proof.
  unfold parents, strictly_inside. rewrite parents_go_elem. split.
  - intros (k & Hk & ->). exists (drop k p). split.
    + intros Hd. apply (f_equal length) in Hd. rewrite length_drop in Hd.
      simpl in Hd. lia.
    + by rewrite take_drop.
  - intros (rest & Hne & ->). exists (length root). split.
    + rewrite length_app. destruct rest; [done | simpl; lia].
    + by rewrite take_app_length.
Qed.

Lemma scan_roots_spec roots p : forall is_safe,
  Project.scan_roots is_safe roots p = true
  <-> is_safe = true \/ exists root, root ∈ roots /\ strictly_inside root p.
Proof.
  induction roots as [| r roots IH]; intros is_safe; simpl.
  - split; [by left | intros [? | (? & ?%elem_of_nil & _)]; done].
  - rewrite IH. case_bool_decide as Hr.
    + apply parents_strictly_inside in Hr. split; [| by left].
      intros _. right. exists r. split; [left | done].
    + split.
      * intros [? | (root & ? & ?)]; [by left | right].
        exists root. split; [by right | done].
      * intros [? | (root & [-> | ?]%elem_of_cons & Hin)]; [by left | |].
        -- by apply parents_strictly_inside in Hin.
        -- right. by exists root.
Qed.

(** ** Trees *)

Lemma lstat_app fs d p :
  lstat fs (d ++ p) = lstat fs d ≫= fun sub => lstat sub p.
Proof.
  revert fs. induction d as [| c d IH]; intros fs; simpl; [done |].
  destruct fs as [| es | |]; try done.
  destruct (es !! c); [apply IH | done].
Qed.

Lemma lstat_put_eq fs p new fs' :
  put fs p new = Some fs' -> lstat fs' p = new.
Proof.
  revert fs fs'. induction p as [| c p IH]; intros fs fs' H; simpl in *; [done |].
  destruct fs as [| es | |]; try done.
  destruct p as [| c' p'].
  - injection H as <-. simpl. destruct new as [n |].
    + by rewrite lookup_insert_eq.
    + by rewrite lookup_delete_eq.
  - destruct (es !! c) as [sub |] eqn:Hc; [| done].
    destruct (put sub (c' :: p') new) as [sub' |] eqn:Hp; [| done].
    injection H as <-. cbn [lstat]. rewrite lookup_insert_eq. by eapply IH.
Qed.

Lemma lstat_put_diverge fs p q new fs' :
  put fs p new = Some fs' ->
  ¬ p `prefix_of` q -> ¬ q `prefix_of` p ->
  lstat fs' q = lstat fs q.
Proof.
  revert fs fs' q. induction p as [| c p IH]; intros fs fs' q H Hpq Hqp;
    simpl in H; [done |].
  destruct fs as [| es | |]; try done.
  destruct q as [| d q]; [destruct Hqp; apply prefix_nil |].
  destruct (decide (c = d)) as [<- | Hne].
  - assert (¬ p `prefix_of` q) by (intros ?; apply Hpq; by apply prefix_cons).
    assert (¬ q `prefix_of` p) by (intros ?; apply Hqp; by apply prefix_cons).
    destruct p as [| c' p']; [destruct Hpq; apply prefix_cons, prefix_nil |].
    destruct (es !! c) as [sub |] eqn:Hc; [| done].
    destruct (put sub (c' :: p') new) as [sub' |] eqn:Hp; [| done].
    injection H as <-. cbn [lstat]. rewrite lookup_insert_eq, Hc. by eapply IH.
  - destruct p as [| c' p'].
    + injection H as <-. cbn [lstat]. destruct new.
      * by rewrite lookup_insert_ne.
      * by rewrite lookup_delete_ne.
    + destruct (es !! c) as [sub |] eqn:Hc; [| done].
      destruct (put sub (c' :: p') new) as [sub' |] eqn:Hp; [| done].
      injection H as <-. cbn [lstat]. by rewrite lookup_insert_ne.
Qed.

Lemma put_is_Some fs p n new :
  lstat fs p = Some n -> p <> [] -> is_Some (put fs p new).
Proof.
  revert fs. induction p as [| c p IH]; intros fs H Hne; [done |].
  simpl in *. destruct fs as [| es | |]; try done.
  destruct p as [| c' p']; [done |].
  destruct (es !! c) as [sub |]; [| done].
  destruct (IH sub H ltac:(done)) as [sub' ->]. done.
Qed.

Lemma put_put fs p a b fs1 :
  put fs p a = Some fs1 -> put fs1 p b = put fs p b.
Proof.
  revert fs fs1. induction p as [| c p IH]; intros fs fs1 H; [done |].
  simpl in *. destruct fs as [| es | |]; try done.
  destruct p as [| c' p'].
  - injection H as <-. f_equal. f_equal.
    destruct a, b;
      by rewrite ?insert_insert_eq, ?delete_insert_eq, ?insert_delete_eq,
                 ?delete_delete_eq.
  - destruct (es !! c) as [sub |] eqn:Hc; [| done].
    destruct (put sub (c' :: p') a) as [sub1 |] eqn:Hp; [| done].
    injection H as <-. rewrite lookup_insert_eq.
    rewrite (IH _ _ Hp).
    destruct (put sub (c' :: p') b); [| done].
    by rewrite insert_insert_eq.
Qed.

Lemma put_app fs d p new sub :
  lstat fs d = Some sub -> p <> [] ->
  put fs (d ++ p) new = put sub p new ≫= graft fs d.
Proof.
  revert fs. induction d as [| c d IH]; intros fs H Hp; simpl in H.
  - injection H as ->. simpl. by destruct (put sub p new).
  - destruct fs as [| es | |]; try done.
    destruct (es !! c) as [n |] eqn:Hc; [| done].
    specialize (IH n H Hp).
    change ((c :: d) ++ p) with (c :: (d ++ p)).
    cbn [put]. destruct (d ++ p) as [| x l] eqn:Hdp.
    { by destruct d, p. }
    rewrite Hc, IH. destruct (put sub p new) as [sub' |]; [| done].
    simpl. destruct d as [| c' d']; simpl; [done |].
    by rewrite Hc.
Qed.

Lemma graft_is_Some fs d n sub :
  lstat fs d = Some n -> is_Some (graft fs d sub).
Proof.
  destruct d; [done |]. intros H. by eapply put_is_Some.
Qed.

Lemma lstat_graft fs d sub fs' :
  graft fs d sub = Some fs' -> lstat fs' d = Some sub.
Proof.
  destruct d; cbn [graft]; [by intros [= ->] | apply lstat_put_eq].
Qed.

Lemma lstat_graft_diverge fs d sub fs' q :
  graft fs d sub = Some fs' ->
  ¬ d `prefix_of` q -> ¬ q `prefix_of` d ->
  lstat fs' q = lstat fs q.
Proof.
  destruct d; cbn [graft]; [intros _ H; destruct H; apply prefix_nil |].
  apply lstat_put_diverge.
Qed.

Lemma graft_graft fs d s1 s2 fs1 :
  graft fs d s1 = Some fs1 -> graft fs1 d s2 = graft fs d s2.
Proof.
  destruct d; cbn [graft]; [done | apply put_put].
Qed.

Lemma lstat_Some_stat_lstat fs p n :
  lstat fs p = Some n -> (forall t, n <> Symlink t) -> stat fs p = Some n.
Proof.
  intros H Hn. unfold stat, max_links. cbn [stat_go]. rewrite H.
  destruct n; try done. by destruct (Hn target).
Qed.

Lemma lstat_None_stat fs p : lstat fs p = None -> stat fs p = None.
Proof. intros H. unfold stat, max_links. cbn [stat_go]. by rewrite H. Qed.

Lemma stat_go_Some_lstat fuel fs p n :
  stat_go fuel fs p = Some n -> is_Some (lstat fs p).
Proof.
  destruct fuel; simpl; destruct (lstat fs p) as [[] |]; try done.
Qed.

(** ** Links and names *)

Lemma stat_plain fs p n :
  lstat fs p = Some n -> is_link_node n = false -> stat fs p = Some n.
Proof.
  intros H Hn. apply lstat_Some_stat_lstat; [done |]. by intros t ->.
Qed.

Lemma lstat_link_free fs p n :
  lstat fs p = Some n -> is_link_node n = false -> link_free fs p.
Proof.
  intros Hp Hn q t [r ->] Hq. rewrite lstat_app, Hq in Hp. simpl in Hp.
  destruct r; simpl in Hp; [by injection Hp as <- | done].
Qed.

Lemma append_snoc w c r : Str.snoc w c +:+ r = w +:+ String c r.
Proof.
  unfold Str.snoc. induction w as [| a w IH]; [done |].
  change (String a ((w +:+ String c "") +:+ r) = String a (w +:+ String c r)).
  by f_equal.
Qed.

Lemma append_empty_r s : s +:+ EmptyString = s.
Proof.
  induction s as [| a s IH]; [done |].
  change (String a (s +:+ "") = String a s). by f_equal.
Qed.

Lemma append_assoc_str a b c : (a +:+ b) +:+ c = a +:+ (b +:+ c).
Proof.
  induction a as [| x a IH]; [done |].
  change (String x ((a +:+ b) +:+ c) = String x (a +:+ (b +:+ c))). by f_equal.
Qed.

(** A text without the separator is one piece. *)
Lemma split_on_go_absent c s : forall cur,
  Str.contains (String c "") s = false ->
  Str.split_on_go (String c "") 0 cur s = [cur +:+ s].
Proof.
  induction s as [| a s IH]; intros cur H.
  - by rewrite append_empty_r.
  - cbn [Str.contains] in H. apply orb_false_iff in H as [H1 H2].
    cbn [Str.split_on_go]. rewrite H1, (IH _ H2). by rewrite append_snoc.
Qed.

Lemma plain_name_spec s :
  plain_name s = true ->
  Str.contains "/" s = false /\ s <> EmptyString /\ s <> "." /\ s <> "..".
Proof.
  unfold plain_name. intros [H1 H2]%andb_prop.
  apply negb_true_iff in H1. apply negb_true_iff, bool_decide_eq_false in H2.
  split; [done |]. repeat split; intros ->; apply H2; set_solver.
Qed.

(** A plain name is one component. *)
Lemma components_plain s : plain_name s = true -> Project.components s = [s].
Proof.
  intros (Hc & H1 & H2 & _)%plain_name_spec. unfold Project.components, Str.split_on.
  rewrite (split_on_go_absent _ _ _ Hc). cbn [String.append].
  rewrite filter_cons, decide_True by done. by rewrite filter_nil.
Qed.

(** Joined to a directory, a plain name is the entry of that name. *)
Lemma join_exists_plain fs p s :
  plain_name s = true ->
  Project.join_exists fs p s = path_exists fs (child p s).
Proof.
  intros Hs. unfold Project.join_exists. rewrite (components_plain _ Hs).
  destruct (plain_name_spec _ Hs) as (Hc & _ & _ & Hdd).
  assert (Hp : Str.is_prefix "/" s = false).
  { destruct s as [| a s]; [done |]. cbn [Str.contains] in Hc.
    by apply orb_false_iff in Hc as [Hc _]. }
  rewrite Hp. cbn [Project.walk]. rewrite decide_False by done.
  destruct (lstat fs p) as [[] |] eqn:Hl; try done;
    symmetry; unfold path_exists; rewrite lstat_None_stat; try done;
    unfold child; rewrite lstat_app, Hl; done.
Qed.

(** ** The deletion validator *)

Section SafeDelete.

Variable env : Env.
Variable w : World.
Variable path : Path.

Let fs := w_fs w.
Let rp := resolve env fs path.

Lemma safe_delete_root ok :
  euid env = 0%Z -> Project.safe_delete env path ok w = (w, Err RootDeletion).
Proof. intros H. unfold Project.safe_delete. by rewrite H. Qed.

Lemma safe_delete_short ok :
  euid env <> 0%Z -> (length (parts rp) <= 1)%nat ->
  Project.safe_delete env path ok w
  = (w, Err (PathTooShort (length (parts rp)) rp)).
Proof.
  intros H Hlen. unfold Project.safe_delete.
  apply Z.eqb_neq in H. rewrite H, bind_ask. fold fs rp.
  apply Nat.leb_le in Hlen. by rewrite Hlen.
Qed.

Lemma safe_delete_outside ok :
  euid env <> 0%Z -> (1 < length (parts rp))%nat ->
  (forall root, root ∈ Project.temp_roots -> ¬ strictly_inside root rp) ->
  Project.safe_delete env path ok w = (w, Err (UnsafeDeletion rp)).
Proof.
  intros H Hlen Hout. unfold Project.safe_delete.
  apply Z.eqb_neq in H. rewrite H, bind_ask. fold fs rp.
  apply Nat.leb_gt in Hlen. rewrite Hlen.
  destruct (Project.scan_roots false Project.temp_roots rp) eqn:Hscan; [| done].
  apply scan_roots_spec in Hscan as [? | (root & Hin & Hins)]; [done |].
  by destruct (Hout root Hin).
Qed.

Lemma strictly_inside_temp_root_length :
  (exists root, root ∈ Project.temp_roots /\ strictly_inside root rp) ->
  (1 < length (parts rp))%nat.
Proof.
  intros (root & Hin & rest & Hne & ->). simpl. rewrite length_app.
  destruct rest; [done |]. simpl.
  unfold Project.temp_roots in Hin.
  repeat (apply elem_of_cons in Hin as [-> | Hin]; [simpl; lia |]).
  by apply elem_of_nil in Hin.
Qed.

(** Past the three checks the call is the dispatch on what is found at
    the resolved path. *)
Lemma safe_delete_inside ok :
  euid env <> 0%Z ->
  (exists root, root ∈ Project.temp_roots /\ strictly_inside root rp) ->
  Project.safe_delete env path ok w
  = (if is_dir fs rp && ok then rmtree rp
     else if is_dir fs rp && negb ok then raise (UnexpectedDirectory rp)
     else if is_file fs rp || is_symlink fs rp then unlink rp
     else if negb (path_exists fs rp) then raise (PathNotFound rp)
     else raise (FishyPath rp)) w.
Proof.
  intros H Hin. unfold Project.safe_delete.
  apply Z.eqb_neq in H. rewrite H, bind_ask. fold fs rp.
  pose proof (strictly_inside_temp_root_length Hin) as Hlen.
  apply Nat.leb_gt in Hlen. rewrite Hlen.
  replace (Project.scan_roots false Project.temp_roots rp) with true
    by (symmetry; apply scan_roots_spec; by right).
  cbn [negb]. rewrite bind_ask. fold fs.
  destruct (is_dir fs rp && ok); [done |].
  destruct (is_dir fs rp && negb ok); [done |].
  rewrite !bind_ask. fold fs.
  destruct (is_file fs rp || is_symlink fs rp); [done |].
  rewrite bind_ask. fold fs. by destruct (path_exists fs rp).
Qed.

Lemma is_dir_exists p : is_dir fs p = true -> path_exists fs p = true.
Proof. unfold is_dir, path_exists. by destruct (stat fs p) as [[] |]. Qed.

Lemma is_file_not_dir p : is_file fs p = true -> is_dir fs p = false.
Proof. unfold is_dir, is_file. by destruct (stat fs p) as [[] |]. Qed.



End SafeDelete.

(** C1. The deletion validator rejects, leaving the world as it was (no
    library call is even issued): when the effective user is root,
    whatever the path, with the root error; otherwise when the resolved
    path has one component or none, with the too-short error; otherwise
    when the resolved path lies strictly inside none of the temporary
    roots, with the containment error. *)
Theorem safe_delete_rejects (env : Env) (w : World) (path : Path) (directory_okay : bool) :
  let resolved_path := resolve env (w_fs w) path in
  let run := Project.safe_delete env path directory_okay w in
  (euid env = 0%Z -> run = (w, Err RootDeletion))
  /\ (euid env <> 0%Z -> (length (parts resolved_path) <= 1)%nat ->
      run = (w, Err (PathTooShort (length (parts resolved_path)) resolved_path)))
  /\ (euid env <> 0%Z -> (1 < length (parts resolved_path))%nat ->
      (forall root, root ∈ Project.temp_roots ->
                    ¬ strictly_inside root resolved_path) ->
      run = (w, Err (UnsafeDeletion resolved_path)))
  /\ (euid env = 0%Z \/ (length (parts resolved_path) <= 1)%nat
      \/ (forall root, root ∈ Project.temp_roots ->
                       ¬ strictly_inside root resolved_path) ->
      exists e, run = (w, Err e)).
Proof.
  intros resolved_path run. subst resolved_path run.
  split; [apply safe_delete_root |].
  split; [apply safe_delete_short |].
  split; [apply safe_delete_outside |].
  intros Hcase.
  destruct (decide (euid env = 0%Z)) as [Hroot | Hroot].
  { eexists. by apply safe_delete_root. }
  destruct (decide (length (parts (resolve env (w_fs w) path)) <= 1)%nat)
    as [Hlen | Hlen].
  { eexists. by apply safe_delete_short. }
  destruct Hcase as [? | [? | Hout]]; [done | done |].
  eexists. apply safe_delete_outside; [done | lia | done].
Qed.

Lemma safe_delete_rejects_witness :
  Project.safe_delete root_env ["tmp"; "work"; "f"] false scratch_world
  = (scratch_world, Err RootDeletion)
  /\ Project.safe_delete plain_env [] true scratch_world
     = (scratch_world, Err (PathTooShort 1 []))
  /\ Project.safe_delete plain_env ["home"; "alice"; "notes"] true scratch_world
     = (scratch_world, Err (UnsafeDeletion ["home"; "alice"; "notes"]))
  /\ Project.safe_delete plain_env ["tmp"] true scratch_world
     = (scratch_world, Err (UnsafeDeletion ["tmp"])).
Proof.
  split; [| split; [| split]].
  - apply (safe_delete_rejects root_env scratch_world ["tmp"; "work"; "f"] false).
    reflexivity.
  - apply (safe_delete_rejects plain_env scratch_world [] true);
      [discriminate | simpl; lia].
  - apply (safe_delete_rejects plain_env scratch_world ["home"; "alice"; "notes"] true);
      [discriminate | simpl; lia |].
    intros root Hin (rest & _ & Heq).
    unfold Project.temp_roots in Hin.
    repeat (apply elem_of_cons in Hin as [-> | Hin]; [discriminate Heq |]).
    by apply elem_of_nil in Hin.
  - apply (safe_delete_rejects plain_env scratch_world ["tmp"] true);
      [discriminate | simpl; lia |].
    intros root Hin (rest & Hne & Heq).
    unfold Project.temp_roots in Hin.
    repeat (apply elem_of_cons in Hin as [-> | Hin];
            [simpl in Heq;
             first [discriminate Heq | destruct rest; [done | discriminate Heq]] |]).
    by apply elem_of_nil in Hin.
Defined.





(** ** The manifest filter *)

Lemma filter_lines_filter keep lines : forall filtered,
  Project.filter_lines keep filtered lines
  = filtered ++ List.filter (Project.keep_line keep) lines.
Proof.
  induction lines as [| line rest IH]; intros filtered; simpl.
  - by rewrite app_nil_r.
  - rewrite IH. destruct (Project.keep_line keep line); [| done].
    by rewrite <- app_assoc.
Qed.

Lemma split_on_go_nonempty sep s : forall skip cur,
  Str.split_on_go sep skip cur s <> [].
Proof.
  induction s as [| c s IH]; intros skip cur; simpl; [done |].
  destruct skip; [| apply IH].
  destruct (Str.is_prefix sep (String c s)); [done | apply IH].
Qed.

Lemma keep_line_spec keep line :
  Project.keep_line keep line = true
  <-> Str.contains Project.marker line = false
      \/ exists seg, language_segment line = Some seg /\ seg ∈ keep.
Proof.
  unfold Project.keep_line, language_segment.
  destruct (Str.contains Project.marker line); [| by split; [left |]].
  destruct (Str.split_on Project.marker line) as [| first [| after rest]];
    simpl.
  - split; [done | by intros [? | (? & ? & _)]].
  - split; [done | by intros [? | (? & ? & _)]].
  - pose proof (split_on_go_nonempty "/" after 0 EmptyString) as Hne.
    unfold Str.split_on.
    destruct (Str.split_on_go "/" 0 EmptyString after) as [| seg segs]; [done |].
    simpl. rewrite bool_decide_eq_true. split.
    + intros Hin. right. by exists seg.
    + by intros [? | (? & [= <-] & ?)].
Qed.

Lemma lstat_put_file_link fs q c c' fs' p t :
  put fs q (Some (File c')) = Some fs' ->
  lstat fs q = Some (File c) ->
  lstat fs p = Some (Symlink t) ->
  lstat fs' p = Some (Symlink t).
Proof.
  intros Hput Hq Hp.
  destruct (decide (q `prefix_of` p)) as [[r ->] | Hqp].
  { rewrite lstat_app, Hq in Hp. simpl in Hp. by destruct r. }
  destruct (decide (p `prefix_of` q)) as [[r ->] | Hpq].
  { rewrite lstat_app, Hp in Hq. simpl in Hq. by destruct r. }
  by rewrite (lstat_put_diverge _ _ _ _ _ Hput).
Qed.

(** Writing goes to the file that reading comes from. *)
Lemma write_go_stat_go fs c c' fuel : forall p,
  stat_go fuel fs p = Some (File c) ->
  exists q,
    lstat fs q = Some (File c)
    /\ write_go fuel fs p c' = put_or FileNotFoundError fs q (Some (File c'))
    /\ forall fs', put fs q (Some (File c')) = Some fs' ->
                   stat_go fuel fs' p = Some (File c').
Proof.
  induction fuel as [| k IH]; intros p Hst; simpl in *.
  - destruct (lstat fs p) as [[c0 | | |] |] eqn:Hp; try done.
    injection Hst as ->. exists p. split; [done |]. split; [done |].
    intros fs' Hput. by rewrite (lstat_put_eq _ _ _ _ Hput).
  - destruct (lstat fs p) as [[c0 | | t |] |] eqn:Hp; try done.
    + injection Hst as ->. exists p. split; [done |]. split; [done |].
      intros fs' Hput. by rewrite (lstat_put_eq _ _ _ _ Hput).
    + destruct (IH t Hst) as (q & Hq & Hw & Hafter).
      exists q. split; [done |]. split; [done |].
      intros fs' Hput.
      rewrite (lstat_put_file_link _ _ _ _ _ _ _ Hput Hq Hp).
      by apply Hafter.
Qed.

(** C5. With a manifest to read and a non-empty keep-set: when the
    manifest holds text, cut into lines as [splitlines] cuts it, the
    manifest filter succeeds and writes back, over the file it read, the
    kept lines in their original order, joined by newlines and followed
    by one newline; a line is kept exactly when it does not contain the
    marker or when the language segment parsed from it is in the
    keep-set, so a marker line whose segment cannot be parsed is dropped.
    When the manifest holds bytes that are no text, there are no lines:
    reading it raises, and nothing is written.  With python kept, a
    python line, a go line and a plain line give the first and the
    third. *)
Theorem clean_claude_md_filters (w : World) (claude_md_path : Path)
  (keep_languages : list string) (content : string) :
  let fs := w_fs w in
  let lines := Str.splitlines content in
  let kept := List.filter (Project.keep_line keep_languages) lines in
  let text := Str.join nl kept +:+ nl in
  keep_languages <> [] ->
  is_dir fs [] = true ->
  stat fs claude_md_path = Some (File content) ->
  (Str.valid_utf8 content = true ->
   exists fs' target,
     Project.clean_claude_md claude_md_path keep_languages w
     = (mkWorld fs' (w_log w ++ [WriteText claude_md_path]), Ok tt)
     /\ lstat fs target = Some (File content)
     /\ put fs target (Some (File text)) = Some fs'
     /\ stat fs' claude_md_path = Some (File text))
  /\ (Str.valid_utf8 content = false ->
      Project.clean_claude_md claude_md_path keep_languages w
      = (w, Err (Lib ValueError claude_md_path)))
  /\ (forall line,
        Project.keep_line keep_languages line = true
        <-> Str.contains Project.marker line = false
            \/ exists seg, language_segment line = Some seg
                           /\ seg ∈ keep_languages)
  /\ (forall line, line ∈ kept
        <-> line ∈ lines /\ Project.keep_line keep_languages line = true)
  /\ sublist kept lines
  /\ List.filter (Project.keep_line ["python"])
       [ "@agent_instructions/languages/python/x.md";
         "@agent_instructions/languages/go/y.md";
         "plain text" ]
     = [ "@agent_instructions/languages/python/x.md"; "plain text" ].
Proof.
  intros fs lines kept text Hkeep Hroot Hst.
  split; [| split; [| split; [apply keep_line_spec | split; [| split; [| reflexivity]]]]].
  - intros Hvalid.
    destruct (write_go_stat_go fs content text max_links claude_md_path Hst)
      as (q & Hq & Hw & Hafter).
    assert (Hne : q <> []).
    { intros ->. simpl in Hq. injection Hq as Hfs.
      unfold is_dir, stat, max_links in Hroot. cbn [stat_go lstat] in Hroot.
      rewrite Hfs in Hroot. done. }
    destruct (put_is_Some fs q _ (Some (File text)) Hq Hne) as [fs' Hput].
    exists fs', q. split; [| split; [done | split; [done | by apply Hafter]]].
    unfold Project.clean_claude_md. rewrite bind_ask. fold fs.
    unfold is_file. rewrite Hst. cbn [negb].
    destruct keep_languages as [| k ks]; [done |].
    rewrite (bind_ok _ _ _ _ _ (read_text_run w _ _ Hst Hvalid)).
    rewrite filter_lines_filter. cbn [app]. fold lines kept text.
    unfold write_text, issue. fold fs. rewrite Hw. unfold put_or.
    by rewrite Hput.
  - intros Hvalid. unfold Project.clean_claude_md. rewrite bind_ask. fold fs.
    unfold is_file. rewrite Hst. cbn [negb].
    destruct keep_languages as [| k ks]; [done |].
    by rewrite (bind_err _ _ _ _ _ (read_text_undecodable w _ _ Hst Hvalid)).
  - intros line. subst kept. rewrite !list_elem_of_In, filter_In. tauto.
  - subst kept. clear. induction lines as [| l ls IH]; simpl; [constructor |].
    destruct (Project.keep_line keep_languages l);
      [by apply sublist_skip | by apply sublist_cons].
Qed.

Lemma clean_claude_md_filters_witness :
  exists fs',
    Project.clean_claude_md ["tmp"; "src"; "CLAUDE.md"] ["python"] manifest_world
    = (mkWorld fs' [WriteText ["tmp"; "src"; "CLAUDE.md"]], Ok tt)
    /\ stat fs' ["tmp"; "src"; "CLAUDE.md"]
       = Some (File ("@agent_instructions/languages/python/x.md" +:+ nl +:+
                     "plain text" +:+ nl)).
Proof.
  destruct (clean_claude_md_filters manifest_world ["tmp"; "src"; "CLAUDE.md"]
              ["python"] sample_manifest) as (H & _);
    [discriminate | reflexivity | reflexivity |].
  destruct (H eq_refl) as (fs' & target & Hrun & _ & _ & Hst).
  exists fs'. split; [exact Hrun | exact Hst].
Defined.

(** ** The user-wide installer *)

Lemma relative_to_spec p base :
  is_Some (relative_to p base) <-> base `prefix_of` p.
Proof.
  revert p. induction base as [| b base IH]; intros p; simpl.
  - split; [intros _; apply prefix_nil | by eexists].
  - destruct p as [| c p]; simpl.
    + split; [by intros [? ?] | by intros ?%prefix_nil_not].
    + case_decide as Hbc.
      * subst. rewrite IH. split; [apply prefix_cons | apply prefix_cons_inv_2].
      * split; [by intros [? ?] | by intros ?%prefix_cons_inv_1].
Qed.

(** The validator of the user script lets a directory pass exactly when,
    resolved, it is the resolved home directory or lies below it. *)
Lemma user_check_safe_directory_spec env config_dir w :
  exists r,
    User.check_safe_directory env config_dir w = (w, r)
    /\ (is_ok r = true
        <-> resolve env (w_fs w) (home env)
              `prefix_of` resolve env (w_fs w) config_dir).
Proof.
  unfold User.check_safe_directory. rewrite !bind_ask.
  pose proof (relative_to_spec (resolve env (w_fs w) config_dir)
                (resolve env (w_fs w) (home env))) as Hspec.
  destruct (relative_to _ _) as [rel |] eqn:Hrel.
  - exists (Ok tt). split; [done |]. split; [intros _; by apply Hspec | done].
  - eexists. split; [done |]. split; [done |].
    intros Hp. apply Hspec in Hp. by destruct Hp.
Qed.

(** C7. The validator of the user script does reject a configuration
    directory that resolves outside the home directory, but [main] never
    calls it: with the configuration directory of alice a link to
    /opt/cfg, the validator raises on that directory while the run moves
    the link aside, installs and succeeds. *)
Theorem user_main_skips_check_safe_directory :
  User.check_safe_directory (linked_env full_repo) ["home"; "alice"; ".claude"]
    linked_world
  = (linked_world, Err (NotRelativeTo ["opt"; "cfg"] ["home"; "alice"]))
  /\ snd (User.main (linked_env full_repo) linked_world) = Ok tt
  /\ w_log (fst (User.main (linked_env full_repo) linked_world))
     = [ Move ["home"; "alice"; ".claude"]
           ["home"; "alice"; ".claude_backup_20250914_120000"];
         Mkdir ["home"; "alice"; ".claude"];
         GitClone ["home"; "alice"; ".claude"; "instructions_repository_clone"];
         SymlinkTo ["home"; "alice"; ".claude"; "CLAUDE.md"]
           ["home"; "alice"; ".claude"; "instructions_repository_clone";
            "claude"; "user_setup"; "CLAUDE.md"];
         SymlinkTo ["home"; "alice"; ".claude"; "commands"]
           ["home"; "alice"; ".claude"; "instructions_repository_clone";
            "claude"; "user_setup"; "commands"] ].
Proof. repeat split; vm_compute; reflexivity. Qed.

Lemma put_Some_parent fs d c new fs' :
  put fs (d ++ [c]) new = Some fs' -> exists es, lstat fs d = Some (Dir es).
Proof.
  revert fs fs'. induction d as [| x d IH]; intros fs fs' H; simpl in *.
  - destruct fs; try done. by eexists.
  - destruct fs as [| es | |]; try done.
    destruct (d ++ [c]) as [| y l] eqn:Hd; [by destruct d |].
    destruct (es !! x) as [sub |]; [| done].
    destruct (put sub (y :: l) new) as [sub' |] eqn:Hp; [| done].
    by eapply IH.
Qed.

Lemma put_child fs d c new es :
  lstat fs d = Some (Dir es) ->
  exists fs',
    put fs (d ++ [c]) new = Some fs'
    /\ graft fs d (Dir (match new with
                        | Some n => <[c := n]> es
                        | None => delete c es
                        end)) = Some fs'.
Proof.
  intros Hd. rewrite (put_app fs d [c] new _ Hd) by done. simpl.
  destruct (graft_is_Some fs d _
              (Dir (match new with
                    | Some n => <[c := n]> es
                    | None => delete c es
                    end)) Hd) as [fs' Hg].
  exists fs'. by rewrite Hg.
Qed.

Lemma lstat_child fs d c es :
  lstat fs d = Some (Dir es) -> lstat fs (d ++ [c]) = es !! c.
Proof.
  intros Hd. rewrite lstat_app, Hd. simpl. by destruct (es !! c).
Qed.

Lemma symlink_to_run w link target d c es :
  link = d ++ [c] ->
  lstat (w_fs w) d = Some (Dir es) -> es !! c = None ->
  exists fs',
    put (w_fs w) link (Some (Symlink target)) = Some fs'
    /\ lstat fs' d = Some (Dir (<[c := Symlink target]> es))
    /\ symlink_to link target w
       = (mkWorld fs' (w_log w ++ [SymlinkTo link target]), Ok tt).
Proof.
  intros -> Hd Hc.
  destruct (put_child (w_fs w) d c (Some (Symlink target)) es Hd)
    as (fs' & Hput & Hg).
  exists fs'. split; [done |]. split; [by eapply lstat_graft |].
  unfold symlink_to, issue. rewrite (lstat_child _ _ _ _ Hd), Hc.
  unfold put_or. by rewrite Hput.
Qed.

(** The claim of C8 fails where the clone has the manifest and no commands
    folder: the commands folder is missing and the installation
    succeeds. *)
Lemma install_with_git_clone_without_commands :
  let run :=
    User.install_with_git_clone (linked_env repo_without_commands)
      ["home"; "alice"; ".claude"] fresh_config_world in
  path_exists (w_fs (fst run))
    ["home"; "alice"; ".claude"; "instructions_repository_clone";
     "claude"; "user_setup"; "commands"] = false
  /\ snd run = Ok tt
  /\ lstat (w_fs (fst run)) ["home"; "alice"; ".claude"; "commands"] = None.
Proof. repeat split; vm_compute; reflexivity. Qed.

(** C8, amended. After a successful clone into a configuration directory
    where the two link names are free: a missing user-setup folder and a
    missing manifest each raise a missing-file error before any link is
    made; otherwise a link to the manifest is made at CLAUDE.md, and a
    link to the commands folder is made at commands when that folder
    exists, while its absence is no error and only leaves that link
    out. *)
Theorem install_with_git_clone_links (env : Env) (config_dir : Path) (w w1 : World) :
  let repo_dir := child config_dir "instructions_repository_clone" in
  let user_setup_dir := child (child repo_dir "claude") "user_setup" in
  let claude_md := child user_setup_dir "CLAUDE.md" in
  let commands_dir := child user_setup_dir "commands" in
  let link_md := child config_dir "CLAUDE.md" in
  let link_commands := child config_dir "commands" in
  let run := User.install_with_git_clone env config_dir w in
  git_clone (remote env) repo_dir w = (w1, Ok tt) ->
  lstat (w_fs w1) link_md = None ->
  lstat (w_fs w1) link_commands = None ->
  (path_exists (w_fs w1) user_setup_dir = false ->
     run = (w1, Err (UserSetupNotFound user_setup_dir)))
  /\ (path_exists (w_fs w1) user_setup_dir = true ->
      path_exists (w_fs w1) claude_md = false ->
      run = (w1, Err (ManifestMissing claude_md)))
  /\ (path_exists (w_fs w1) user_setup_dir = true ->
      path_exists (w_fs w1) claude_md = true ->
      exists fs2,
        put (w_fs w1) link_md (Some (Symlink claude_md)) = Some fs2
        /\ (path_exists fs2 commands_dir = false ->
            run = (mkWorld fs2 (w_log w1 ++ [SymlinkTo link_md claude_md]), Ok tt)
            /\ lstat fs2 link_md = Some (Symlink claude_md)
            /\ lstat fs2 link_commands = None)
        /\ (path_exists fs2 commands_dir = true ->
            exists fs3,
              put fs2 link_commands (Some (Symlink commands_dir)) = Some fs3
              /\ run = (mkWorld fs3
                          (w_log w1 ++ [SymlinkTo link_md claude_md;
                                        SymlinkTo link_commands commands_dir]),
                        Ok tt)
              /\ lstat fs3 link_md = Some (Symlink claude_md)
              /\ lstat fs3 link_commands = Some (Symlink commands_dir)))
  /\ exc_class (UserSetupNotFound user_setup_dir) = FileNotFoundError
  /\ exc_class (ManifestMissing claude_md) = FileNotFoundError.
Proof.
  intros repo_dir user_setup_dir claude_md commands_dir link_md link_commands
    run Hclone Hfree_md Hfree_cmd.
  assert (Hrun : run =
    (e ← ask (fun fs => path_exists fs user_setup_dir);
     if negb e then raise (UserSetupNotFound user_setup_dir)
     else
       e ← ask (fun fs => path_exists fs claude_md);
       if negb e then raise (ManifestMissing claude_md)
       else
         symlink_to link_md claude_md ;;
         e ← ask (fun fs => path_exists fs commands_dir);
         when e (symlink_to link_commands commands_dir)) w1).
  { subst run. unfold User.install_with_git_clone.
    fold repo_dir. by rewrite (bind_ok _ _ _ _ _ Hclone). }
  rewrite bind_ask in Hrun.
  assert (Hdir : exists es, lstat (w_fs w1) config_dir = Some (Dir es)).
  { unfold git_clone, issue in Hclone.
    destruct (remote env) as [tree |]; [| done].
    assert (exists fs', put (w_fs w) repo_dir (Some tree) = Some fs'
                        /\ w_fs w1 = fs') as (fs' & Hput & Hfs).
    { unfold put_or in Hclone.
      destruct (lstat (w_fs w) repo_dir) as [[| es | |] |]; try done.
      - destruct (size es =? 0)%nat; [| done].
        destruct (put (w_fs w) repo_dir (Some tree)) as [fs' |]; [| done].
        injection Hclone as <-. by exists fs'.
      - destruct (put (w_fs w) repo_dir (Some tree)) as [fs' |]; [| done].
        injection Hclone as <-. by exists fs'. }
    destruct (put_Some_parent _ _ _ _ _ Hput) as [es Hes].
    destruct (put_child (w_fs w) config_dir "instructions_repository_clone"
                (Some tree) es Hes) as (fs'' & Hput' & Hg).
    unfold repo_dir, child in Hput. rewrite Hput in Hput'.
    injection Hput' as <-. rewrite Hfs. eexists. by eapply lstat_graft. }
  destruct Hdir as [es Hes].
  assert (Hmd : es !! "CLAUDE.md" = None).
  { by rewrite <- (lstat_child _ _ _ _ Hes). }
  assert (Hcmd : es !! "commands" = None).
  { by rewrite <- (lstat_child _ _ _ _ Hes). }
  split; [| split; [| split; [| done]]].
  - intros He. rewrite Hrun, He. done.
  - intros He Hm. rewrite Hrun, He. cbn [negb]. rewrite bind_ask, Hm. done.
  - intros He Hm.
    destruct (symlink_to_run w1 link_md claude_md config_dir "CLAUDE.md" es
                eq_refl Hes Hmd) as (fs2 & Hput2 & Hdir2 & Hlink).
    exists fs2. split; [done |].
    rewrite He in Hrun. cbn [negb] in Hrun. rewrite bind_ask, Hm in Hrun.
    cbn [negb] in Hrun. rewrite (bind_ok _ _ _ _ _ Hlink), bind_ask in Hrun.
    cbn [w_fs] in Hrun.
    assert (Hl_md : lstat fs2 link_md = Some (Symlink claude_md)).
    { unfold link_md, child. rewrite (lstat_child _ _ _ _ Hdir2).
      by rewrite lookup_insert_eq. }
    split.
    + intros Hc. rewrite Hc in Hrun. split; [done |]. split; [done |].
      unfold link_commands, child. rewrite (lstat_child _ _ _ _ Hdir2).
      by rewrite lookup_insert_ne.
    + intros Hc. rewrite Hc in Hrun. cbn [when] in Hrun.
      destruct (symlink_to_run (mkWorld fs2 (w_log w1 ++ [SymlinkTo link_md claude_md]))
                  link_commands commands_dir config_dir "commands"
                  (<["CLAUDE.md" := Symlink claude_md]> es) eq_refl Hdir2)
        as (fs3 & Hput3 & Hdir3 & Hlink3).
      { by rewrite lookup_insert_ne. }
      exists fs3. split; [done |]. cbn [w_fs w_log] in Hlink3.
      rewrite <- app_assoc in Hlink3. split; [by rewrite Hrun |].
      unfold link_md, link_commands, child.
      rewrite !(lstat_child _ _ _ _ Hdir3).
      rewrite lookup_insert_eq, lookup_insert_ne by done.
      by rewrite lookup_insert_eq.
Qed.

Lemma install_with_git_clone_links_witness :
  (exists w', User.install_with_git_clone (linked_env full_repo)
                ["home"; "alice"; ".claude"] fresh_config_world = (w', Ok tt)
              /\ lstat (w_fs w') ["home"; "alice"; ".claude"; "commands"]
                 = Some (Symlink ["home"; "alice"; ".claude";
                                  "instructions_repository_clone";
                                  "claude"; "user_setup"; "commands"]))
  /\ (exists w', User.install_with_git_clone (linked_env repo_without_commands)
                   ["home"; "alice"; ".claude"] fresh_config_world = (w', Ok tt)
                 /\ lstat (w_fs w') ["home"; "alice"; ".claude"; "commands"] = None).
Proof.
  split.
  - destruct (install_with_git_clone_links (linked_env full_repo)
                ["home"; "alice"; ".claude"] fresh_config_world
                (fst (git_clone (Some full_repo)
                        ["home"; "alice"; ".claude"; "instructions_repository_clone"]
                        fresh_config_world)))
      as (_ & _ & H & _); [vm_compute; reflexivity .. |].
    destruct H as (fs2 & Hput & _ & H); [vm_compute; reflexivity .. |].
    apply (f_equal (default Special)) in Hput. cbn [from_option id] in Hput. subst fs2.
    destruct H as (fs3 & _ & Hrun & _ & Hl); [vm_compute; reflexivity |].
    eexists. split; [exact Hrun | exact Hl].
  - destruct (install_with_git_clone_links (linked_env repo_without_commands)
                ["home"; "alice"; ".claude"] fresh_config_world
                (fst (git_clone (Some repo_without_commands)
                        ["home"; "alice"; ".claude"; "instructions_repository_clone"]
                        fresh_config_world)))
      as (_ & _ & H & _); [vm_compute; reflexivity .. |].
    destruct H as (fs2 & Hput & H & _); [vm_compute; reflexivity .. |].
    apply (f_equal (default Special)) in Hput. cbn [from_option id] in Hput. subst fs2.
    destruct H as (Hrun & _ & Hl); [vm_compute; reflexivity |].
    eexists. split; [exact Hrun | exact Hl].
Defined.

(** ** The backup manager *)

Lemma put_id fs p n :
  lstat fs p = Some n -> p <> [] -> put fs p (Some n) = Some fs.
Proof.
  revert fs. induction p as [| c p IH]; intros fs H Hne; [done |].
  simpl in *. destruct fs as [| es | |]; try done.
  destruct (es !! c) as [sub |] eqn:Hc; [| done].
  destruct p as [| c' p'].
  - simpl in H. injection H as ->. by rewrite insert_id.
  - rewrite (IH sub H) by done. by rewrite insert_id.
Qed.

Lemma graft_id fs d sub : lstat fs d = Some sub -> graft fs d sub = Some fs.
Proof.
  destruct d; cbn [graft]; [by intros [= ->] | intros H; by apply put_id].
Qed.

Lemma name_child d n : name (child d n) = n.
Proof. unfold name, child. by rewrite last_snoc. Qed.

Lemma path_exists_lstat fs p : path_exists fs p = true -> is_Some (lstat fs p).
Proof.
  unfold path_exists. destruct (stat fs p) eqn:Hst; [| done].
  intros _. by eapply stat_go_Some_lstat.
Qed.

Lemma lstat_None_is_dir fs p : lstat fs p = None -> is_dir fs p = false.
Proof. intros H. unfold is_dir. by rewrite (lstat_None_stat _ _ H). Qed.

Lemma lstat_None_path_exists fs p : lstat fs p = None -> path_exists fs p = false.
Proof. intros H. unfold path_exists. by rewrite (lstat_None_stat _ _ H). Qed.

Lemma find_conflicts_run dest_dir w source_items : forall conflicts,
  Project.find_conflicts dest_dir conflicts source_items w
  = (w, Ok (conflicts ++
            filter (fun n => path_exists (w_fs w) (child dest_dir n) = true)
              (name <$> source_items))).
Proof.
  induction source_items as [| item rest IH]; intros conflicts; cbn [for_each].
  - simpl. by rewrite app_nil_r.
  - cbn [Project.find_conflicts fmap list_fmap].
    rewrite bind_ask, IH, name_child, filter_cons.
    destruct (path_exists (w_fs w) (child dest_dir (name item))) eqn:He.
    + rewrite decide_True by done. by rewrite <- app_assoc.
    + by rewrite decide_False by done.
Qed.

Lemma rename_or_copy_free fs src dst :
  lstat fs dst = None -> rename_or_copy fs src dst = rename fs src dst.
Proof. unfold rename_or_copy. intros ->. by destruct (lstat fs src) as [[] |]. Qed.

Section Backup.

Variable dest_dir : Path.
Variable b : string.

Let backup_dir := child dest_dir b.

Lemma move_into_backup w n D B x :
  lstat (w_fs w) dest_dir = Some (Dir D) ->
  D !! n = Some x -> D !! b = Some (Dir B) -> B !! n = None -> n <> b ->
  exists fs',
    graft (w_fs w) dest_dir
      (Dir (<[b := Dir (<[n := x]> B)]> (delete n D))) = Some fs'
    /\ move (child dest_dir n) (child backup_dir n) w
       = (mkWorld fs' (w_log w ++ [Move (child dest_dir n) (child backup_dir n)]),
          Ok tt).
Proof.
  intros Hd Hn Hb HB Hne.
  assert (Hdst : lstat (w_fs w) (child backup_dir n) = None).
  { unfold backup_dir, child. rewrite <- app_assoc, lstat_app, Hd. simpl.
    by rewrite Hb, HB. }
  destruct (put_child (w_fs w) dest_dir n None D Hd) as (fs1 & Hput1 & Hg1).
  pose proof (lstat_graft _ _ _ _ Hg1) as Hd1.
  assert (Hput2 : put fs1 (child backup_dir n) (Some x)
                  = graft (w_fs w) dest_dir
                      (Dir (<[b := Dir (<[n := x]> B)]> (delete n D)))).
  { unfold backup_dir, child. rewrite <- app_assoc.
    rewrite (put_app fs1 dest_dir ([b] ++ [n]) (Some x) _ Hd1) by done.
    simpl. rewrite lookup_delete_ne, Hb by done. simpl.
    by apply (graft_graft _ _ _ _ _ Hg1). }
  destruct (graft_is_Some (w_fs w) dest_dir _
              (Dir (<[b := Dir (<[n := x]> B)]> (delete n D))) Hd) as [fs' Hg].
  exists fs'. split; [done |].
  assert (Hsrc : lstat (w_fs w) (child dest_dir n) = Some x).
  { unfold child. by rewrite (lstat_child _ _ _ _ Hd). }
  change (dest_dir ++ [n]) with (child dest_dir n) in Hput1.
  unfold move, issue. rewrite (lstat_None_is_dir _ _ Hdst).
  rewrite (rename_or_copy_free _ _ _ Hdst).
  unfold rename. rewrite Hsrc, Hdst, Hput1.
  unfold put_or. by rewrite Hput2, Hg.
Qed.

Lemma backup_loop l : forall w D B,
  lstat (w_fs w) dest_dir = Some (Dir D) ->
  D !! b = Some (Dir B) ->
  NoDup l -> b ∉ l ->
  (forall n, n ∈ l -> is_Some (D !! n)) ->
  (forall n, n ∈ l -> B !! n = None) ->
  exists fs' D' B',
    for_each l (fun item_name =>
      move (child dest_dir item_name) (child backup_dir item_name)) w
    = (mkWorld fs' (w_log w ++ backup_moves dest_dir b l), Ok tt)
    /\ graft (w_fs w) dest_dir (Dir D') = Some fs'
    /\ D' !! b = Some (Dir B')
    /\ (forall k, k <> b -> D' !! k = if decide (k ∈ l) then None else D !! k)
    /\ (forall k, B' !! k = if decide (k ∈ l) then D !! k else B !! k).
Proof.
  induction l as [| n l IH]; intros w D B Hd Hb Hnd Hbl Hin HB.
  - destruct (graft_is_Some (w_fs w) dest_dir _ (Dir D) Hd) as [fs' Hg].
    rewrite (graft_id _ _ _ Hd) in Hg. injection Hg as <-.
    exists (w_fs w), D, B. simpl. rewrite app_nil_r. split; [by destruct w |].
    split; [by apply graft_id |]. done.
  - apply NoDup_cons in Hnd as [Hnl Hnd].
    apply not_elem_of_cons in Hbl as [Hbn Hbl].
    destruct (Hin n ltac:(left)) as [x Hx].
    destruct (move_into_backup w n D B x Hd Hx Hb (HB n ltac:(left)) ltac:(done))
      as (fs1 & Hg1 & Hmove).
    set (D1 := <[b := Dir (<[n := x]> B)]> (delete n D)) in *.
    set (w1 := mkWorld fs1
                 (w_log w ++ [Move (child dest_dir n) (child backup_dir n)])) in *.
    destruct (IH w1 D1 (<[n := x]> B)) as (fs' & D' & B' & Hrun & Hg & Hb' & HD' & HB');
      [by eapply lstat_graft | by apply lookup_insert_eq | done | done | | |].
    { intros m Hm. unfold D1. rewrite lookup_insert_ne by (intros ->; done).
      rewrite lookup_delete_ne by (intros ->; done). apply Hin. by right. }
    { intros m Hm. rewrite lookup_insert_ne by (intros ->; done).
      apply HB. by right. }
    exists fs', D', B'. split; [| split; [| split; [done | split]]].
    + cbn [for_each]. rewrite (bind_ok _ _ _ _ _ Hmove), Hrun.
      unfold w1. cbn [w_log]. by rewrite <- app_assoc.
    + unfold w1 in Hg. cbn [w_fs] in Hg.
      by rewrite <- (graft_graft _ _ _ _ _ Hg1).
    + intros k Hk. rewrite (HD' k Hk). unfold D1.
      rewrite lookup_insert_ne by done.
      destruct (decide (k = n)) as [-> | Hkn].
      * rewrite lookup_delete_eq. rewrite (decide_True (P := n ∈ n :: l)) by left.
        by destruct (decide (n ∈ l)).
      * rewrite lookup_delete_ne by done.
        destruct (decide (k ∈ l)) as [Hkl | Hkl].
        -- by rewrite decide_True by (by right).
        -- rewrite decide_False; [done |]. by intros [? | ?]%elem_of_cons.
    + intros k. rewrite (HB' k). unfold D1.
      destruct (decide (k ∈ l)) as [Hkl | Hkl].
      * rewrite decide_True by (by right).
        rewrite lookup_insert_ne by (intros <-; done).
        by rewrite lookup_delete_ne by (intros <-; done).
      * destruct (decide (k = n)) as [-> | Hkn].
        -- rewrite decide_True by left. by rewrite lookup_insert_eq.
        -- rewrite decide_False by (by intros [? | ?]%elem_of_cons).
           by rewrite lookup_insert_ne.
Qed.

End Backup.

Lemma backup_unfold env dest_dir source_items w :
  Project.backup_conflicting_files env dest_dir source_items w
  = match filter (fun n => path_exists (w_fs w) (child dest_dir n) = true)
            (name <$> source_items) with
    | [] => mret tt
    | conflicts =>
        let b := Project.backup_name (now env) in
        mkdir (child dest_dir b) ;;
        for_each conflicts (fun item_name =>
          move (child dest_dir item_name) (child (child dest_dir b) item_name))
    end w.
Proof.
  unfold Project.backup_conflicting_files.
  rewrite (bind_ok _ _ _ _ _ (find_conflicts_run dest_dir w source_items [])).
  cbn [app]. by destruct (filter _ _).
Qed.

Lemma conflicts_present fs dest_dir es (names : list string) n :
  lstat fs dest_dir = Some (Dir es) ->
  n ∈ filter (fun n => path_exists fs (child dest_dir n) = true) names ->
  is_Some (es !! n).
Proof.
  intros Hd [Hn _]%list_elem_of_filter.
  apply path_exists_lstat in Hn. unfold child in Hn.
  by rewrite (lstat_child _ _ _ _ Hd) in Hn.
Qed.

(** The backup manager when something collides and the backup name is
    free. *)
Lemma backup_run env w dest_dir source_items es :
  let fs := w_fs w in
  let conflicts :=
    filter (fun n => path_exists fs (child dest_dir n) = true)
      (name <$> source_items) in
  let b := Project.backup_name (now env) in
  conflicts <> [] ->
  lstat fs dest_dir = Some (Dir es) ->
  NoDup (name <$> source_items) ->
  es !! b = None ->
  exists fs' es' bes,
    Project.backup_conflicting_files env dest_dir source_items w
    = (mkWorld fs'
         (w_log w ++ Mkdir (child dest_dir b) :: backup_moves dest_dir b conflicts),
       Ok tt)
    /\ graft fs dest_dir (Dir es') = Some fs'
    /\ es' !! b = Some (Dir bes)
    /\ (forall n, n ∈ conflicts -> es' !! n = None /\ bes !! n = es !! n)
    /\ (forall n, n ∉ conflicts -> n <> b -> es' !! n = es !! n)
    /\ (forall n, n ∉ conflicts -> bes !! n = None).
Proof.
  intros fs conflicts b Hne Hd Hnd Hfree.
  destruct (put_child fs dest_dir b (Some (Dir ∅)) es Hd) as (fs1 & Hput1 & Hg1).
  assert (Hmk : mkdir (child dest_dir b) w
                = (mkWorld fs1 (w_log w ++ [Mkdir (child dest_dir b)]), Ok tt)).
  { unfold mkdir, issue, child. fold fs.
    rewrite (lstat_child _ _ _ _ Hd), Hfree. unfold put_or. by rewrite Hput1. }
  assert (Hcs : forall n, n ∈ conflicts -> is_Some (es !! n)).
  { intros n Hn. by eapply conflicts_present. }
  assert (Hb : b ∉ conflicts).
  { intros [x Hx]%Hcs. congruence. }
  destruct (backup_loop dest_dir b conflicts
              (mkWorld fs1 (w_log w ++ [Mkdir (child dest_dir b)]))
              (<[b := Dir ∅]> es) ∅)
    as (fs' & D' & B' & Hloop & Hg & Hb' & HD' & HB').
  { by eapply lstat_graft. }
  { by apply lookup_insert_eq. }
  { by apply NoDup_filter. }
  { done. }
  { intros n Hn. rewrite lookup_insert_ne by (intros <-; done). by apply Hcs. }
  { intros n _. apply lookup_empty. }
  exists fs', D', B'. cbn [w_fs w_log] in *.
  split; [| split; [| split; [done | split; [| split]]]].
  - rewrite backup_unfold. fold fs conflicts b.
    destruct conflicts as [| c cs] eqn:Hc; [done |].
    cbv zeta. rewrite (bind_ok _ _ _ _ _ Hmk), Hloop. by rewrite <- app_assoc.
  - by rewrite <- (graft_graft _ _ _ _ _ Hg1).
  - intros n Hn.
    assert (n <> b) by (intros ->; done).
    rewrite (HD' n) by done. rewrite HB'. rewrite !decide_True by done.
    by rewrite lookup_insert_ne.
  - intros n Hn Hnb. rewrite (HD' n) by done. rewrite decide_False by done.
    by rewrite lookup_insert_ne.
  - intros n Hn. rewrite HB'. by rewrite decide_False.
Qed.

(** The claim of C4 fails on a destination entry that is a link leading
    nowhere: the incoming item foo.txt bears the name of an entry of the
    destination, and the backup manager makes no backup directory and
    moves nothing, since [Path.exists] is false of the entry. *)
Lemma backup_conflicting_files_skips_dangling_link :
  lstat (w_fs dangling_entry_world) ["work"; "proj"; "foo.txt"]
  = Some (Symlink ["nowhere"])
  /\ Project.backup_conflicting_files plain_env ["work"; "proj"]
       [["tmp"; "src"; "foo.txt"]] dangling_entry_world
     = (dangling_entry_world, Ok tt).
Proof. split; vm_compute; reflexivity. Qed.

(** C4, amended. An incoming item collides when [Path.exists] holds of
    the destination path of its name, so that an entry that is a link
    leading nowhere does not collide.  For incoming items with plain
    names: the backup manager changes nothing, and issues no library
    call, when no item collides.  Otherwise, for a destination
    directory, incoming items with distinct names and a destination
    without an entry under the backup name, it creates the one backup
    directory named after the clock and moves into it, under their own
    names, exactly the colliding entries; every other entry of the
    destination, and everything outside the destination, stays as it
    was. *)
Theorem backup_conflicting_files_spec (env : Env) (w : World) (dest_dir : Path)
  (source_items : list Path) :
  let fs := w_fs w in
  let conflicts :=
    filter (fun n => path_exists fs (child dest_dir n) = true)
      (name <$> source_items) in
  let b := Project.backup_name (now env) in
  let run := Project.backup_conflicting_files env dest_dir source_items w in
  Forall (fun item => plain_name (name item) = true) source_items ->
  (conflicts = [] -> run = (w, Ok tt))
  /\ (conflicts <> [] ->
      forall es,
      lstat fs dest_dir = Some (Dir es) ->
      NoDup (name <$> source_items) ->
      es !! b = None ->
      exists fs' es' bes,
        run = (mkWorld fs'
                 (w_log w ++ Mkdir (child dest_dir b)
                               :: backup_moves dest_dir b conflicts),
               Ok tt)
        /\ graft fs dest_dir (Dir es') = Some fs'
        /\ es' !! b = Some (Dir bes)
        /\ (forall n, n ∈ conflicts -> es' !! n = None /\ bes !! n = es !! n)
        /\ (forall n, n ∉ conflicts -> n <> b -> es' !! n = es !! n)
        /\ (forall n, n ∉ conflicts -> bes !! n = None)).
Proof.
  intros fs conflicts b run _. split.
  - intros He. subst run. rewrite backup_unfold. fold fs conflicts.
    by rewrite He.
  - intros Hne es Hd Hnd Hfree.
    by apply (backup_run env w dest_dir source_items es).
Qed.

Lemma backup_conflicting_files_witness :
  Project.backup_conflicting_files plain_env ["work"; "proj"]
    [["tmp"; "src"; "new.txt"]] project_world = (project_world, Ok tt)
  /\ exists fs' es' bes,
       Project.backup_conflicting_files plain_env ["work"; "proj"]
         [["tmp"; "src"; "foo.txt"]; ["tmp"; "src"; "bar.txt"]] project_world
       = (mkWorld fs'
            [ Mkdir ["work"; "proj"; ".claude_backup_20250914_120000"];
              Move ["work"; "proj"; "foo.txt"]
                ["work"; "proj"; ".claude_backup_20250914_120000"; "foo.txt"] ],
          Ok tt)
       /\ lstat fs' ["work"; "proj"] = Some (Dir es')
       /\ es' !! ".claude_backup_20250914_120000" = Some (Dir bes)
       /\ es' !! "foo.txt" = None
       /\ bes !! "foo.txt" = Some (File "old foo")
       /\ es' !! "notes.md" = Some (File "mine")
       /\ bes !! "bar.txt" = None.
Proof.
  split.
  - apply (backup_conflicting_files_spec plain_env project_world ["work"; "proj"]
             [["tmp"; "src"; "new.txt"]]).
    + repeat constructor.
    + vm_compute. reflexivity.
  - destruct (backup_conflicting_files_spec plain_env project_world ["work"; "proj"]
                [["tmp"; "src"; "foo.txt"]; ["tmp"; "src"; "bar.txt"]])
      as (_ & H); [repeat constructor |].
    destruct (H ltac:(vm_compute; discriminate)
                (list_to_map [("foo.txt", File "old foo"); ("notes.md", File "mine")]))
      as (fs' & es' & bes & Hrun & Hg & Hb & Hin & Hout & Hbout).
    { vm_compute. reflexivity. }
    { apply (bool_decide_unpack _). vm_compute. exact I. }
    { vm_compute. reflexivity. }
    exists fs', es', bes.
    assert (Hfoo : "foo.txt" ∈
      filter (fun n => path_exists (w_fs project_world)
                         (child ["work"; "proj"] n) = true)
        (name <$> [["tmp"; "src"; "foo.txt"]; ["tmp"; "src"; "bar.txt"]])).
    { apply (bool_decide_unpack _). vm_compute. exact I. }
    assert (Hbar : forall n, n = "notes.md" \/ n = "bar.txt" -> n ∉
      filter (fun n => path_exists (w_fs project_world)
                         (child ["work"; "proj"] n) = true)
        (name <$> [["tmp"; "src"; "foo.txt"]; ["tmp"; "src"; "bar.txt"]])).
    { intros n [-> | ->]; apply (bool_decide_unpack _); vm_compute; exact I. }
    split; [exact Hrun |]. split; [by eapply lstat_graft |].
    split; [exact Hb |].
    destruct (Hin _ Hfoo) as [H1 H2].
    split; [exact H1 |]. split; [rewrite H2; vm_compute; reflexivity |].
    split.
    + rewrite Hout; [vm_compute; reflexivity | apply Hbar; by left | discriminate].
    + apply Hbout, Hbar. by right.
Defined.

(** ** The copy loop *)

Lemma seq4_assoc {A} (a b c d : M unit) (k : M A) w :
  (a ;; b ;; c ;; d ;; k) w = ((a ;; b ;; c ;; d) ;; k) w.
Proof.
  unfold mbind, M_bind.
  destruct (a w) as [w1 [[] | e1]]; [| done].
  destruct (b w1) as [w2 [[] | e2]]; [| done].
  destruct (c w2) as [w3 [[] | e3]]; [| done].
  by destruct (d w3) as [w4 [[] | e4]].
Qed.

Lemma install_configuration_phases env dest_dir temp_source_dir languages w :
  Project.install_configuration env dest_dir temp_source_dir languages w
  = (prepare_source env temp_source_dir languages ;;
     install_items env dest_dir temp_source_dir) w.
Proof.
  unfold Project.install_configuration, prepare_source, install_items.
  apply seq4_assoc.
Qed.

Lemma iterdir_run w p es :
  stat (w_fs w) p = Some (Dir es) ->
  iterdir p w = (w, Ok (child p <$> listing es)).
Proof. intros H. unfold iterdir. by rewrite H. Qed.

Lemma name_children p (ns : list string) : name <$> (child p <$> ns) = ns.
Proof.
  induction ns as [| n ns IH]; [done |].
  cbn [fmap list_fmap]. rewrite name_child. f_equal. apply IH.
Qed.

Lemma listing_NoDup es : NoDup (listing es).
Proof. apply NoDup_fst_map_to_list. Qed.

Lemma listing_elem es n : n ∈ listing es <-> is_Some (es !! n).
Proof.
  unfold listing. rewrite list_elem_of_fmap. split.
  - intros ([k x] & -> & Hin). apply elem_of_map_to_list in Hin. by eexists.
  - intros [x Hx]. exists (n, x). split; [done |]. by apply elem_of_map_to_list.
Qed.

Section CopyLoop.

Variable dest_dir : Path.

(** One item is copied onto a free name of the destination: the call
    either fails, leaving the file system as it was, or puts a file or a
    directory under that name. *)
Lemma copy_item_free w item D :
  lstat (w_fs w) dest_dir = Some (Dir D) ->
  D !! name item = None ->
  exists w' r ev,
    Project.copy_items dest_dir [item] w = (w', r)
    /\ w_log w' = w_log w ++ [ev]
    /\ is_copy ev = true
    /\ ((r <> Ok tt /\ w_fs w' = w_fs w)
        \/ (r = Ok tt /\ exists x,
              graft (w_fs w) dest_dir (Dir (<[name item := x]> D)) = Some (w_fs w')
              /\ ((is_dir (w_fs w) item = true /\ stat (w_fs w) item = Some x)
                  \/ (is_dir (w_fs w) item = false
                      /\ exists c, stat (w_fs w) item = Some (File c)
                                   /\ x = File c)))).
Proof.
  intros Hd Hfree.
  assert (Hdst : lstat (w_fs w) (child dest_dir (name item)) = None).
  { unfold child. by rewrite (lstat_child _ _ _ _ Hd). }
  unfold Project.copy_items. cbn [for_each].
  rewrite bind_assoc, bind_ask.
  destruct (is_dir (w_fs w) item) eqn:Hdir.
  - rewrite bind_assoc, bind_ask, (lstat_None_path_exists _ _ Hdst).
    cbn [when]. rewrite bind_assoc, bind_ret.
    unfold is_dir in Hdir.
    destruct (stat (w_fs w) item) as [[| ses | |] |] eqn:Hst; try done.
    destruct (put_child (w_fs w) dest_dir (name item) (Some (Dir ses)) D Hd)
      as (fs' & Hput & Hg).
    exists (mkWorld fs' (w_log w ++ [Copytree item (child dest_dir (name item))])),
      (Ok tt), (Copytree item (child dest_dir (name item))).
    split; [| split; [done | split; [done |]]].
    + erewrite bind_ok; [reflexivity |].
      unfold copytree, issue. rewrite Hst, Hdst. unfold put_or, child.
      by rewrite Hput.
    + right. split; [done |]. exists (Dir ses). split; [done |]. by left.
  - destruct (copy2 item (child dest_dir (name item)) w) as [w' r] eqn:Hc.
    pose proof Hc as Hc2. unfold copy2, issue in Hc2.
    rewrite (lstat_None_is_dir _ _ Hdst) in Hc2.
    destruct (stat (w_fs w) item) as [[c | ses | |] |] eqn:Hst.
    + destruct (put_child (w_fs w) dest_dir (name item) (Some (File c)) D Hd)
        as (fs' & Hput & Hg).
      unfold max_links in Hc2. cbn [write_go] in Hc2. rewrite Hdst in Hc2.
      unfold put_or, child in Hc2. rewrite Hput in Hc2. injection Hc2 as <- <-.
      eexists _, _, _. split; [by erewrite bind_ok |].
      split; [done |]. split; [done |].
      right. split; [done |]. exists (File c). split; [done |]. right.
      split; [done |]. by exists c.
    + injection Hc2 as <- <-. eexists _, _, _. split; [by erewrite bind_err |].
      split; [done |]. split; [done |]. by left.
    + injection Hc2 as <- <-. eexists _, _, _. split; [by erewrite bind_err |].
      split; [done |]. split; [done |]. by left.
    + injection Hc2 as <- <-. eexists _, _, _. split; [by erewrite bind_err |].
      split; [done |]. split; [done |]. by left.
    + injection Hc2 as <- <-. eexists _, _, _. split; [by erewrite bind_err |].
      split; [done |]. split; [done |]. by left.
Qed.

Lemma copy_items_cons item items w :
  Project.copy_items dest_dir (item :: items) w
  = (Project.copy_items dest_dir [item] ;; Project.copy_items dest_dir items) w.
Proof.
  unfold Project.copy_items. cbn [for_each].
  rewrite !bind_assoc. unfold mbind, M_bind.
  destruct (ask _ w) as [w1 [d |]]; [| done].
  by destruct (_ w1) as [w2 [[] | e]].
Qed.

(** Onto free names the copy loop issues copies only, and leaves every
    other entry of the destination as it was. *)
Lemma copy_items_safe items : forall w D,
  lstat (w_fs w) dest_dir = Some (Dir D) ->
  NoDup (name <$> items) ->
  (forall n, n ∈ name <$> items -> D !! n = None) ->
  exists w' r evs D',
    Project.copy_items dest_dir items w = (w', r)
    /\ w_log w' = w_log w ++ evs
    /\ Forall (fun ev => is_copy ev = true) evs
    /\ lstat (w_fs w') dest_dir = Some (Dir D')
    /\ (forall k, k ∉ name <$> items -> D' !! k = D !! k).
Proof.
  induction items as [| item items IH]; intros w D Hd Hnd Hfree.
  - exists w, (Ok tt), [], D. rewrite app_nil_r. done.
  - cbn [fmap list_fmap] in *. apply NoDup_cons in Hnd as [Hn Hnd].
    destruct (copy_item_free w item D Hd (Hfree _ ltac:(left)))
      as (w1 & r1 & ev & Hrun1 & Hlog1 & Hev & Hcase).
    rewrite copy_items_cons.
    destruct Hcase as [[Hr Hfs] | [-> (x & Hg & _)]].
    + exists w1, r1, [ev], D. split.
      { unfold mbind, M_bind. rewrite Hrun1. destruct r1 as [[] |]; done. }
      split; [done |]. split; [by constructor |]. split; [by rewrite Hfs | done].
    + destruct (IH w1 (<[name item := x]> D)) as (w' & r & evs & D' & Hrun & Hlog & Hevs & Hd' & HD');
        [by eapply lstat_graft | done | |].
      { intros n Hin. rewrite lookup_insert_ne by (intros <-; done).
        apply Hfree. by right. }
      exists w', r, (ev :: evs), D'.
      split; [by rewrite (bind_ok _ _ _ _ _ Hrun1) |].
      split; [rewrite Hlog, Hlog1; by rewrite <- app_assoc |].
      split; [by constructor |]. split; [done |].
      intros k Hk. apply not_elem_of_cons in Hk as [Hk1 Hk2].
      rewrite HD' by done. by rewrite lookup_insert_ne.
Qed.

End CopyLoop.
Lemma is_copy_not_removal ev : is_copy ev = true -> is_removal ev = false.
Proof. by destruct ev. Qed.

(** What the backup manager leaves behind, however it ends: it never
    deletes, and when it returns every colliding entry has left its place
    for the backup directory. *)
Lemma backup_outcome env w dest_dir source_items es :
  let fs := w_fs w in
  let conflicts :=
    filter (fun n => path_exists fs (child dest_dir n) = true)
      (name <$> source_items) in
  let b := Project.backup_name (now env) in
  lstat fs dest_dir = Some (Dir es) ->
  NoDup (name <$> source_items) ->
  exists wb rb evs,
    Project.backup_conflicting_files env dest_dir source_items w = (wb, rb)
    /\ w_log wb = w_log w ++ evs
    /\ Forall (fun ev => is_removal ev = false) evs
    /\ (rb = Ok tt ->
        exists es',
          lstat (w_fs wb) dest_dir = Some (Dir es')
          /\ (forall n, n ∈ conflicts ->
                es' !! n = None
                /\ exists bes, es' !! b = Some (Dir bes) /\ bes !! n = es !! n)
          /\ (forall n, n ∉ conflicts -> n <> b -> es' !! n = es !! n)).
Proof.
  intros fs conflicts b Hd Hnd.
  destruct (decide (conflicts = [])) as [He | Hne].
  { exists w, (Ok tt), []. split.
    - rewrite backup_unfold. fold fs conflicts. by rewrite He.
    - rewrite app_nil_r. split; [done |]. split; [constructor |].
      intros _. exists es. split; [done |]. rewrite He. split; [| done].
      by intros n ?%elem_of_nil. }
  destruct (es !! b) as [x |] eqn:Hb.
  - exists (mkWorld fs (w_log w ++ [Mkdir (child dest_dir b)])),
      (Err (Lib FileExistsError (child dest_dir b))), [Mkdir (child dest_dir b)].
    split; [| split; [done | split; [by repeat constructor | done]]].
    rewrite backup_unfold. fold fs conflicts b.
    destruct conflicts as [| c cs]; [done |]. cbv zeta.
    erewrite bind_err; [done |].
    unfold mkdir, issue, child. fold fs.
    by rewrite (lstat_child _ _ _ _ Hd), Hb.
  - destruct (backup_run env w dest_dir source_items es Hne Hd Hnd Hb)
      as (fs' & es' & bes & Hrun & Hg & Hb' & Hin & Hout & _).
    eexists _, _, _. split; [exact Hrun |]. split; [done |]. split.
    { constructor; [done |]. unfold backup_moves.
      apply Forall_fmap, Forall_true. done. }
    intros _. exists es'. split; [by eapply lstat_graft |]. split; [| done].
    intros n Hn. destruct (Hin n Hn) as [H1 H2]. split; [done |]. by exists bes.
Qed.

(** The claim of C10 fails on a destination that holds a link named like
    a directory of the bundle and pointing at a name the installer has
    yet to copy: the link does not exist for the backup manager, which
    moves nothing; it exists once the manifest is copied, and the copy
    loop calls [rmtree] on it. *)
Lemma install_configuration_rmtree_on_dangling_link :
  let run :=
    Project.install_configuration plain_env ["work"; "proj"] ["tmp"; "src"]
      ["python"] dangling_world in
  lstat (w_fs dangling_world) ["work"; "proj"; "agent_instructions"]
  = Some (Symlink ["work"; "proj"; "CLAUDE.md"])
  /\ w_log (fst run)
     = [ Rmtree ["tmp"; "src"; "agent_instructions"; "languages"; "go"];
         WriteText ["tmp"; "src"; "CLAUDE.md"];
         Unlink ["tmp"; "src"; "README.md"];
         Unlink ["tmp"; "src"; "install.py"];
         Copy2 ["tmp"; "src"; "CLAUDE.md"] ["work"; "proj"; "CLAUDE.md"];
         Rmtree ["work"; "proj"; "agent_instructions"] ]
  /\ snd run = Err (Lib OSError ["work"; "proj"; "agent_instructions"]).
Proof. repeat split; vm_compute; reflexivity. Qed.

(** C10, amended. Once the scratch copy is cleaned, with a destination
    directory in which no entry named like a source item is a link that
    leads nowhere, and a bundle without an item named like the backup
    directory: the rest of the installation issues no deleting call, so
    the copy loop never calls [rmtree]; and whenever the backup manager
    returns, so that the copy loop runs, every destination entry whose
    name collides with a source item has left its place and sits
    unchanged in the backup directory, where it still is when the
    installation ends. *)
Theorem install_configuration_moves_aside (env : Env) (dest_dir temp_source_dir : Path)
  (languages : list string) (w0 w1 : World) (es ses : gmap string node) :
  let fs := w_fs w1 in
  let b := Project.backup_name (now env) in
  let source_items := child temp_source_dir <$> listing ses in
  prepare_source env temp_source_dir languages w0 = (w1, Ok tt) ->
  lstat fs dest_dir = Some (Dir es) ->
  stat fs temp_source_dir = Some (Dir ses) ->
  (forall n, is_Some (ses !! n) -> is_Some (es !! n) ->
             path_exists fs (child dest_dir n) = true) ->
  ses !! b = None ->
  exists wb rb w2 r evs,
    Project.backup_conflicting_files env dest_dir source_items w1 = (wb, rb)
    /\ Project.install_configuration env dest_dir temp_source_dir languages w0
       = (w2, r)
    /\ w_log w2 = w_log w1 ++ evs
    /\ Forall (fun ev => is_removal ev = false) evs
    /\ (rb <> Ok tt -> w2 = wb /\ r = rb)
    /\ (rb = Ok tt ->
        forall n x, is_Some (ses !! n) -> es !! n = Some x ->
          lstat (w_fs wb) (child dest_dir n) = None
          /\ lstat (w_fs wb) (child (child dest_dir b) n) = Some x
          /\ lstat (w_fs w2) (child (child dest_dir b) n) = Some x).
Proof.
  intros fs b source_items Hprep Hd Hsrc Hlive Hb.
  assert (Hnames : name <$> source_items = listing ses)
    by apply name_children.
  assert (Hinst : Project.install_configuration env dest_dir temp_source_dir
                    languages w0
                  = (Project.backup_conflicting_files env dest_dir source_items ;;
                     Project.copy_items dest_dir source_items) w1).
  { rewrite install_configuration_phases, (bind_ok _ _ _ _ _ Hprep).
    unfold install_items. by rewrite (bind_ok _ _ _ _ _ (iterdir_run _ _ _ Hsrc)). }
  destruct (backup_outcome env w1 dest_dir source_items es Hd)
    as (wb & rb & evs1 & Hback & Hlog1 & Hev1 & Hok).
  { rewrite Hnames. apply listing_NoDup. }
  rewrite Hnames in Hok. fold fs b in Hok.
  destruct rb as [[] | e].
  - destruct (Hok eq_refl) as (es' & Hd' & Hin & Hout).
    assert (Hcoll : forall n, is_Some (ses !! n) -> is_Some (es !! n) ->
              n ∈ filter (fun n => path_exists fs (child dest_dir n) = true)
                    (listing ses)).
    { intros n Hs He. apply list_elem_of_filter. split; [by apply Hlive |].
      by apply listing_elem. }
    assert (Hfree : forall n, n ∈ name <$> source_items -> es' !! n = None).
    { intros n Hn. rewrite Hnames in Hn. apply listing_elem in Hn.
      destruct (decide (n ∈ filter
                  (fun n => path_exists fs (child dest_dir n) = true)
                  (listing ses))) as [Hc | Hc].
      - by destruct (Hin n Hc).
      - rewrite Hout; [| done | intros ->; destruct Hn; congruence].
        destruct (es !! n) eqn:Hen; [| done].
        destruct Hc. apply Hcoll; [done | by eexists]. }
    destruct (copy_items_safe dest_dir source_items wb es' Hd')
      as (w2 & r & evs2 & D' & Hcopy & Hlog2 & Hev2 & Hd2 & Hframe);
      [rewrite Hnames; apply listing_NoDup | done |].
    exists wb, (Ok tt), w2, r, (evs1 ++ evs2).
    split; [done |].
    split; [by rewrite Hinst, (bind_ok _ _ _ _ _ Hback) |].
    split; [by rewrite Hlog2, Hlog1, app_assoc |].
    split.
    { apply Forall_app. split; [done |].
      eapply Forall_impl; [exact Hev2 |]. apply is_copy_not_removal. }
    split; [done |].
    intros _ n x Hs Hx.
    destruct (Hin n (Hcoll n Hs ltac:(by eexists))) as (Hgone & bes & Hbes & Hn).
    assert (Hb2 : D' !! b = Some (Dir bes)).
    { rewrite Hframe; [done |]. rewrite Hnames, listing_elem.
      intros [? ?]. congruence. }
    unfold child.
    split; [by rewrite (lstat_child _ _ _ _ Hd') |].
    assert (Hbd : forall fsx D, lstat fsx dest_dir = Some (Dir D) ->
              D !! b = Some (Dir bes) ->
              lstat fsx ((dest_dir ++ [b]) ++ [n]) = Some x).
    { intros fsx D HD HDb.
      assert (lstat fsx (dest_dir ++ [b]) = Some (Dir bes)) as Hbdir
        by (by rewrite (lstat_child _ _ _ _ HD)).
      rewrite (lstat_child _ _ _ _ Hbdir). congruence. }
    split; [by eapply Hbd | by eapply Hbd].
  - exists wb, (Err e), wb, (Err e), evs1.
    split; [done |].
    split; [by rewrite Hinst, (bind_err _ _ _ _ _ Hback) |].
    split; [done |]. split; [done |]. split; [done | done].
Qed.
Lemma install_configuration_moves_aside_witness :
  exists w2 evs,
    Project.install_configuration plain_env ["work"; "proj"] ["tmp"; "src"]
      ["python"] used_dest_world = (w2, Ok tt)
    /\ w_log w2
       = w_log (fst (prepare_source plain_env ["tmp"; "src"] ["python"]
                       used_dest_world)) ++ evs
    /\ Forall (fun ev => is_removal ev = false) evs
    /\ lstat (w_fs w2)
         ["work"; "proj"; ".claude_backup_20250914_120000"; "CLAUDE.md"]
       = Some (File "old manifest").
Proof.
  destruct (install_configuration_moves_aside plain_env ["work"; "proj"]
              ["tmp"; "src"] ["python"] used_dest_world
              (fst (prepare_source plain_env ["tmp"; "src"] ["python"]
                      used_dest_world))
              (list_to_map [("CLAUDE.md", File "old manifest");
                            ("notes.md", File "mine")])
              (entries_at
                 (w_fs (fst (prepare_source plain_env ["tmp"; "src"] ["python"]
                               used_dest_world)))
                 ["tmp"; "src"]))
    as (wb & rb & w2 & r & evs & Hback & Hinst & Hlog & Hev & _ & Hmoved).
  - vm_compute. reflexivity.
  - vm_compute. reflexivity.
  - vm_compute. reflexivity.
  - intros n _ [x Hx]. apply elem_of_list_to_map_2 in Hx.
    repeat (apply elem_of_cons in Hx as [[= -> ->] | Hx];
            [vm_compute; reflexivity |]).
    by apply elem_of_nil in Hx.
  - vm_compute. reflexivity.
  - assert (Hrb : rb = Ok tt).
    { apply (f_equal snd) in Hback. cbn [snd] in Hback. rewrite <- Hback.
      vm_compute. reflexivity. }
    assert (Hr : r = Ok tt).
    { apply (f_equal snd) in Hinst. cbn [snd] in Hinst. rewrite <- Hinst.
      vm_compute. reflexivity. }
    subst r. exists w2, evs. split; [exact Hinst |]. split; [exact Hlog |].
    split; [exact Hev |].
    destruct (Hmoved Hrb "CLAUDE.md" (File "old manifest")) as (_ & _ & H);
      [vm_compute; by eexists | vm_compute; reflexivity | exact H].
Defined.

(** ** Cleaning the scratch copy *)

Section Cleaning.

Variable env : Env.
Variable temp_source_dir : Path.
Variable languages : list string.
Hypothesis Hscratch : scratch_ok env temp_source_dir.

Let lang_dir := Project.languages_dir temp_source_dir.

Lemma lang_dir_app : lang_dir = temp_source_dir ++ ["agent_instructions"; "languages"].
Proof. unfold lang_dir, Project.languages_dir, child. by rewrite <- app_assoc. Qed.

Lemma validate_languages_run w (les : gmap string node) (langs : list string) :
  lstat (w_fs w) lang_dir = Some (Dir les) ->
  (forall lang, lang ∈ langs -> plain_name lang = true) ->
  (forall lang, lang ∈ langs -> is_Some (les !! lang)) ->
  (forall k n, les !! k = Some n -> is_link_node n = false) ->
  for_each langs (fun lang =>
    e ← ask (fun fs => Project.join_exists fs lang_dir lang);
    when (negb e) (raise (LanguageNotFound lang))) w = (w, Ok tt).
Proof.
  intros Hd Hplain Hin Hnl. induction langs as [| lang langs IH]; [done |].
  cbn [for_each]. rewrite bind_assoc, bind_ask.
  rewrite join_exists_plain by (apply Hplain; left).
  destruct (Hin lang ltac:(left)) as [n Hn].
  assert (Hst : stat (w_fs w) (child lang_dir lang) = Some n).
  { apply stat_plain; [| by eapply Hnl].
    unfold child. by rewrite (lstat_child _ _ _ _ Hd). }
  unfold path_exists. rewrite Hst. cbn [negb when]. rewrite bind_ret.
  apply IH; intros l Hl; [apply Hplain | apply Hin]; by right.
Qed.

Lemma safe_delete_language w k (L : gmap string node) es :
  lstat (w_fs w) lang_dir = Some (Dir L) ->
  L !! k = Some (Dir es) ->
  exists fs',
    graft (w_fs w) lang_dir (Dir (delete k L)) = Some fs'
    /\ Project.safe_delete env (child lang_dir k) true w
       = (mkWorld fs' (w_log w ++ [Rmtree (child lang_dir k)]), Ok tt).
Proof.
  intros Hd Hk. destruct Hscratch as [Heuid Hres (root & Hroot & rest & Hrest & Hsrc)].
  assert (Hl : lstat (w_fs w) (child lang_dir k) = Some (Dir es)).
  { unfold child. by rewrite (lstat_child _ _ _ _ Hd). }
  assert (Hrp : resolve env (w_fs w) (child lang_dir k) = child lang_dir k).
  { pose proof (lstat_link_free _ _ _ Hl eq_refl) as Hfree. revert Hfree.
    unfold child. rewrite lang_dir_app, <- app_assoc. apply Hres. }
  destruct (put_child (w_fs w) lang_dir k None L Hd) as (fs' & Hput & Hg).
  exists fs'. split; [done |].
  rewrite safe_delete_inside; [| done |].
  - rewrite Hrp. unfold is_dir. rewrite (stat_plain _ _ _ Hl) by done.
    cbn [andb]. unfold rmtree, issue. rewrite Hl. unfold put_or, child.
    by rewrite Hput.
  - rewrite Hrp. exists root. split; [done |].
    exists (rest ++ ["agent_instructions"; "languages"; k]).
    split; [by destruct rest |].
    unfold child. rewrite lang_dir_app, Hsrc. by rewrite <- !app_assoc.
Qed.

Lemma clean_loop (les : gmap string node) ks : forall w (L : gmap string node),
  lstat (w_fs w) lang_dir = Some (Dir L) ->
  NoDup ks ->
  (forall k, k ∈ ks -> L !! k = les !! k) ->
  (forall k n, les !! k = Some n -> is_link_node n = false) ->
  exists fs' L' evs,
    for_each (child lang_dir <$> ks) (fun lang_path =>
      d ← ask (fun fs => is_dir fs lang_path);
      when (d && negb (bool_decide (name lang_path ∈ languages)))
        (Project.safe_delete env lang_path true)) w
    = (mkWorld fs' (w_log w ++ evs), Ok tt)
    /\ graft (w_fs w) lang_dir (Dir L') = Some fs'
    /\ (forall k, L' !! k
                  = if decide (k ∈ ks) then
                      if dropped_language languages k (les !! k) then None
                      else L !! k
                    else L !! k).
Proof.
  induction ks as [| k ks IH]; intros w L Hd Hnd Hcur Hnl.
  - exists (w_fs w), L, []. rewrite app_nil_r. split; [by destruct w |].
    split; [by apply graft_id | done].
  - apply NoDup_cons in Hnd as [Hk Hnd].
    cbn [fmap list_fmap for_each]. rewrite bind_assoc, bind_ask, name_child.
    assert (Hdir : is_dir (w_fs w) (child lang_dir k)
                   && negb (bool_decide (k ∈ languages))
                   = dropped_language languages k (les !! k)).
    { unfold is_dir, child. rewrite <- (Hcur k) by left.
      destruct (L !! k) as [n |] eqn:HLk.
      - rewrite (stat_plain _ _ n).
        + by destruct n.
        + by rewrite (lstat_child _ _ _ _ Hd).
        + eapply Hnl. rewrite <- (Hcur k) by left. done.
      - rewrite lstat_None_stat; [done |]. by rewrite (lstat_child _ _ _ _ Hd). }
    rewrite Hdir.
    destruct (dropped_language languages k (les !! k)) eqn:Hdrop.
    + assert (exists es, L !! k = Some (Dir es)) as [es HLk].
      { rewrite (Hcur k) by left. unfold dropped_language in Hdrop.
        destruct (les !! k) as [[] |]; try done. by eexists. }
      destruct (safe_delete_language w k L es Hd HLk) as (fs1 & Hg1 & Hdel).
      cbn [when]. rewrite (bind_ok _ _ _ _ _ Hdel).
      destruct (IH (mkWorld fs1 (w_log w ++ [Rmtree (child lang_dir k)]))
                  (delete k L)) as (fs' & L' & evs & Hrun & Hg & HL');
        [by eapply lstat_graft | done | | done |].
      { intros j Hj. rewrite lookup_delete_ne by (intros <-; done).
        apply Hcur. by right. }
      exists fs', L', (Rmtree (child lang_dir k) :: evs).
      cbn [w_fs w_log] in *. split; [by rewrite Hrun, <- app_assoc |].
      split; [by rewrite <- (graft_graft _ _ _ _ _ Hg1) |].
      intros j. rewrite HL'. destruct (decide (j = k)) as [-> | Hjk].
      * rewrite decide_False by done. rewrite decide_True by left.
        by rewrite Hdrop, lookup_delete_eq.
      * rewrite lookup_delete_ne by done.
        destruct (decide (j ∈ ks)) as [Hj | Hj].
        -- by rewrite decide_True by (by right).
        -- by rewrite decide_False by (by intros [? | ?]%elem_of_cons).
    + cbn [when]. rewrite bind_ret.
      destruct (IH w L) as (fs' & L' & evs & Hrun & Hg & HL'); [done | done | | done |].
      { intros j Hj. apply Hcur. by right. }
      exists fs', L', evs. split; [done |]. split; [done |].
      intros j. rewrite HL'. destruct (decide (j = k)) as [-> | Hjk].
      * rewrite decide_False by done. rewrite decide_True by left.
        by rewrite Hdrop.
      * destruct (decide (j ∈ ks)) as [Hj | Hj].
        -- by rewrite decide_True by (by right).
        -- by rewrite decide_False by (by intros [? | ?]%elem_of_cons).
Qed.

End Cleaning.
Lemma clean_loop_kept languages (les L' : gmap string node) :
  (forall k, L' !! k
             = if decide (k ∈ listing les) then
                 if dropped_language languages k (les !! k) then None
                 else les !! k
               else les !! k) ->
  L' = kept_languages languages les.
Proof.
  intros HL. apply map_eq. intros k. rewrite HL. unfold kept_languages.
  destruct (les !! k) as [n |] eqn:Hk.
  - rewrite decide_True by (apply listing_elem; by eexists).
    destruct (dropped_language languages k (Some n)) eqn:Hdrop; symmetry.
    + apply map_lookup_filter_None. right. intros n' Hn'. cbn [fst snd].
      rewrite Hk in Hn'. injection Hn' as <-. by rewrite Hdrop.
    + apply map_lookup_filter_Some. by split.
  - assert (Hnone : filter (fun kn => dropped_language languages kn.1 (Some kn.2) = false)
                      les !! k = None).
    { apply map_lookup_filter_None. by left. }
    rewrite Hnone. by destruct (decide _).
Qed.

Section Removing.

Variable temp_source_dir : Path.

Lemma remove_loop fl : forall w (cur : gmap string node),
  lstat (w_fs w) temp_source_dir = Some (Dir cur) ->
  (forall f n, f ∈ fl -> cur !! f = Some n -> exists c, n = File c) ->
  exists fs' evs,
    for_each fl (fun file_name =>
      e ← ask (fun fs => path_exists fs (child temp_source_dir file_name));
      when e (unlink (child temp_source_dir file_name))) w
    = (mkWorld fs' (w_log w ++ evs), Ok tt)
    /\ graft (w_fs w) temp_source_dir
         (Dir (foldl (fun m f => delete f m) cur fl)) = Some fs'.
Proof.
  induction fl as [| f fl IH]; intros w cur Hd Hfiles.
  - exists (w_fs w), []. rewrite app_nil_r. split; [by destruct w |].
    by apply graft_id.
  - cbn [for_each foldl]. rewrite bind_assoc, bind_ask.
    assert (Hl : lstat (w_fs w) (child temp_source_dir f) = cur !! f).
    { unfold child. by rewrite (lstat_child _ _ _ _ Hd). }
    destruct (cur !! f) as [n |] eqn:Hf.
    + destruct (Hfiles f n ltac:(left) Hf) as [c ->].
      assert (He : path_exists (w_fs w) (child temp_source_dir f) = true)
        by (unfold path_exists; by rewrite (stat_plain _ _ _ Hl)).
      rewrite He. cbn [when].
      destruct (put_child (w_fs w) temp_source_dir f None cur Hd)
        as (fs1 & Hput & Hg1).
      assert (Hun : unlink (child temp_source_dir f) w
                    = (mkWorld fs1 (w_log w ++ [Unlink (child temp_source_dir f)]),
                       Ok tt)).
      { unfold unlink, issue. rewrite Hl. unfold put_or, child. by rewrite Hput. }
      rewrite (bind_ok _ _ _ _ _ Hun).
      destruct (IH (mkWorld fs1 (w_log w ++ [Unlink (child temp_source_dir f)]))
                  (delete f cur)) as (fs' & evs & Hrun & Hg);
        [by eapply lstat_graft | |].
      { intros f' n' Hin [_ Hn']%lookup_delete_Some. apply (Hfiles f' n'); [by right | done]. }
      exists fs', (Unlink (child temp_source_dir f) :: evs).
      cbn [w_fs w_log] in *. split; [by rewrite Hrun, <- app_assoc |].
      by rewrite <- (graft_graft _ _ _ _ _ Hg1).
    + rewrite (lstat_None_path_exists _ _ Hl). cbn [when]. rewrite bind_ret.
      rewrite delete_id by done.
      apply IH; [done |]. intros f' n' Hin. apply Hfiles. by right.
Qed.

End Removing.

(** The top-level items of a well-formed bundle are files and
    directories, and so are the entries of its languages folder. *)
Lemma bundle_items_plain languages ses k n :
  bundle_ok languages ses -> ses !! k = Some n -> is_plain n = true.
Proof.
  intros [_ _ _ _ Hplain] Hk. apply (Hplain [k]). cbn [lstat]. by rewrite Hk.
Qed.

Lemma bundle_languages_plain languages ses ai les k n :
  bundle_ok languages ses ->
  ses !! "agent_instructions" = Some (Dir ai) ->
  ai !! "languages" = Some (Dir les) ->
  les !! k = Some n -> is_link_node n = false.
Proof.
  intros [_ _ _ _ Hplain] Hai Hles Hk.
  assert (is_plain n = true) as Hn; [| by destruct n].
  apply (Hplain ["agent_instructions"; "languages"; k]).
  cbn [lstat]. by rewrite Hai, Hles, Hk.
Qed.

(** The first phase succeeds on a well-formed bundle and leaves, in the
    scratch directory, the cleaned bundle; nothing else changes. *)
Lemma prepare_run env temp_source_dir languages w ses :
  scratch_ok env temp_source_dir ->
  bundle_ok languages ses ->
  lstat (w_fs w) temp_source_dir = Some (Dir ses) ->
  exists fs' evs,
    prepare_source env temp_source_dir languages w
    = (mkWorld fs' (w_log w ++ evs), Ok tt)
    /\ graft (w_fs w) temp_source_dir (Dir (cleaned_bundle languages ses))
       = Some fs'.
Proof.
  intros Hscratch Hbundle Hsrc.
  pose proof Hbundle as
    [Hlangs Hnames (ai & les & c & Hai & Hles & Hmd & Hvalid & Hhave) Hpack _].
  assert (Hnl : forall k n, les !! k = Some n -> is_link_node n = false).
  { intros k n. by apply (bundle_languages_plain languages ses ai les). }
  assert (Hlang_dir : Project.languages_dir temp_source_dir
                      = temp_source_dir ++ ["agent_instructions"; "languages"])
    by apply lang_dir_app.
  assert (Hld : lstat (w_fs w) (Project.languages_dir temp_source_dir)
                = Some (Dir les)).
  { rewrite Hlang_dir, lstat_app, Hsrc. simpl. by rewrite Hai, Hles. }
  unfold prepare_source. cbv zeta.
  rewrite (bind_ok _ _ _ _ _
             (validate_languages_run temp_source_dir w les languages Hld Hnames
                Hhave Hnl)).
  (* the language directories *)
  destruct (clean_loop env temp_source_dir languages Hscratch les (listing les) w les)
    as (fs1 & L' & evs1 & Hloop & Hg1 & HL'); [done | apply listing_NoDup | done | done |].
  apply clean_loop_kept in HL'. subst L'.
  set (ses1 := <["agent_instructions" :=
                   Dir (<["languages" := Dir (kept_languages languages les)]> ai)]> ses).
  assert (Hg1' : graft (w_fs w) temp_source_dir (Dir ses1) = Some fs1).
  { rewrite <- Hg1. rewrite Hlang_dir. symmetry.
    change (graft (w_fs w) (temp_source_dir ++ ["agent_instructions"; "languages"])
              (Dir (kept_languages languages les)))
      with (match temp_source_dir ++ ["agent_instructions"; "languages"] with
            | [] => Some (Dir (kept_languages languages les))
            | _ :: _ =>
                put (w_fs w) (temp_source_dir ++ ["agent_instructions"; "languages"])
                  (Some (Dir (kept_languages languages les)))
            end).
    destruct (temp_source_dir ++ ["agent_instructions"; "languages"]) eqn:Heq;
      [by destruct temp_source_dir |]. rewrite <- Heq.
    rewrite (put_app _ _ _ _ _ Hsrc) by done. simpl. by rewrite Hai. }
  assert (Hclean : Project.clean_language_files env temp_source_dir languages w
                   = (mkWorld fs1 (w_log w ++ evs1), Ok tt)).
  { unfold Project.clean_language_files.
    destruct languages as [| l ls]; [done |]. cbv zeta.
    assert (He : path_exists (w_fs w) (Project.languages_dir temp_source_dir) = true)
      by (unfold path_exists; by rewrite (stat_plain _ _ _ Hld)).
    rewrite bind_ask, He. cbn [negb].
    by rewrite (bind_ok _ _ _ _ _ (iterdir_run _ _ _ (stat_plain _ _ _ Hld eq_refl))). }
  rewrite (bind_ok _ _ _ _ _ Hclean).
  (* the manifest *)
  pose proof (lstat_graft _ _ _ _ Hg1') as Hsrc1.
  set (ses2 := <["CLAUDE.md" := File (filtered_manifest languages c)]> ses1).
  destruct (put_child fs1 temp_source_dir "CLAUDE.md"
              (Some (File (filtered_manifest languages c))) ses1 Hsrc1)
    as (fs2 & Hput2 & Hg2).
  assert (Hmd1 : lstat fs1 (child temp_source_dir "CLAUDE.md") = Some (File c)).
  { unfold child. rewrite (lstat_child _ _ _ _ Hsrc1). unfold ses1.
    by rewrite lookup_insert_ne. }
  assert (Hmanifest :
    Project.clean_claude_md (child temp_source_dir "CLAUDE.md") languages
      (mkWorld fs1 (w_log w ++ evs1))
    = (mkWorld fs2 ((w_log w ++ evs1)
                    ++ [WriteText (child temp_source_dir "CLAUDE.md")]), Ok tt)).
  { unfold Project.clean_claude_md. rewrite bind_ask. cbn [w_fs].
    unfold is_file. rewrite (stat_plain _ _ _ Hmd1) by done. cbn [negb].
    destruct languages as [| l ls]; [done |].
    erewrite bind_ok;
      [| apply read_text_run; [cbn [w_fs]; by rewrite (stat_plain _ _ _ Hmd1) | done]].
    unfold write_text, issue, max_links. cbn [w_fs w_log write_go].
    rewrite Hmd1. unfold put_or, child. fold (filtered_manifest (l :: ls) c).
    by rewrite Hput2. }
  rewrite (bind_ok _ _ _ _ _ Hmanifest).
  (* the packaging files *)
  destruct (remove_loop temp_source_dir Project.files_to_remove
              (mkWorld fs2 ((w_log w ++ evs1)
                            ++ [WriteText (child temp_source_dir "CLAUDE.md")]))
              ses2) as (fs3 & evs3 & Hrm & Hg3).
  { by eapply lstat_graft. }
  { intros f n Hf Hn. unfold ses2, ses1 in Hn.
    unfold Project.files_to_remove in Hf.
    rewrite !lookup_insert_ne in Hn.
    - by eapply Hpack.
    - intros <-. set_solver.
    - intros <-. set_solver. }
  cbn [w_fs w_log] in *.
  exists fs3, (evs1 ++ WriteText (child temp_source_dir "CLAUDE.md") :: evs3).
  split.
  - rewrite Hrm. by rewrite <- !app_assoc.
  - unfold cleaned_bundle. rewrite Hai, Hmd, Hles. fold ses1 ses2.
    rewrite <- Hg3. symmetry.
    rewrite (graft_graft _ _ _ _ _ Hg2). by apply (graft_graft _ _ _ _ _ Hg1').
Qed.
(** ** A whole installation *)

Lemma lookup_foldl_delete (fl : list string) : forall (m : gmap string node) k,
  foldl (fun m f => delete f m) m fl !! k
  = if decide (k ∈ fl) then None else m !! k.
Proof.
  induction fl as [| f fl IH]; intros m k; cbn [foldl].
  - by rewrite decide_False by apply not_elem_of_nil.
  - rewrite IH. destruct (decide (k ∈ fl)) as [Hk | Hk].
    + by rewrite decide_True by (by right).
    + destruct (decide (k = f)) as [-> | Hkf].
      * rewrite decide_True by left. apply lookup_delete_eq.
      * rewrite decide_False by (by intros [? | ?]%elem_of_cons).
        by apply lookup_delete_ne.
Qed.

Lemma cleaned_bundle_lookup languages ses ai les c k :
  ses !! "agent_instructions" = Some (Dir ai) ->
  ai !! "languages" = Some (Dir les) ->
  ses !! "CLAUDE.md" = Some (File c) ->
  cleaned_bundle languages ses !! k
  = if decide (k ∈ Project.files_to_remove) then None
    else if decide (k = "CLAUDE.md")
         then Some (File (filtered_manifest languages c))
         else if decide (k = "agent_instructions")
              then Some (Dir (<["languages" := Dir (kept_languages languages les)]> ai))
              else ses !! k.
Proof.
  intros Hai Hles Hmd. unfold cleaned_bundle. rewrite Hai, Hmd, Hles.
  rewrite lookup_foldl_delete. destruct (decide (k ∈ _)); [done |].
  destruct (decide (k = "CLAUDE.md")) as [-> | ?]; [by rewrite lookup_insert_eq |].
  rewrite lookup_insert_ne by done.
  destruct (decide (k = "agent_instructions")) as [-> | ?];
    [by rewrite lookup_insert_eq | by rewrite lookup_insert_ne].
Qed.

Lemma cleaned_bundle_plain languages ses k n :
  bundle_ok languages ses ->
  cleaned_bundle languages ses !! k = Some n -> is_plain n = true.
Proof.
  intros Hbundle.
  pose proof Hbundle as [_ _ (ai & les & c & Hai & Hles & Hmd & _) _ _].
  rewrite (cleaned_bundle_lookup _ _ _ _ _ _ Hai Hles Hmd).
  repeat case_decide; try done; try (by intros [= <-]).
  by apply (bundle_items_plain languages ses).
Qed.

Lemma cleaned_bundle_manifest languages ses :
  bundle_ok languages ses ->
  is_Some (cleaned_bundle languages ses !! "CLAUDE.md").
Proof.
  intros [_ _ (ai & les & c & Hai & Hles & Hmd & _) _ _].
  rewrite (cleaned_bundle_lookup _ _ _ _ _ _ Hai Hles Hmd).
  rewrite decide_False.
  - rewrite decide_True by done. by eexists.
  - unfold Project.files_to_remove. set_solver.
Qed.

Lemma is_plain_not_link n : is_plain n = true -> is_link_node n = false.
Proof. by destruct n. Qed.

Section Installing.

Variable dest_dir : Path.
Variable temp_source_dir : Path.
Hypothesis Hapart : apart temp_source_dir dest_dir.

(** A plain item is copied onto a free name of the destination. *)
Lemma copy_item_plain w item (D : gmap string node) n :
  lstat (w_fs w) dest_dir = Some (Dir D) ->
  D !! name item = None ->
  stat (w_fs w) item = Some n -> is_plain n = true ->
  exists fs' ev,
    Project.copy_items dest_dir [item] w
    = (mkWorld fs' (w_log w ++ [ev]), Ok tt)
    /\ is_copy ev = true
    /\ graft (w_fs w) dest_dir (Dir (<[name item := n]> D)) = Some fs'.
Proof.
  intros Hd Hfree Hst Hplain.
  assert (Hdst : lstat (w_fs w) (child dest_dir (name item)) = None).
  { unfold child. by rewrite (lstat_child _ _ _ _ Hd). }
  destruct (put_child (w_fs w) dest_dir (name item) (Some n) D Hd)
    as (fs' & Hput & Hg).
  unfold Project.copy_items. cbn [for_each].
  rewrite bind_assoc, bind_ask. unfold is_dir. rewrite Hst.
  destruct n as [c | ses | |]; try done.
  - exists fs', (Copy2 item (child dest_dir (name item))).
    split; [| done].
    erewrite bind_ok; [reflexivity |].
    unfold copy2, issue. rewrite Hst, (lstat_None_is_dir _ _ Hdst).
    unfold max_links. cbn [write_go]. rewrite Hdst. unfold put_or, child.
    by rewrite Hput.
  - exists fs', (Copytree item (child dest_dir (name item))).
    split; [| done].
    rewrite bind_assoc, bind_ask, (lstat_None_path_exists _ _ Hdst).
    cbn [when]. rewrite bind_assoc, bind_ret.
    erewrite bind_ok; [reflexivity |].
    unfold copytree, issue. rewrite Hst, Hdst. unfold put_or, child.
    by rewrite Hput.
Qed.

Lemma copy_items_run (C : gmap string node) ks : forall w (D : gmap string node),
  lstat (w_fs w) dest_dir = Some (Dir D) ->
  lstat (w_fs w) temp_source_dir = Some (Dir C) ->
  NoDup ks ->
  (forall k, k ∈ ks -> D !! k = None) ->
  (forall k, k ∈ ks -> exists n, C !! k = Some n /\ is_plain n = true) ->
  exists fs' D' evs,
    Project.copy_items dest_dir (child temp_source_dir <$> ks) w
    = (mkWorld fs' (w_log w ++ evs), Ok tt)
    /\ graft (w_fs w) dest_dir (Dir D') = Some fs'
    /\ (forall k, D' !! k = if decide (k ∈ ks) then C !! k else D !! k)
    /\ Forall (fun ev => is_copy ev = true) evs.
Proof.
  induction ks as [| k ks IH]; intros w D Hd Hsrc Hnd Hfree Hplain.
  - exists (w_fs w), D, []. rewrite app_nil_r. split; [by destruct w |].
    split; [by apply graft_id |]. split; [done | constructor].
  - apply NoDup_cons in Hnd as [Hk Hnd].
    destruct (Hplain k ltac:(left)) as (n & Hn & Hpl).
    assert (Hst : stat (w_fs w) (child temp_source_dir k) = Some n).
    { apply stat_plain; [| by apply is_plain_not_link].
      unfold child. by rewrite (lstat_child _ _ _ _ Hsrc). }
    destruct (copy_item_plain w (child temp_source_dir k) D n Hd)
      as (fs1 & ev & Hrun1 & Hev & Hg1); [rewrite name_child; apply Hfree; left | done .. |].
    rewrite name_child in Hg1.
    destruct (IH (mkWorld fs1 (w_log w ++ [ev])) (<[k := n]> D))
      as (fs' & D' & evs & Hrun & Hg & HD' & Hevs).
    { by eapply lstat_graft. }
    { cbn [w_fs]. rewrite (lstat_graft_diverge _ _ _ _ _ Hg1); [done | |];
        destruct Hapart; done. }
    { done. }
    { intros j Hj. rewrite lookup_insert_ne by (intros <-; done).
      apply Hfree. by right. }
    { intros j Hj. apply Hplain. by right. }
    exists fs', D', (ev :: evs). cbn [w_fs w_log] in *.
    split.
    { cbn [fmap list_fmap]. rewrite copy_items_cons.
      rewrite (bind_ok _ _ _ _ _ Hrun1), Hrun. by rewrite <- app_assoc. }
    split; [by rewrite <- (graft_graft _ _ _ _ _ Hg1) |].
    split; [| by constructor].
    intros j. rewrite HD'. destruct (decide (j = k)) as [-> | Hjk].
    + rewrite decide_False by done. rewrite decide_True by left.
      by rewrite lookup_insert_eq.
    + rewrite lookup_insert_ne by done.
      destruct (decide (j ∈ ks)) as [Hj | Hj].
      * by rewrite decide_True by (by right).
      * by rewrite decide_False by (by intros [? | ?]%elem_of_cons).
Qed.

(** The second phase on plain items: every item is installed, every
    colliding entry is in the backup directory, which exists exactly when
    something collided, and all the rest is as it was. *)
Lemma install_items_run env w (es C : gmap string node) :
  let b := Project.backup_name (now env) in
  lstat (w_fs w) dest_dir = Some (Dir es) ->
  lstat (w_fs w) temp_source_dir = Some (Dir C) ->
  (forall k n, C !! k = Some n -> is_plain n = true) ->
  (forall n x, is_Some (C !! n) -> es !! n = Some x -> is_link_node x = false) ->
  es !! b = None -> C !! b = None ->
  exists fs' es' evs,
    install_items env dest_dir temp_source_dir w
    = (mkWorld fs' (w_log w ++ evs), Ok tt)
    /\ graft (w_fs w) dest_dir (Dir es') = Some fs'
    /\ Forall (fun ev => is_removal ev = false) evs
    /\ (forall k, is_Some (C !! k) -> es' !! k = C !! k)
    /\ (forall k, C !! k = None -> k <> b -> es' !! k = es !! k)
    /\ ((exists n, is_Some (C !! n) /\ is_Some (es !! n)) ->
        exists bes,
          es' !! b = Some (Dir bes)
          /\ forall n, bes !! n = if decide (is_Some (C !! n)) then es !! n else None)
    /\ ((forall n, is_Some (C !! n) -> es !! n = None) -> es' !! b = None).
Proof.
  intros b Hd Hsrc Hplain Hnolink Hb HCb.
  set (items := child temp_source_dir <$> listing C).
  set (conflicts := filter (fun n => path_exists (w_fs w) (child dest_dir n) = true)
                      (name <$> items)).
  assert (Hnames : name <$> items = listing C) by apply name_children.
  assert (Hconf : forall n, n ∈ conflicts <-> is_Some (C !! n) /\ is_Some (es !! n)).
  { intros n. unfold conflicts. rewrite Hnames, list_elem_of_filter, listing_elem.
    split.
    - intros [He HC]. split; [done |].
      apply path_exists_lstat in He. unfold child in He.
      by rewrite (lstat_child _ _ _ _ Hd) in He.
    - intros [HC [x Hx]]. split; [| done].
      unfold path_exists. rewrite (stat_plain _ _ x); [done | | by eapply Hnolink].
      unfold child. by rewrite (lstat_child _ _ _ _ Hd). }
  assert (Hiter : iterdir temp_source_dir w = (w, Ok items)).
  { apply iterdir_run. apply stat_plain; done. }
  assert (Hplain' : forall k, k ∈ listing C ->
            exists n, C !! k = Some n /\ is_plain n = true).
  { intros k [n Hn]%listing_elem. exists n. split; [done |]. by eapply Hplain. }
  unfold install_items. rewrite (bind_ok _ _ _ _ _ Hiter).
  destruct (decide (conflicts = [])) as [He | Hne].
  - (* nothing collides *)
    assert (Hback : Project.backup_conflicting_files env dest_dir items w = (w, Ok tt)).
    { rewrite backup_unfold. fold conflicts. by rewrite He. }
    rewrite (bind_ok _ _ _ _ _ Hback).
    assert (Hnone : forall n, is_Some (C !! n) -> es !! n = None).
    { intros n HC. destruct (es !! n) eqn:Hn; [| done].
      assert (n ∈ conflicts) as Hin by (apply Hconf; split; [done | by eexists]).
      rewrite He in Hin. by apply elem_of_nil in Hin. }
    destruct (copy_items_run C (listing C) w es Hd Hsrc (listing_NoDup C))
      as (fs' & es' & evs & Hrun & Hg & Hes' & Hevs); [| done |].
    { intros k Hk. apply Hnone. by apply listing_elem. }
    fold items in Hrun.
    exists fs', es', evs. split; [done |]. split; [done |].
    split; [eapply Forall_impl; [exact Hevs | apply is_copy_not_removal] |].
    split; [| split; [| split]].
    + intros k Hk. rewrite Hes'. by rewrite decide_True by (by apply listing_elem).
    + intros k Hk _. rewrite Hes'. rewrite decide_False; [done |].
      rewrite listing_elem, Hk. by intros [? ?].
    + intros (n & HC & [x Hx]). rewrite (Hnone n HC) in Hx. done.
    + intros _. rewrite Hes'. rewrite decide_False; [done |].
      rewrite listing_elem, HCb. by intros [? ?].
  - (* something collides *)
    destruct (backup_run env w dest_dir items es Hne Hd)
      as (fs1 & es1 & bes & Hback & Hg1 & Hb1 & Hin & Hout & Hbout);
      [rewrite Hnames; apply listing_NoDup | done |].
    fold conflicts b in Hback, Hin, Hout, Hbout.
    rewrite (bind_ok _ _ _ _ _ Hback).
    destruct (copy_items_run C (listing C)
                (mkWorld fs1 (w_log w ++ Mkdir (child dest_dir b)
                                :: backup_moves dest_dir b conflicts)) es1)
      as (fs' & es' & evs & Hrun & Hg & Hes' & Hevs).
    { by eapply lstat_graft. }
    { cbn [w_fs]. rewrite (lstat_graft_diverge _ _ _ _ _ Hg1); [done | |];
        destruct Hapart; done. }
    { apply listing_NoDup. }
    { intros k Hk. apply listing_elem in Hk.
      destruct (decide (k ∈ conflicts)) as [Hc | Hc]; [by destruct (Hin k Hc) |].
      rewrite Hout; [| done | intros ->; destruct Hk; congruence].
      destruct (es !! k) eqn:Hek; [| done].
      destruct Hc. apply Hconf. split; [done | by eexists]. }
    { done. }
    cbn [w_fs w_log] in *. fold items in Hrun.
    exists fs', es', (Mkdir (child dest_dir b) :: backup_moves dest_dir b conflicts ++ evs).
    split; [rewrite Hrun; by rewrite <- app_assoc |].
    split; [by rewrite <- (graft_graft _ _ _ _ _ Hg1) |].
    split.
    { constructor; [done |]. apply Forall_app. split.
      - unfold backup_moves. apply Forall_fmap, Forall_true. done.
      - eapply Forall_impl; [exact Hevs | apply is_copy_not_removal]. }
    assert (Hb' : es' !! b = Some (Dir bes)).
    { rewrite Hes'. rewrite decide_False; [done |].
      rewrite listing_elem, HCb. by intros [? ?]. }
    split; [| split; [| split]].
    + intros k Hk. rewrite Hes'. by rewrite decide_True by (by apply listing_elem).
    + intros k Hk Hkb. rewrite Hes'. rewrite decide_False.
      * apply Hout; [| done]. rewrite Hconf, Hk. by intros [[? ?] _].
      * rewrite listing_elem, Hk. by intros [? ?].
    + intros _. exists bes. split; [done |]. intros n.
      destruct (decide (n ∈ conflicts)) as [Hc | Hc].
      * destruct (Hin n Hc) as [_ ->]. apply Hconf in Hc as [HC _].
        by rewrite decide_True.
      * rewrite (Hbout n Hc). destruct (decide (is_Some (C !! n))) as [HC | HC]; [| done].
        destruct (es !! n) eqn:Hen; [| done].
        destruct Hc. apply Hconf. split; [done | by eexists].
    + intros Hnone. destruct Hne. apply elem_of_nil_inv. intros n Hn.
      apply Hconf in Hn as [HC [x Hx]]. rewrite (Hnone n HC) in Hx. done.
Qed.

End Installing.
(** The claim of C9 fails on the first of two runs into an empty
    destination: the first run makes no backup directory, so that after
    both runs the destination holds one backup directory, not two. *)
Lemma first_installation_makes_no_backup :
  let first :=
    Project.install_configuration plain_env ["work"; "proj"] ["tmp"; "src"]
      ["python"] empty_dest_world in
  let second :=
    Project.install_configuration later_env ["work"; "proj"] ["tmp"; "src"]
      ["python"] (extract_again (fst first)) in
  snd first = Ok tt
  /\ listing (entries_at (w_fs (fst first)) ["work"; "proj"])
     = ["CLAUDE.md"; "agent_instructions"]
  /\ snd second = Ok tt
  /\ listing (entries_at (w_fs (fst second)) ["work"; "proj"])
     = ["CLAUDE.md"; "agent_instructions"; ".claude_backup_20250914_120500"].
Proof. repeat split; vm_compute; reflexivity. Qed.

(** C9, amended. Two installations in a row, under the following
    conditions: the caller is not root; each scratch directory lies
    strictly inside a temporary root, and [Path.resolve] returns as it
    is a path below it that holds no link; the bundle is well formed
    (files and directories only, the manifest a file of text, the
    languages folder with an entry for each selected language, the
    selection not empty and made of plain names); the destination is a
    directory, and neither it nor a scratch directory lies inside the
    other; no entry of the destination named like an installed item is
    a symbolic link; the two backup names differ, and neither is borne
    by an entry of the destination or by an installed item.  Then the
    first run succeeds, installs the cleaned bundle, leaves the other
    entries of the destination alone and makes a backup directory,
    holding the entries that collided, exactly when some entry collided;
    the second run, on a fresh scratch copy of the same bundle, succeeds
    and leaves the destination as the first run left it plus one new
    backup directory, which holds the items the first run installed.
    The installed content is that of a single run. *)
Theorem install_configuration_twice (env1 env2 : Env)
  (dest_dir temp_source_dir1 temp_source_dir2 : Path) (languages : list string)
  (ses es0 : gmap string node) (w0 : World) :
  let installed := cleaned_bundle languages ses in
  let b1 := Project.backup_name (now env1) in
  let b2 := Project.backup_name (now env2) in
  scratch_ok env1 temp_source_dir1 ->
  scratch_ok env2 temp_source_dir2 ->
  bundle_ok languages ses ->
  apart temp_source_dir1 dest_dir ->
  apart temp_source_dir2 dest_dir ->
  lstat (w_fs w0) temp_source_dir1 = Some (Dir ses) ->
  lstat (w_fs w0) dest_dir = Some (Dir es0) ->
  (forall n x, is_Some (installed !! n) -> es0 !! n = Some x ->
               is_link_node x = false) ->
  es0 !! b1 = None -> installed !! b1 = None ->
  es0 !! b2 = None -> installed !! b2 = None ->
  b1 <> b2 ->
  exists w1 es1,
    Project.install_configuration env1 dest_dir temp_source_dir1 languages w0
    = (w1, Ok tt)
    /\ lstat (w_fs w1) dest_dir = Some (Dir es1)
    /\ (forall k, is_Some (installed !! k) -> es1 !! k = installed !! k)
    /\ (forall k, installed !! k = None -> k <> b1 -> es1 !! k = es0 !! k)
    /\ ((exists n, is_Some (installed !! n) /\ is_Some (es0 !! n)) ->
        exists bes,
          es1 !! b1 = Some (Dir bes)
          /\ forall n, bes !! n
                       = if decide (is_Some (installed !! n)) then es0 !! n
                         else None)
    /\ ((forall n, is_Some (installed !! n) -> es0 !! n = None) ->
        es1 !! b1 = None)
    /\ forall w1',
         lstat (w_fs w1') dest_dir = Some (Dir es1) ->
         lstat (w_fs w1') temp_source_dir2 = Some (Dir ses) ->
         exists w2,
           Project.install_configuration env2 dest_dir temp_source_dir2
             languages w1' = (w2, Ok tt)
           /\ es1 !! b2 = None
           /\ lstat (w_fs w2) dest_dir
              = Some (Dir (<[b2 := Dir installed]> es1)).
Proof.
  intros C b1 b2 Hs1 Hs2 Hbundle Hap1 Hap2 Hsrc Hd Hnolink Hb1 HCb1 Hb2 HCb2 Hbb.
  assert (Hplain : forall k n, C !! k = Some n -> is_plain n = true).
  { intros k n. by apply cleaned_bundle_plain. }
  (* the first run *)
  destruct (prepare_run env1 temp_source_dir1 languages w0 ses Hs1 Hbundle Hsrc)
    as (fsp & evsp & Hprep & Hgp).
  fold C in Hgp.
  destruct (install_items_run dest_dir temp_source_dir1 Hap1 env1
              (mkWorld fsp (w_log w0 ++ evsp)) es0 C)
    as (fs1 & es1 & evs1 & Hrun1 & Hg1 & _ & Hin1 & Hout1 & Hcoll1 & Hnone1);
    [| by eapply lstat_graft | done | done | done | done |].
  { cbn [w_fs]. rewrite (lstat_graft_diverge _ _ _ _ _ Hgp); [done | |];
      destruct Hap1; done. }
  cbn [w_fs w_log] in *. fold b1 in Hout1, Hcoll1, Hnone1.
  exists (mkWorld fs1 ((w_log w0 ++ evsp) ++ evs1)), es1.
  split; [by rewrite install_configuration_phases, (bind_ok _ _ _ _ _ Hprep) |].
  split; [by eapply lstat_graft |].
  split; [done |]. split; [done |]. split; [done |]. split; [done |].
  (* the second run *)
  intros w1' Hd' Hsrc'.
  destruct (prepare_run env2 temp_source_dir2 languages w1' ses Hs2 Hbundle Hsrc')
    as (fsq & evsq & Hprep2 & Hgq).
  fold C in Hgq.
  assert (Hes1b2 : es1 !! b2 = None).
  { rewrite Hout1; done. }
  destruct (install_items_run dest_dir temp_source_dir2 Hap2 env2
              (mkWorld fsq (w_log w1' ++ evsq)) es1 C)
    as (fs2 & es2 & evs2 & Hrun2 & Hg2 & _ & Hin2 & Hout2 & Hcoll2 & _);
    [| by eapply lstat_graft | done | | done | done |].
  { cbn [w_fs]. rewrite (lstat_graft_diverge _ _ _ _ _ Hgq); [done | |];
      destruct Hap2; done. }
  { intros n x HC Hx. rewrite (Hin1 n HC) in Hx.
    apply is_plain_not_link. by eapply Hplain. }
  cbn [w_fs w_log] in *. fold b2 in Hout2, Hcoll2.
  exists (mkWorld fs2 ((w_log w1' ++ evsq) ++ evs2)).
  split; [by rewrite install_configuration_phases, (bind_ok _ _ _ _ _ Hprep2) |].
  split; [done |]. cbn [w_fs].
  rewrite (lstat_graft _ _ _ _ Hg2). do 2 f_equal.
  destruct Hcoll2 as (bes & Hbes & Hbes_all).
  { exists "CLAUDE.md".
    pose proof (cleaned_bundle_manifest languages ses Hbundle) as Hm. fold C in Hm.
    split; [done |]. by rewrite (Hin1 _ Hm). }
  assert (bes = C) as ->.
  { apply map_eq. intros n. rewrite Hbes_all.
    destruct (decide (is_Some (C !! n))) as [HC | HC]; [by apply Hin1 |].
    symmetry. by apply eq_None_not_Some. }
  apply map_eq. intros k. destruct (decide (k = b2)) as [-> | Hk].
  - by rewrite lookup_insert_eq.
  - rewrite lookup_insert_ne by done.
    destruct (C !! k) as [n |] eqn:HCk.
    + rewrite Hin2 by (by eexists). rewrite Hin1 by (by eexists). done.
    + by apply Hout2.
Qed.

Lemma sample_scratch_ok env :
  euid env = 1000%Z -> resolve env = (fun _ p => p) ->
  scratch_ok env ["tmp"; "src"].
Proof.
  intros He Hr. split.
  - rewrite He. discriminate.
  - intros fs p _. by rewrite Hr.
  - exists ["tmp"]. split; [left |]. by exists ["src"].
Qed.

(** A [Path.resolve] that follows links returns a path without links as
    it is. *)
Lemma chase_link_free fuel fs p : link_free fs p -> chase fuel fs p = p.
Proof.
  intros Hp. destruct fuel; cbn [chase];
    destruct (lstat fs p) as [[| | t |] |] eqn:Hl; try done;
    by destruct (Hp p t).
Qed.

Lemma following_scratch_ok : scratch_ok following_env ["tmp"; "src"].
Proof.
  split.
  - discriminate.
  - intros fs p Hp. by apply chase_link_free.
  - exists ["tmp"]. split; [left |]. by exists ["src"].
Qed.

Lemma plain_tree_file c : plain_tree (File c).
Proof. intros [| k p] m; [by intros [= <-] | done]. Qed.

Lemma plain_tree_dir (es : gmap string node) :
  (forall k n, es !! k = Some n -> plain_tree n) -> plain_tree (Dir es).
Proof.
  intros H [| k p] m; [by intros [= <-] |]. cbn [lstat].
  destruct (es !! k) as [n |] eqn:Hk; [| done]. by apply (H k n).
Qed.

Lemma plain_tree_list (l : list (string * node)) :
  Forall (fun kn => plain_tree kn.2) l -> plain_tree (Dir (list_to_map l)).
Proof.
  intros H. apply plain_tree_dir. intros k n Hk.
  apply elem_of_list_to_map_2 in Hk.
  by apply (proj1 (Forall_forall _ _) H (k, n)).
Qed.

Ltac plain_tree_tac :=
  repeat first
    [ exact I
    | apply Forall_nil
    | apply Forall_cons; split
    | progress cbn [snd]
    | apply plain_tree_file
    | apply plain_tree_list ].

Lemma sample_bundle_ok : bundle_ok ["python"] sample_entries.
Proof.
  split.
  - discriminate.
  - intros lang ->%list_elem_of_singleton. reflexivity.
  - exists sample_instructions, sample_languages, sample_manifest.
    split; [reflexivity |]. split; [reflexivity |]. split; [reflexivity |].
    split; [reflexivity |].
    intros lang ->%list_elem_of_singleton. by eexists.
  - intros f n Hf Hn. unfold Project.files_to_remove in Hf.
    repeat (apply elem_of_cons in Hf as [-> | Hf];
            [vm_compute in Hn;
             first [discriminate Hn | injection Hn as <-; by eexists] |]).
    by apply elem_of_nil in Hf.
  - unfold sample_entries, sample_instructions, sample_languages, dir_of.
    plain_tree_tac.
Qed.

Lemma install_configuration_twice_witness :
  exists w1 w2 es1,
    Project.install_configuration plain_env ["work"; "proj"] ["tmp"; "src"]
      ["python"] used_dest_world = (w1, Ok tt)
    /\ lstat (w_fs w1) ["work"; "proj"] = Some (Dir es1)
    /\ Project.install_configuration later_env ["work"; "proj"] ["tmp"; "src"]
         ["python"] (extract_again w1) = (w2, Ok tt)
    /\ lstat (w_fs w2) ["work"; "proj"]
       = Some (Dir (<[".claude_backup_20250914_120500" :=
                        Dir (cleaned_bundle ["python"] sample_entries)]> es1)).
Proof.
  destruct (install_configuration_twice plain_env later_env ["work"; "proj"]
              ["tmp"; "src"] ["tmp"; "src"] ["python"] sample_entries
              used_entries used_dest_world)
    as (w1 & es1 & Hrun1 & Hd1 & _ & _ & _ & _ & Hsecond).
  - by apply sample_scratch_ok.
  - by apply sample_scratch_ok.
  - apply sample_bundle_ok.
  - split; intros [r Hr]; discriminate Hr.
  - split; intros [r Hr]; discriminate Hr.
  - vm_compute. reflexivity.
  - vm_compute. reflexivity.
  - intros n x _ Hx. apply elem_of_list_to_map_2 in Hx.
    repeat (apply elem_of_cons in Hx as [[= -> ->] | Hx]; [reflexivity |]).
    by apply elem_of_nil in Hx.
  - vm_compute. reflexivity.
  - vm_compute. reflexivity.
  - vm_compute. reflexivity.
  - vm_compute. reflexivity.
  - discriminate.
  - pose proof (f_equal fst Hrun1) as Hw1. cbn [fst] in Hw1. subst w1.
    destruct (Hsecond (extract_again
                (fst (Project.install_configuration plain_env ["work"; "proj"]
                        ["tmp"; "src"] ["python"] used_dest_world))))
      as (w2 & Hrun2 & _ & Hd2).
    + rewrite <- Hd1. vm_compute. reflexivity.
    + vm_compute. reflexivity.
    + eexists _, w2, es1. split; [exact Hrun1 |]. split; [exact Hd1 |].
      split; [exact Hrun2 | exact Hd2].
Defined.

(** * Further properties of the project script *)

(** ** Cleaning the languages folder *)

Lemma kept_languages_lookup languages (les : gmap string node) k :
  kept_languages languages les !! k
  = if dropped_language languages k (les !! k) then None else les !! k.
Proof.
  unfold kept_languages. destruct (les !! k) as [n |] eqn:Hk.
  - destruct (dropped_language languages k (Some n)) eqn:Hd.
    + apply map_lookup_filter_None. right. intros n' Hn'. cbn [fst snd].
      rewrite Hk in Hn'. injection Hn' as <-. by rewrite Hd.
    + apply map_lookup_filter_Some. by split.
  - apply map_lookup_filter_None. by left.
Qed.

(** X1. [clean_language_files] refuses an empty keep tuple and a missing
    languages folder before it touches anything.  Otherwise, for a
    caller who is not root, a scratch directory strictly inside a
    temporary root, a [Path.resolve] that returns as it is a path below
    the scratch directory that holds no link, and a languages folder
    that is a directory none of whose entries is a symbolic link, it
    succeeds and leaves in the languages folder exactly the entries that
    are not directories by another name than a kept language: a kept
    language, and anything that is not a directory, stays as it was; the
    rest of the file system is unchanged. *)
Theorem clean_language_files_spec (env : Env) (temp_source_dir : Path)
  (keep_languages : list string) (w : World) :
  let lang_dir := Project.languages_dir temp_source_dir in
  let run := Project.clean_language_files env temp_source_dir keep_languages w in
  (keep_languages = [] -> run = (w, Err NoLanguagesToKeep))
  /\ (keep_languages <> [] -> path_exists (w_fs w) lang_dir = false ->
      run = (w, Err (LanguagesDirNotFound lang_dir)))
  /\ (keep_languages <> [] -> scratch_ok env temp_source_dir ->
      forall les,
        lstat (w_fs w) lang_dir = Some (Dir les) ->
        (forall k n, les !! k = Some n -> is_link_node n = false) ->
        exists fs' evs les',
          run = (mkWorld fs' (w_log w ++ evs), Ok tt)
          /\ graft (w_fs w) lang_dir (Dir les') = Some fs'
          /\ (forall k es, les !! k = Some (Dir es) -> k ∉ keep_languages ->
                           les' !! k = None)
          /\ (forall k, k ∈ keep_languages -> les' !! k = les !! k)
          /\ (forall k n, les !! k = Some n -> is_dir_node n = false ->
                          les' !! k = Some n)).
Proof.
  intros lang_dir run. subst run. unfold Project.clean_language_files.
  fold lang_dir. split; [by intros -> |]. split.
  - intros Hne He. destruct keep_languages as [| l ls]; [done |].
    by rewrite bind_ask, He.
  - intros Hne Hscratch les Hld Hnl.
    destruct (clean_loop env temp_source_dir keep_languages Hscratch les
                (listing les) w les)
      as (fs' & L' & evs & Hloop & Hg & HL');
      [done | apply listing_NoDup | done | done |].
    apply clean_loop_kept in HL'. subst L'.
    exists fs', evs, (kept_languages keep_languages les).
    split; [| split; [done |]].
    + destruct keep_languages as [| l ls]; [done |].
      assert (He : path_exists (w_fs w) lang_dir = true)
        by (unfold path_exists; by rewrite (stat_plain _ _ _ Hld)).
      rewrite bind_ask, He. cbn [negb].
      by rewrite (bind_ok _ _ _ _ _ (iterdir_run _ _ _ (stat_plain _ _ _ Hld eq_refl))).
    + split; [| split].
      * intros k es Hk Hnot. rewrite kept_languages_lookup, Hk. cbn.
        by rewrite bool_decide_eq_false_2.
      * intros k Hin. rewrite kept_languages_lookup.
        destruct (les !! k) as [[] |]; cbn; try done.
        by rewrite bool_decide_eq_true_2.
      * intros k n Hk Hn. rewrite kept_languages_lookup, Hk. by destruct n.
Qed.

Lemma clean_language_files_spec_witness :
  exists fs' evs,
    Project.clean_language_files following_env ["tmp"; "src"] ["python"]
      empty_dest_world
    = (mkWorld fs' evs, Ok tt)
    /\ lstat fs' ["tmp"; "src"; "agent_instructions"; "languages"; "go"] = None
    /\ lstat fs' ["tmp"; "src"; "agent_instructions"; "languages"; "python"]
       = Some (dir_of [("x.md", File "python rules")]).
Proof.
  destruct (clean_language_files_spec following_env ["tmp"; "src"] ["python"]
              empty_dest_world) as (_ & _ & H).
  destruct (H ltac:(discriminate) following_scratch_ok sample_languages)
    as (fs' & evs & les' & Hrun & Hg & Hdrop & Hkeep & _).
  - vm_compute. reflexivity.
  - intros k n Hk. apply elem_of_list_to_map_2 in Hk.
    repeat (apply elem_of_cons in Hk as [[= -> ->] | Hk]; [reflexivity |]).
    by apply elem_of_nil in Hk.
  - exists fs', ([] ++ evs). split; [exact Hrun |].
    pose proof (lstat_graft _ _ _ _ Hg) as Hl.
    change ["tmp"; "src"; "agent_instructions"; "languages"; "go"]
      with (Project.languages_dir ["tmp"; "src"] ++ ["go"]).
    change ["tmp"; "src"; "agent_instructions"; "languages"; "python"]
      with (Project.languages_dir ["tmp"; "src"] ++ ["python"]).
    rewrite !(lstat_child _ _ _ _ Hl). split.
    + apply (Hdrop "go" (list_to_map [("y.md", File "go rules")]));
        [reflexivity |].
      intros Hin. apply list_elem_of_singleton in Hin. discriminate Hin.
    + rewrite Hkeep by (by apply list_elem_of_singleton). reflexivity.
Defined.

(** X2. When every directory of the languages folder is a kept language,
    [clean_language_files] deletes nothing: it issues no call and leaves
    the world as it was, whoever runs it and wherever the scratch
    directory lies. *)
Theorem clean_language_files_keeps_all (env : Env) (temp_source_dir : Path)
  (keep_languages : list string) (w : World) (les : gmap string node) :
  let lang_dir := Project.languages_dir temp_source_dir in
  keep_languages <> [] ->
  stat (w_fs w) lang_dir = Some (Dir les) ->
  (forall k, is_Some (les !! k) ->
             is_dir (w_fs w) (child lang_dir k) = true ->
             k ∈ keep_languages) ->
  Project.clean_language_files env temp_source_dir keep_languages w
  = (w, Ok tt).
Proof.
  intros lang_dir Hne Hst Hall. unfold Project.clean_language_files.
  fold lang_dir. destruct keep_languages as [| l ls]; [done |].
  assert (He : path_exists (w_fs w) lang_dir = true)
    by (unfold path_exists; by rewrite Hst).
  rewrite bind_ask, He. cbn [negb].
  rewrite (bind_ok _ _ _ _ _ (iterdir_run _ _ _ Hst)).
  assert (Hks : forall k, k ∈ listing les -> is_Some (les !! k))
    by (intros k; apply listing_elem).
  induction (listing les) as [| k ks IH]; [done |].
  cbn [fmap list_fmap for_each]. rewrite bind_assoc, bind_ask, name_child.
  assert (Hcond : is_dir (w_fs w) (child lang_dir k)
                  && negb (bool_decide (k ∈ l :: ls)) = false).
  { destruct (is_dir (w_fs w) (child lang_dir k)) eqn:Hd; [| done].
    cbn [andb]. rewrite bool_decide_eq_true_2; [done |].
    apply Hall; [apply Hks; left | done]. }
  rewrite Hcond. cbn [when]. rewrite bind_ret.
  apply IH. intros j Hj. apply Hks. by right.
Qed.

Lemma clean_language_files_keeps_all_witness :
  Project.clean_language_files root_env ["tmp"; "src"] ["go"; "python"]
    empty_dest_world = (empty_dest_world, Ok tt).
Proof.
  apply (clean_language_files_keeps_all root_env ["tmp"; "src"] ["go"; "python"]
           empty_dest_world sample_languages).
  - discriminate.
  - vm_compute. reflexivity.
  - intros k [n Hk] _. apply elem_of_list_to_map_2 in Hk.
    repeat (apply elem_of_cons in Hk as [[= -> ->] | Hk];
            [apply (bool_decide_unpack _); vm_compute; exact I |]).
    by apply elem_of_nil in Hk.
Defined.
(** ** The manifest filter, again *)

Lemma put_root_dir fs p new fs' :
  put fs p new = Some fs' -> is_dir fs' [] = true.
Proof.
  destruct p as [| c p]; [done |]. destruct fs as [| es | |]; try done.
  cbn [put]. destruct p.
  - by intros [= <-].
  - destruct (es !! c); [| done]. destruct (put _ _ _); [| done].
    by intros [= <-].
Qed.

(** The filter on a manifest that can be read: it is written back,
    filtered, over the file it was read from. *)
Lemma clean_claude_md_run w claude_md_path keep_languages content :
  keep_languages <> [] ->
  is_dir (w_fs w) [] = true ->
  stat (w_fs w) claude_md_path = Some (File content) ->
  Str.valid_utf8 content = true ->
  exists fs' target,
    Project.clean_claude_md claude_md_path keep_languages w
    = (mkWorld fs' (w_log w ++ [WriteText claude_md_path]), Ok tt)
    /\ target <> []
    /\ lstat (w_fs w) target = Some (File content)
    /\ put (w_fs w) target (Some (File (filtered_manifest keep_languages content)))
       = Some fs'
    /\ stat fs' claude_md_path
       = Some (File (filtered_manifest keep_languages content)).
Proof.
  intros Hkeep Hroot Hst Hvalid.
  destruct (write_go_stat_go (w_fs w) content
              (filtered_manifest keep_languages content) max_links
              claude_md_path Hst) as (q & Hq & Hw & Hafter).
  assert (Hne : q <> []).
  { intros ->. simpl in Hq. injection Hq as Hfs.
    unfold is_dir, stat, max_links in Hroot. cbn [stat_go lstat] in Hroot.
    rewrite Hfs in Hroot. done. }
  destruct (put_is_Some (w_fs w) q _
              (Some (File (filtered_manifest keep_languages content))) Hq Hne)
    as [fs' Hput].
  exists fs', q. split; [| split; [done | split; [done | split; [done | by apply Hafter]]]].
  unfold Project.clean_claude_md. rewrite bind_ask.
  unfold is_file. rewrite Hst. cbn [negb].
  destruct keep_languages as [| k ks]; [done |].
  rewrite (bind_ok _ _ _ _ _ (read_text_run w _ _ Hst Hvalid)).
  fold (filtered_manifest (k :: ks) content).
  unfold write_text, issue. rewrite Hw. unfold put_or.
  by rewrite Hput.
Qed.

(** X3. What [clean_claude_md] does is decided by three tests, in this
    order: a manifest path that is not a regular file (absent, a
    directory) gives the missing-manifest error, also when the keep
    tuple is empty; a manifest with an empty keep tuple gives the
    no-languages error; a manifest whose bytes are not text gives the
    decoding error of [read_text]; all three leave the world as it was
    and issue no call.  Otherwise the filter succeeds with one write, and
    the file it read is the only thing it changes: every path that lies
    neither in, nor above, that file holds what it held. *)
Theorem clean_claude_md_outcome (claude_md_path : Path)
  (keep_languages : list string) (w : World) :
  let fs := w_fs w in
  let run := Project.clean_claude_md claude_md_path keep_languages w in
  (is_file fs claude_md_path = false ->
   run = (w, Err (ManifestNotFound claude_md_path)))
  /\ (is_file fs claude_md_path = true -> keep_languages = [] ->
      run = (w, Err NoLanguagesForManifest))
  /\ (is_file fs claude_md_path = true -> keep_languages <> [] ->
      is_dir fs [] = true ->
      exists content,
        stat fs claude_md_path = Some (File content)
        /\ (Str.valid_utf8 content = false ->
            run = (w, Err (Lib ValueError claude_md_path)))
        /\ (Str.valid_utf8 content = true ->
            exists fs' target,
              run = (mkWorld fs' (w_log w ++ [WriteText claude_md_path]), Ok tt)
              /\ lstat fs target = Some (File content)
              /\ lstat fs' target
                 = Some (File (filtered_manifest keep_languages content))
              /\ forall q, ¬ target `prefix_of` q -> ¬ q `prefix_of` target ->
                           lstat fs' q = lstat fs q)).
Proof.
  intros fs run. subst run. split; [| split].
  - intros Hf. unfold Project.clean_claude_md. rewrite bind_ask. fold fs.
    by rewrite Hf.
  - intros Hf ->. unfold Project.clean_claude_md. rewrite bind_ask. fold fs.
    by rewrite Hf.
  - intros Hf Hkeep Hroot. pose proof Hf as Hfile. unfold is_file in Hf.
    destruct (stat fs claude_md_path) as [[content | | |] |] eqn:Hst; try done.
    exists content. split; [done |]. split.
    + intros Hvalid. unfold Project.clean_claude_md. rewrite bind_ask. fold fs.
      rewrite Hfile. cbn [negb].
      destruct keep_languages as [| k ks]; [done |].
      by rewrite (bind_err _ _ _ _ _ (read_text_undecodable w _ _ Hst Hvalid)).
    + intros Hvalid.
      destruct (clean_claude_md_run w claude_md_path keep_languages content
                  Hkeep Hroot Hst Hvalid) as (fs' & target & Hrun & _ & Hl & Hput & _).
      exists fs', target.
      split; [done |]. split; [done |].
      split; [by eapply lstat_put_eq |].
      intros q Hq1 Hq2. by eapply lstat_put_diverge.
Qed.

Lemma clean_claude_md_outcome_witness :
  Project.clean_claude_md ["tmp"; "src"; "absent.md"] [] manifest_world
  = (manifest_world, Err (ManifestNotFound ["tmp"; "src"; "absent.md"]))
  /\ Project.clean_claude_md ["tmp"; "src"; "CLAUDE.md"] [] manifest_world
     = (manifest_world, Err NoLanguagesForManifest)
  /\ exists fs',
       Project.clean_claude_md ["tmp"; "src"; "CLAUDE.md"] ["python"]
         manifest_world
       = (mkWorld fs' [WriteText ["tmp"; "src"; "CLAUDE.md"]], Ok tt).
Proof.
  destruct (clean_claude_md_outcome ["tmp"; "src"; "absent.md"] [] manifest_world)
    as (Ha & _).
  destruct (clean_claude_md_outcome ["tmp"; "src"; "CLAUDE.md"] [] manifest_world)
    as (_ & Hb & _).
  destruct (clean_claude_md_outcome ["tmp"; "src"; "CLAUDE.md"] ["python"]
              manifest_world) as (_ & _ & Hc).
  split; [apply Ha; reflexivity |].
  split; [apply Hb; reflexivity |].
  destruct (Hc eq_refl ltac:(discriminate) eq_refl)
    as (content & Hst & _ & Hok).
  injection Hst as <-.
  destruct (Hok eq_refl) as (fs' & target & Hrun & _).
  exists fs'. exact Hrun.
Defined.

(** ** The interactive selection, again *)

Lemma length_append a b :
  String.length (a +:+ b) = (String.length a + String.length b)%nat.
Proof.
  induction a as [| x a IH]; [done |].
  change (S (String.length (a +:+ b)) = S (String.length a + String.length b)).
  by rewrite IH.
Qed.

(** The first character is decided by the bytes it is made of, whatever
    follows them. *)
Lemma app_head a s x : String a s +:+ x = String a (s +:+ x).
Proof. reflexivity. Qed.

Lemma app_empty_l (x : string) : EmptyString +:+ x = x.
Proof. reflexivity. Qed.

Lemma decode_head_spec s cp r :
  Str.decode_head s = Some (cp, r) ->
  exists h, h <> EmptyString /\ s = h +:+ r
            /\ forall x, Str.decode_head (h +:+ x) = Some (cp, x).
Proof.
  unfold Str.decode_head. destruct s as [| a s]; [done |]. cbv zeta.
  destruct (Str.code a <? 128)%N eqn:E1.
  { intros [= <- <-]. exists (String a ""). split; [done |]. split; [done |].
    intros x. unfold Str.decode_head. rewrite !app_head, app_empty_l. cbv zeta. by rewrite E1. }
  destruct ((194 <=? Str.code a) && (Str.code a <=? 223))%N eqn:E2.
  { destruct s as [| b s]; [done |].
    destruct (Str.cont b) as [vb |] eqn:Eb; [| done].
    intros [= <- <-]. exists (String a (String b "")).
    split; [done |]. split; [done |].
    intros x. unfold Str.decode_head. rewrite !app_head, app_empty_l. cbv zeta. by rewrite E1, E2, Eb. }
  destruct ((224 <=? Str.code a) && (Str.code a <=? 239))%N eqn:E3.
  { destruct s as [| b [| c s]]; try done.
    destruct (Str.cont b) as [vb |] eqn:Eb; [| done].
    destruct (Str.cont c) as [vc |] eqn:Ec; [| done].
    match goal with |- context [if ?t then _ else _] => destruct t eqn:Er end;
      [| done].
    intros [= <- <-]. exists (String a (String b (String c ""))).
    split; [done |]. split; [done |].
    intros x. unfold Str.decode_head. rewrite !app_head, app_empty_l. cbv zeta. by rewrite E1, E2, E3, Eb, Ec, Er. }
  destruct ((240 <=? Str.code a) && (Str.code a <=? 244))%N eqn:E4; [| done].
  destruct s as [| b [| c [| d s]]]; try done.
  destruct (Str.cont b) as [vb |] eqn:Eb; [| done].
  destruct (Str.cont c) as [vc |] eqn:Ec; [| done].
  destruct (Str.cont d) as [vd |] eqn:Ed; [| done].
  match goal with |- context [if ?t then _ else _] => destruct t eqn:Er end;
    [| done].
  intros [= <- <-]. exists (String a (String b (String c (String d "")))).
  split; [done |]. split; [done |].
  intros x. unfold Str.decode_head. rewrite !app_head, app_empty_l. cbv zeta. by rewrite E1, E2, E3, E4, Eb, Ec, Ed, Er.
Qed.

(** A character met at the head of a text is met at the head of every
    text that goes on. *)
Lemma head_len_app p u x k :
  Str.head_len p u = S k -> Str.head_len p (u +:+ x) <> O.
Proof.
  unfold Str.head_len.
  destruct (Str.decode_head u) as [[cp r] |] eqn:Hu; [| done].
  destruct (p cp) eqn:Hp; [| done]. intros _.
  destruct (decode_head_spec _ _ _ Hu) as (h & Hh & -> & Hdec).
  rewrite append_assoc_str, Hdec, Hp, !length_append.
  destruct h; [done |]. simpl. lia.
Qed.

(** What [lstrip] leaves does not start with a blank character. *)
Lemma lstrip_go_head s : forall skip,
  Str.lstrip_go skip s <> EmptyString ->
  Str.head_len Str.is_space (Str.lstrip_go skip s) = O.
Proof.
  induction s as [| a s IH]; intros skip; [done |].
  cbn [Str.lstrip_go]. destruct skip as [| k]; [| apply IH].
  destruct (Str.head_len Str.is_space (String a s)) as [| k] eqn:Hh;
    [done | apply IH].
Qed.

(** [rstrip] cuts at the end only. *)
Lemma rstrip_prefix s : exists x, s = Str.rstrip s +:+ x.
Proof.
  induction s as [| a s [x IH]]; [by exists EmptyString |].
  cbn [Str.rstrip]. destruct (Str.all_space (String a s)).
  - by exists (String a s).
  - exists x. rewrite app_head. by rewrite <- IH.
Qed.

Lemma split_go_word s : forall skip w, Str.split_go skip (Some w) s <> [].
Proof.
  induction s as [| c s IH]; intros skip w; cbn [Str.split_go]; [done |].
  destruct skip; [| apply IH].
  destruct (Str.head_len Str.is_space (String c s)); [apply IH | done].
Qed.

(** A stripped answer that is not empty holds a word. *)
Lemma split_strip_nonempty s :
  Str.strip s <> EmptyString -> Str.split (Str.strip s) <> [].
Proof.
  unfold Str.strip, Str.lstrip. intros Hne.
  assert (Ht : Str.lstrip_go 0 s <> EmptyString).
  { intros Ht. by rewrite Ht in Hne. }
  pose proof (lstrip_go_head s 0 Ht) as Hhead.
  destruct (rstrip_prefix (Str.lstrip_go 0 s)) as [x Hx].
  destruct (Str.rstrip (Str.lstrip_go 0 s)) as [| c u] eqn:Hu; [done |].
  unfold Str.split. cbn [Str.split_go].
  destruct (Str.head_len Str.is_space (String c u)) as [| k] eqn:Hk;
    [apply split_go_word |].
  rewrite Hx in Hhead. by destruct (head_len_app _ _ x _ Hk).
Qed.

Lemma first_seen_nonempty l : l <> [] -> first_seen l <> [].
Proof. destruct l; [done |]. simpl. done. Qed.

(** X5. A selection that [choose_languages_interactively] returns is
    never empty: it holds at least the language of the first word of the
    answer. *)
Theorem choose_languages_interactively_nonempty (available : list string)
  (answer : console) (langs : list string) :
  Project.choose_languages_interactively available answer = Ok langs ->
  exists first rest,
    langs = first :: rest
    /\ exists word words s,
         answer = Line s
         /\ Str.split (Str.strip s) = word :: words
         /\ Project.select_part available word = Ok first.
Proof.
  destruct answer as [s | |]; [| done | done]. intros Hrun.
  destruct (decide (Str.strip s = EmptyString)) as [He | Hne].
  { unfold Project.choose_languages_interactively in Hrun. by rewrite He in Hrun. }
  rewrite (choose_nonempty _ _ Hne) in Hrun.
  pose proof (split_strip_nonempty s Hne) as Hwords.
  destruct (Str.split (Str.strip s)) as [| word words] eqn:Hsplit; [done |].
  cbn [Project.select_parts] in Hrun.
  destruct (Project.select_part available word) as [first | e] eqn:Hword;
    [| done].
  destruct (forallb (part_ok available) words) eqn:Hall.
  - rewrite (select_parts_ok _ _ _ Hall) in Hrun. cbn [app] in Hrun.
    rewrite unique_go_empty in Hrun. cbn [first_seen] in Hrun.
    injection Hrun as <-. eexists first, _. split; [reflexivity |]. by exists word, words, s.
  - destruct (forallb_split_first _ _ Hall) as (pre & part & post & -> & Hpre & Hbad).
    by rewrite (select_parts_bad _ _ _ _ _ Hpre Hbad) in Hrun.
Qed.

Lemma choose_languages_interactively_nonempty_witness :
  exists first rest,
    ["go"; "python"] = first :: rest
    /\ exists word words s,
         Line " 2 go 1 " = Line s
         /\ Str.split (Str.strip s) = word :: words
         /\ Project.select_part ["python"; "go"; "rust"] word = Ok first.
Proof.
  apply (choose_languages_interactively_nonempty ["python"; "go"; "rust"]).
  vm_compute. reflexivity.
Defined.
(** ** Backups and installations that stop early *)

(** X6. When something collides and the name of the backup directory is
    already taken in the destination, [backup_conflicting_files] stops at
    its [mkdir] with a file-exists error: nothing has been moved, the
    file system is as it was. *)
Theorem backup_conflicting_files_name_taken (env : Env) (w : World)
  (dest_dir : Path) (source_items : list Path) (es : gmap string node) :
  let fs := w_fs w in
  let conflicts :=
    filter (fun n => path_exists fs (child dest_dir n) = true)
      (name <$> source_items) in
  let backup_dir := child dest_dir (Project.backup_name (now env)) in
  conflicts <> [] ->
  lstat fs dest_dir = Some (Dir es) ->
  is_Some (es !! Project.backup_name (now env)) ->
  Project.backup_conflicting_files env dest_dir source_items w
  = (mkWorld fs (w_log w ++ [Mkdir backup_dir]),
     Err (Lib FileExistsError backup_dir)).
Proof.
  intros fs conflicts backup_dir Hne Hd [x Hx].
  rewrite backup_unfold. fold fs conflicts.
  destruct conflicts as [| n ns]; [done |]. cbv zeta.
  apply bind_err. unfold mkdir, issue. fold fs.
  unfold child. rewrite (lstat_child _ _ _ _ Hd), Hx. done.
Qed.

Lemma backup_conflicting_files_name_taken_witness :
  Project.backup_conflicting_files plain_env ["work"; "proj"]
    [["tmp"; "src"; "CLAUDE.md"]] stale_backup_world
  = (mkWorld (w_fs stale_backup_world)
       [Mkdir ["work"; "proj"; ".claude_backup_20250914_120000"]],
     Err (Lib FileExistsError
            ["work"; "proj"; ".claude_backup_20250914_120000"])).
Proof.
  apply (backup_conflicting_files_name_taken plain_env stale_backup_world
           ["work"; "proj"] [["tmp"; "src"; "CLAUDE.md"]] stale_backup_entries).
  - vm_compute. discriminate.
  - vm_compute. reflexivity.
  - vm_compute. by eexists.
Defined.

Lemma validate_languages_stop (lang_dir : Path) w pre lang post :
  (forall l, l ∈ pre -> Project.join_exists (w_fs w) lang_dir l = true) ->
  Project.join_exists (w_fs w) lang_dir lang = false ->
  for_each (pre ++ lang :: post) (fun lang =>
    e ← ask (fun fs => Project.join_exists fs lang_dir lang);
    when (negb e) (raise (LanguageNotFound lang))) w
  = (w, Err (LanguageNotFound lang)).
Proof.
  intros Hpre Hlang. induction pre as [| l pre IH]; cbn [app for_each].
  - rewrite bind_assoc, bind_ask, Hlang. done.
  - rewrite bind_assoc, bind_ask, (Hpre l) by left. cbn [negb when].
    rewrite bind_ret. apply IH. intros j Hj. apply Hpre. by right.
Qed.

(** X7. [install_configuration] checks the languages before it changes
    anything.  The check joins each language to the path of the
    languages folder of the scratch copy and asks whether the result
    exists: with a language for which it does not, the call raises the
    error that names the first such language, and with no language at
    all it raises the error of the cleaning step; in both cases the
    world is as it was and no call is issued.  For a plain name the join
    is the entry of that name in the languages folder; the join of "."
    is the languages folder itself, so that this selection passes the
    check whenever the folder exists. *)
Theorem install_configuration_rejects_languages (env : Env)
  (dest_dir temp_source_dir : Path) (w : World) :
  let lang_dir := Project.languages_dir temp_source_dir in
  (forall pre lang post,
     (forall l, l ∈ pre -> Project.join_exists (w_fs w) lang_dir l = true) ->
     Project.join_exists (w_fs w) lang_dir lang = false ->
     Project.install_configuration env dest_dir temp_source_dir
       (pre ++ lang :: post) w
     = (w, Err (LanguageNotFound lang)))
  /\ Project.install_configuration env dest_dir temp_source_dir [] w
     = (w, Err NoLanguagesToKeep)
  /\ (forall lang, plain_name lang = true ->
      Project.join_exists (w_fs w) lang_dir lang
      = path_exists (w_fs w) (child lang_dir lang))
  /\ Project.join_exists (w_fs w) lang_dir "." = path_exists (w_fs w) lang_dir.
Proof.
  intros lang_dir. split; [| split; [done | split; [| done]]].
  - intros pre lang post Hpre Hlang. unfold Project.install_configuration.
    cbv zeta. apply bind_err. by apply validate_languages_stop.
  - intros lang Hlang. by apply join_exists_plain.
Qed.

Lemma install_configuration_rejects_languages_witness :
  Project.install_configuration plain_env ["work"; "proj"] ["tmp"; "src"]
    ["python"; "cobol"; "go"] empty_dest_world
  = (empty_dest_world, Err (LanguageNotFound "cobol")).
Proof.
  destruct (install_configuration_rejects_languages plain_env ["work"; "proj"]
              ["tmp"; "src"] empty_dest_world) as [H _].
  apply (H ["python"] "cobol" ["go"]).
  - intros l ->%list_elem_of_singleton. reflexivity.
  - reflexivity.
Defined.

(** ** What one installation changes *)

(** One installation of a well-formed bundle: the scratch copy becomes
    the cleaned bundle, then the destination receives its items. *)
Lemma install_configuration_run env dest_dir temp_source_dir languages
  (ses es0 : gmap string node) w0 :
  let installed := cleaned_bundle languages ses in
  let b := Project.backup_name (now env) in
  scratch_ok env temp_source_dir ->
  bundle_ok languages ses ->
  apart temp_source_dir dest_dir ->
  lstat (w_fs w0) temp_source_dir = Some (Dir ses) ->
  lstat (w_fs w0) dest_dir = Some (Dir es0) ->
  (forall n x, is_Some (installed !! n) -> es0 !! n = Some x ->
               is_link_node x = false) ->
  es0 !! b = None -> installed !! b = None ->
  exists fsp fs1 es1 evs,
    Project.install_configuration env dest_dir temp_source_dir languages w0
    = (mkWorld fs1 (w_log w0 ++ evs), Ok tt)
    /\ graft (w_fs w0) temp_source_dir (Dir installed) = Some fsp
    /\ graft fsp dest_dir (Dir es1) = Some fs1
    /\ (forall k, is_Some (installed !! k) -> es1 !! k = installed !! k)
    /\ (forall k, installed !! k = None -> k <> b -> es1 !! k = es0 !! k).
Proof.
  intros C b Hs Hbundle Hap Hsrc Hd Hnolink Hb HCb.
  destruct (prepare_run env temp_source_dir languages w0 ses Hs Hbundle Hsrc)
    as (fsp & evsp & Hprep & Hgp).
  fold C in Hgp.
  destruct (install_items_run dest_dir temp_source_dir Hap env
              (mkWorld fsp (w_log w0 ++ evsp)) es0 C)
    as (fs1 & es1 & evs1 & Hrun1 & Hg1 & _ & Hin1 & Hout1 & _);
    [| by eapply lstat_graft | intros k n; by apply cleaned_bundle_plain
     | done | done | done |].
  { cbn [w_fs]. rewrite (lstat_graft_diverge _ _ _ _ _ Hgp); [done | |];
      destruct Hap; done. }
  cbn [w_fs w_log] in *.
  exists fsp, fs1, es1, (evsp ++ evs1).
  split; [| done].
  rewrite install_configuration_phases, (bind_ok _ _ _ _ _ Hprep), Hrun1.
  by rewrite <- app_assoc.
Qed.

(** X8. One installation, under the following conditions: the caller
    is not root; the scratch directory lies strictly inside a temporary
    root and [Path.resolve] returns as it is a path below it that holds
    no link; the scratch directory holds a well-formed bundle (files and
    directories only, the manifest a file of text, the languages folder
    with an entry for each selected language, the selection not empty
    and made of plain names); the destination is a directory, and
    neither of the two directories lies inside the other; no entry of
    the destination named like an installed item is a symbolic link; the
    backup name is borne neither by an entry of the destination nor by
    an installed item.  Then the installation succeeds and changes
    nothing outside the scratch directory and the destination: every
    path that lies neither in, nor above, one of the two holds what it
    held.  The items are copied, not moved: the scratch directory is
    left holding the cleaned bundle. *)
Theorem install_configuration_frame (env : Env)
  (dest_dir temp_source_dir : Path) (languages : list string)
  (ses es0 : gmap string node) (w0 : World) :
  let installed := cleaned_bundle languages ses in
  let b := Project.backup_name (now env) in
  scratch_ok env temp_source_dir ->
  bundle_ok languages ses ->
  apart temp_source_dir dest_dir ->
  lstat (w_fs w0) temp_source_dir = Some (Dir ses) ->
  lstat (w_fs w0) dest_dir = Some (Dir es0) ->
  (forall n x, is_Some (installed !! n) -> es0 !! n = Some x ->
               is_link_node x = false) ->
  es0 !! b = None -> installed !! b = None ->
  exists w1,
    Project.install_configuration env dest_dir temp_source_dir languages w0
    = (w1, Ok tt)
    /\ lstat (w_fs w1) temp_source_dir = Some (Dir installed)
    /\ forall q, apart temp_source_dir q -> apart dest_dir q ->
                 lstat (w_fs w1) q = lstat (w_fs w0) q.
Proof.
  intros C b Hs Hbundle Hap Hsrc Hd Hnolink Hb HCb.
  destruct (install_configuration_run env dest_dir temp_source_dir languages
              ses es0 w0 Hs Hbundle Hap Hsrc Hd Hnolink Hb HCb)
    as (fsp & fs1 & es1 & evs & Hrun & Hgp & Hg1 & _).
  eexists. split; [exact Hrun |]. cbn [w_fs]. split.
  - rewrite (lstat_graft_diverge _ _ _ _ _ Hg1); [by eapply lstat_graft | |];
      destruct Hap; done.
  - intros q [Hq1 Hq2] [Hq3 Hq4].
    rewrite (lstat_graft_diverge _ _ _ _ _ Hg1) by done.
    by rewrite (lstat_graft_diverge _ _ _ _ _ Hgp).
Qed.

Lemma backup_name_not_packaging ts f :
  f ∈ Project.files_to_remove -> f <> Project.backup_name ts.
Proof.
  unfold Project.files_to_remove. intros Hf.
  repeat (apply elem_of_cons in Hf as [-> | Hf]; [discriminate |]).
  by apply elem_of_nil in Hf.
Qed.

(** X9. What one installation puts into the destination, under the
    conditions of X8 (a caller who is not root; a scratch directory
    strictly inside a temporary root, whose link-free paths
    [Path.resolve] returns as they are, holding a well-formed bundle of
    files and directories with a manifest of text and the selected
    languages, given by plain names; a destination directory, neither
    inside nor around the scratch directory, in which no entry named
    like an installed item is a symbolic link; a backup name borne by no
    entry of the destination and by no installed item): the manifest is
    the filtered manifest; the languages folder holds the kept languages
    and whatever is not a directory, and no directory of another
    language; the packaging files of the bundle are not installed, and
    an entry of the destination that bears the name of one of them is
    left as it was. *)
Theorem install_configuration_installs (env : Env)
  (dest_dir temp_source_dir : Path) (languages : list string)
  (ses es0 ai les : gmap string node) (c : string) (w0 : World) :
  let installed := cleaned_bundle languages ses in
  let b := Project.backup_name (now env) in
  scratch_ok env temp_source_dir ->
  bundle_ok languages ses ->
  apart temp_source_dir dest_dir ->
  lstat (w_fs w0) temp_source_dir = Some (Dir ses) ->
  lstat (w_fs w0) dest_dir = Some (Dir es0) ->
  (forall n x, is_Some (installed !! n) -> es0 !! n = Some x ->
               is_link_node x = false) ->
  es0 !! b = None -> installed !! b = None ->
  ses !! "agent_instructions" = Some (Dir ai) ->
  ai !! "languages" = Some (Dir les) ->
  ses !! "CLAUDE.md" = Some (File c) ->
  exists w1,
    Project.install_configuration env dest_dir temp_source_dir languages w0
    = (w1, Ok tt)
    /\ lstat (w_fs w1) (child dest_dir "CLAUDE.md")
       = Some (File (filtered_manifest languages c))
    /\ (forall k,
          lstat (w_fs w1)
            (dest_dir ++ ["agent_instructions"; "languages"; k])
          = if dropped_language languages k (les !! k) then None
            else les !! k)
    /\ (forall f, f ∈ Project.files_to_remove ->
          lstat (w_fs w1) (child dest_dir f) = lstat (w_fs w0) (child dest_dir f)).
Proof.
  intros C b Hs Hbundle Hap Hsrc Hd Hnolink Hb HCb Hai Hles Hmd.
  destruct (install_configuration_run env dest_dir temp_source_dir languages
              ses es0 w0 Hs Hbundle Hap Hsrc Hd Hnolink Hb HCb)
    as (fsp & fs1 & es1 & evs & Hrun & Hgp & Hg1 & Hin & Hout).
  fold C b in Hin, Hout.
  pose proof (lstat_graft _ _ _ _ Hg1) as Hd1.
  pose proof (cleaned_bundle_lookup languages ses ai les c) as HC.
  eexists. split; [exact Hrun |]. cbn [w_fs]. split; [| split].
  - unfold child. rewrite (lstat_child _ _ _ _ Hd1).
    assert (HCm : C !! "CLAUDE.md" = Some (File (filtered_manifest languages c))).
    { unfold C. rewrite (HC "CLAUDE.md") by done. reflexivity. }
    rewrite Hin by (by rewrite HCm). done.
  - intros k.
    assert (HCa : C !! "agent_instructions"
                  = Some (Dir (<["languages" := Dir (kept_languages languages les)]> ai))).
    { unfold C. rewrite (HC "agent_instructions") by done. reflexivity. }
    rewrite lstat_app, Hd1. cbn [mbind option_bind lstat].
    rewrite Hin by (by rewrite HCa). rewrite HCa, lookup_insert_eq.
    rewrite <- kept_languages_lookup.
    by destruct (kept_languages languages les !! k).
  - intros f Hf. unfold child.
    rewrite (lstat_child _ _ _ _ Hd1), (lstat_child _ _ _ _ Hd).
    apply Hout; [| by apply backup_name_not_packaging].
    unfold C. rewrite (HC f) by done. by rewrite decide_True.
Qed.

Lemma install_configuration_frame_witness :
  exists w1,
    Project.install_configuration plain_env ["work"; "proj"] ["tmp"; "src"]
      ["python"] used_dest_world = (w1, Ok tt)
    /\ lstat (w_fs w1) ["tmp"; "src"]
       = Some (Dir (cleaned_bundle ["python"] sample_entries))
    /\ lstat (w_fs w1) ["work"; "other"]
       = lstat (w_fs used_dest_world) ["work"; "other"].
Proof.
  destruct (install_configuration_frame plain_env ["work"; "proj"]
              ["tmp"; "src"] ["python"] sample_entries used_entries
              used_dest_world)
    as (w1 & Hrun & Hsrc & Hframe).
  - by apply sample_scratch_ok.
  - apply sample_bundle_ok.
  - split; intros [r Hr]; discriminate Hr.
  - vm_compute. reflexivity.
  - vm_compute. reflexivity.
  - intros n x _ Hx. apply elem_of_list_to_map_2 in Hx.
    repeat (apply elem_of_cons in Hx as [[= -> ->] | Hx]; [reflexivity |]).
    by apply elem_of_nil in Hx.
  - vm_compute. reflexivity.
  - vm_compute. reflexivity.
  - exists w1. split; [exact Hrun |]. split; [exact Hsrc |].
    apply Hframe; split; intros [r Hr]; discriminate Hr.
Defined.

Lemma install_configuration_installs_witness :
  exists w1,
    Project.install_configuration plain_env ["work"; "proj"] ["tmp"; "src"]
      ["python"] readme_dest_world = (w1, Ok tt)
    /\ lstat (w_fs w1) ["work"; "proj"; "CLAUDE.md"]
       = Some (File (filtered_manifest ["python"] sample_manifest))
    /\ lstat (w_fs w1)
         ["work"; "proj"; "agent_instructions"; "languages"; "go"] = None
    /\ lstat (w_fs w1)
         ["work"; "proj"; "agent_instructions"; "languages"; "python"]
       = Some (dir_of [("x.md", File "python rules")])
    /\ lstat (w_fs w1) ["work"; "proj"; "README.md"]
       = Some (File "about this project").
Proof.
  destruct (install_configuration_installs plain_env ["work"; "proj"]
              ["tmp"; "src"] ["python"] sample_entries readme_entries
              sample_instructions sample_languages sample_manifest
              readme_dest_world)
    as (w1 & Hrun & Hmd & Hlang & Hpack).
  - by apply sample_scratch_ok.
  - apply sample_bundle_ok.
  - split; intros [r Hr]; discriminate Hr.
  - vm_compute. reflexivity.
  - vm_compute. reflexivity.
  - intros n x _ Hx. apply elem_of_list_to_map_2 in Hx.
    repeat (apply elem_of_cons in Hx as [[= -> ->] | Hx]; [reflexivity |]).
    by apply elem_of_nil in Hx.
  - vm_compute. reflexivity.
  - vm_compute. reflexivity.
  - reflexivity.
  - reflexivity.
  - reflexivity.
  - exists w1. split; [exact Hrun |]. split; [exact Hmd |].
    split; [exact (Hlang "go") |]. split; [exact (Hlang "python") |].
    etrans; [exact (Hpack "README.md" ltac:(left)) | reflexivity].
Defined.
(** * Further properties of the user script *)

Lemma graft_child fs d a sub :
  graft fs (d ++ [a]) sub = put fs (d ++ [a]) (Some sub).
Proof. by destruct d. Qed.

(** Writing an entry of a directory that is itself an entry. *)
Lemma put_grandchild fs d a c new (K cfg : gmap string node) :
  lstat fs d = Some (Dir K) -> K !! a = Some (Dir cfg) ->
  exists fs',
    put fs ((d ++ [a]) ++ [c]) new = Some fs'
    /\ graft fs d (Dir (<[a := Dir (match new with
                                    | Some n => <[c := n]> cfg
                                    | None => delete c cfg
                                    end)]> K)) = Some fs'.
Proof.
  intros Hd Ha.
  assert (Hda : lstat fs (d ++ [a]) = Some (Dir cfg))
    by (by rewrite (lstat_child _ _ _ _ Hd)).
  destruct (put_child fs (d ++ [a]) c new cfg Hda) as (fs' & Hput & Hg).
  exists fs'. split; [done |]. rewrite graft_child in Hg.
  destruct (put_child fs d a (Some (Dir (match new with
                                         | Some n => <[c := n]> cfg
                                         | None => delete c cfg
                                         end))) K Hd) as (fs'' & Hput' & Hg').
  congruence.
Qed.

Lemma mkdir_run w d c (es : gmap string node) :
  lstat (w_fs w) d = Some (Dir es) -> es !! c = None ->
  exists fs',
    graft (w_fs w) d (Dir (<[c := Dir ∅]> es)) = Some fs'
    /\ mkdir (d ++ [c]) w = (mkWorld fs' (w_log w ++ [Mkdir (d ++ [c])]), Ok tt).
Proof.
  intros Hd Hc.
  destruct (put_child (w_fs w) d c (Some (Dir ∅)) es Hd) as (fs' & Hput & Hg).
  exists fs'. split; [done |]. unfold mkdir, issue, put_or.
  by rewrite (lstat_child _ _ _ _ Hd), Hc, Hput.
Qed.

(** Moving an entry of a directory onto a free name of that directory. *)
Lemma move_sibling w d c b n (es : gmap string node) :
  lstat (w_fs w) d = Some (Dir es) -> es !! c = Some n -> es !! b = None ->
  exists fs',
    graft (w_fs w) d (Dir (<[b := n]> (delete c es))) = Some fs'
    /\ move (d ++ [c]) (d ++ [b]) w
       = (mkWorld fs' (w_log w ++ [Move (d ++ [c]) (d ++ [b])]), Ok tt).
Proof.
  intros Hd Hc Hb.
  assert (Hdst : lstat (w_fs w) (d ++ [b]) = None)
    by (by rewrite (lstat_child _ _ _ _ Hd)).
  destruct (put_child (w_fs w) d c None es Hd) as (fs1 & Hput1 & Hg1).
  destruct (put_child fs1 d b (Some n) (delete c es) (lstat_graft _ _ _ _ Hg1))
    as (fs' & Hput & Hg).
  exists fs'. split; [by rewrite <- (graft_graft _ _ _ _ _ Hg1) |].
  unfold move, issue. rewrite (lstat_None_is_dir _ _ Hdst).
  rewrite (rename_or_copy_free _ _ _ Hdst).
  unfold rename. rewrite (lstat_child _ _ _ _ Hd), Hc, Hdst, Hput1.
  unfold put_or. by rewrite Hput.
Qed.

(** Moving an entry of a directory into a directory beside it. *)
Lemma move_into_sibling w d c b n (es bes : gmap string node) :
  lstat (w_fs w) d = Some (Dir es) -> es !! c = Some n ->
  es !! b = Some (Dir bes) -> bes !! c = None -> c <> b ->
  exists fs',
    graft (w_fs w) d (Dir (<[b := Dir (<[c := n]> bes)]> (delete c es)))
    = Some fs'
    /\ move (d ++ [c]) (d ++ [b]) w
       = (mkWorld fs' (w_log w ++ [Move (d ++ [c]) (d ++ [b])]), Ok tt).
Proof.
  intros Hd Hc Hb Hbc Hne.
  assert (Hdst : lstat (w_fs w) (d ++ [b]) = Some (Dir bes))
    by (by rewrite (lstat_child _ _ _ _ Hd)).
  assert (Hreal : lstat (w_fs w) ((d ++ [b]) ++ [c]) = None)
    by (by rewrite (lstat_child _ _ _ _ Hdst)).
  destruct (put_child (w_fs w) d c None es Hd) as (fs1 & Hput1 & Hg1).
  pose proof (lstat_graft _ _ _ _ Hg1) as Hd1.
  destruct (put_grandchild fs1 d b c (Some n) (delete c es) bes Hd1)
    as (fs' & Hput & Hg); [by rewrite lookup_delete_ne |].
  exists fs'. split; [by rewrite <- (graft_graft _ _ _ _ _ Hg1) |].
  unfold move, issue. unfold is_dir. rewrite (stat_plain _ _ _ Hdst) by done.
  rewrite !(name_child d c : name (d ++ [c]) = c). unfold child.
  rewrite (lstat_None_path_exists _ _ Hreal).
  rewrite (rename_or_copy_free _ _ _ Hreal).
  unfold rename. rewrite (lstat_child _ _ _ _ Hd), Hc, Hreal, Hput1.
  unfold put_or. by rewrite Hput.
Qed.

(** X10. [backup_existing_config] on a configuration directory of the
    home directory: when nothing exists there (also when a link there
    leads nowhere) it does nothing; when the configuration exists and the
    backup name is free, the configuration is moved, whole, under the
    backup name; when the backup name is already a directory, the
    configuration is moved into that directory under its own name.  In
    both cases the configuration path is free afterwards and the other
    entries of the home directory are as they were. *)
Theorem user_backup_existing_config_spec (env : Env) (w : World) (c : string) :
  let fs := w_fs w in
  let config_dir := child (home env) c in
  let b := user_backup_name env in
  let backup_dir := child (home env) b in
  let run := User.backup_existing_config env config_dir w in
  (path_exists fs config_dir = false -> run = (w, Ok tt))
  /\ (path_exists fs config_dir = true ->
      forall hs n,
        lstat fs (home env) = Some (Dir hs) -> hs !! c = Some n ->
        (hs !! b = None ->
         exists fs',
           run = (mkWorld fs' (w_log w ++ [Move config_dir backup_dir]), Ok tt)
           /\ graft fs (home env) (Dir (<[b := n]> (delete c hs))) = Some fs'
           /\ lstat fs' config_dir = None
           /\ lstat fs' backup_dir = Some n)
        /\ (forall bes,
              hs !! b = Some (Dir bes) -> bes !! c = None -> c <> b ->
              exists fs',
                run = (mkWorld fs' (w_log w ++ [Move config_dir backup_dir]),
                       Ok tt)
                /\ graft fs (home env)
                     (Dir (<[b := Dir (<[c := n]> bes)]> (delete c hs)))
                   = Some fs'
                /\ lstat fs' config_dir = None
                /\ lstat fs' (child backup_dir c) = Some n)).
Proof.
  intros fs config_dir b backup_dir run. subst run.
  unfold User.backup_existing_config. rewrite bind_ask. fold fs config_dir.
  split; [by intros -> |].
  intros -> hs n Hd Hc. cbn [negb]. fold (user_backup_name env). fold b.
  split.
  - intros Hb.
    destruct (move_sibling w (home env) c b n hs Hd Hc Hb) as (fs' & Hg & Hmove).
    exists fs'. split; [done |]. split; [done |].
    pose proof (lstat_graft _ _ _ _ Hg) as Hd'.
    unfold config_dir, backup_dir, child. rewrite !(lstat_child _ _ _ _ Hd').
    rewrite lookup_insert_eq, lookup_insert_ne, lookup_delete_eq; [done |].
    intros ->. congruence.
  - intros bes Hb Hbc Hne.
    destruct (move_into_sibling w (home env) c b n hs bes Hd Hc Hb Hbc Hne)
      as (fs' & Hg & Hmove).
    exists fs'. split; [done |]. split; [done |].
    pose proof (lstat_graft _ _ _ _ Hg) as Hd'.
    unfold config_dir, backup_dir, child. rewrite (lstat_child _ _ _ _ Hd').
    rewrite lookup_insert_ne, lookup_delete_eq by done. split; [done |].
    rewrite lstat_app, (lstat_child _ _ _ _ Hd'), lookup_insert_eq.
    cbn [mbind option_bind lstat]. by rewrite lookup_insert_eq.
Qed.

Lemma user_backup_existing_config_spec_witness :
  User.backup_existing_config plain_env ["home"; "alice"; ".claude"]
    dangling_config_world = (dangling_config_world, Ok tt)
  /\ exists fs',
       User.backup_existing_config plain_env ["home"; "alice"; ".claude"]
         old_config_world
       = (mkWorld fs'
            [Move ["home"; "alice"; ".claude"]
               ["home"; "alice"; ".claude_backup_20250914_120000"]], Ok tt)
       /\ lstat fs' ["home"; "alice"; ".claude"] = None
       /\ lstat fs' ["home"; "alice"; ".claude_backup_20250914_120000"]
          = Some (dir_of [("settings.json", File "mine")]).
Proof.
  split.
  - destruct (user_backup_existing_config_spec plain_env dangling_config_world
                ".claude") as [H _].
    apply H. reflexivity.
  - destruct (user_backup_existing_config_spec plain_env old_config_world
                ".claude") as [_ H].
    destruct (H eq_refl old_config_entries
                (dir_of [("settings.json", File "mine")]) eq_refl eq_refl)
      as [Hfree _].
    destruct (Hfree eq_refl) as (fs' & Hrun & _ & Hc & Hb).
    exists fs'. split; [exact Hrun |]. split; [exact Hc | exact Hb].
Defined.

Section UserInstall.

Variable env : Env.
Variable repo : node.
Variable us : gmap string node.
Variable manifest : node.

Let config_dir := child (home env) ".claude".
Let repo_dir := child config_dir "instructions_repository_clone".
Let user_setup_dir := child (child repo_dir "claude") "user_setup".

Hypothesis Hremote : remote env = Some repo.
Hypothesis Hsetup : lstat repo ["claude"; "user_setup"] = Some (Dir us).
Hypothesis Hmanifest : us !! "CLAUDE.md" = Some manifest.
Hypothesis Hplain : is_link_node manifest = false.
Hypothesis Hcommands :
  forall x, us !! "commands" = Some x -> is_link_node x = false.

(** What is in the clone, seen from a file system that holds it. *)
Lemma lstat_in_clone fs (K cfg : gmap string node) k :
  lstat fs (home env) = Some (Dir K) ->
  K !! ".claude" = Some (Dir cfg) ->
  cfg !! "instructions_repository_clone" = Some repo ->
  lstat fs user_setup_dir = Some (Dir us)
  /\ lstat fs (child user_setup_dir k) = us !! k.
Proof.
  intros Hd Hc Hr.
  assert (Hu : lstat fs user_setup_dir = Some (Dir us)).
  { unfold user_setup_dir, repo_dir, config_dir, child.
    rewrite <- !app_assoc. cbn [app].
    rewrite lstat_app, Hd. cbn [mbind option_bind lstat].
    rewrite Hc, Hr. exact Hsetup. }
  split; [done |]. unfold child. by rewrite (lstat_child _ _ _ _ Hu).
Qed.

(** The clone and the links, in a fresh and empty configuration
    directory. *)
Lemma user_install_run w (K : gmap string node) :
  lstat (w_fs w) (home env) = Some (Dir K) ->
  K !! ".claude" = Some (Dir ∅) ->
  exists fs' evs,
    User.install_with_git_clone env config_dir w
    = (mkWorld fs' (w_log w ++ evs), Ok tt)
    /\ graft (w_fs w) (home env)
         (Dir (<[".claude" :=
                   Dir (installed_config config_dir repo
                          (bool_decide (is_Some (us !! "commands"))))]> K))
       = Some fs'.
Proof.
  intros Hd Hc.
  (* the clone *)
  destruct (put_grandchild (w_fs w) (home env) ".claude"
              "instructions_repository_clone" (Some repo) K ∅ Hd Hc)
    as (fs1 & Hput1 & Hg1).
  rewrite insert_empty in Hg1.
  set (cfg1 := {["instructions_repository_clone" := repo]} : gmap string node) in *.
  assert (Hfree1 : cfg1 !! "CLAUDE.md" = None) by (by apply lookup_singleton_ne).
  assert (Hfree2 : cfg1 !! "commands" = None) by (by apply lookup_singleton_ne).
  assert (Hconfig : lstat (w_fs w) config_dir = Some (Dir ∅)).
  { unfold config_dir, child. by rewrite (lstat_child _ _ _ _ Hd). }
  assert (Hclone : git_clone (remote env) repo_dir w
                   = (mkWorld fs1 (w_log w ++ [GitClone repo_dir]), Ok tt)).
  { unfold git_clone, issue. rewrite Hremote.
    unfold repo_dir at 1, child at 1. rewrite (lstat_child _ _ _ _ Hconfig).
    rewrite lookup_empty. unfold put_or.
    by rewrite (Hput1 : put (w_fs w) repo_dir (Some repo) = Some fs1). }
  pose proof (lstat_graft _ _ _ _ Hg1) as Hd1.
  destruct (lstat_in_clone fs1 _ cfg1 "CLAUDE.md" Hd1)
    as [Hu1 Hm1]; [by rewrite lookup_insert_eq | by apply lookup_singleton_eq |].
  rewrite Hmanifest in Hm1.
  (* the link to the manifest *)
  destruct (put_grandchild fs1 (home env) ".claude" "CLAUDE.md"
              (Some (Symlink (child user_setup_dir "CLAUDE.md")))
              (<[".claude" := Dir cfg1]> K) cfg1 Hd1)
    as (fs2 & Hput2 & Hg2); [by rewrite lookup_insert_eq |].
  rewrite insert_insert_eq in Hg2.
  set (cfg2 := <["CLAUDE.md" := Symlink (child user_setup_dir "CLAUDE.md")]> cfg1)
    in *.
  assert (Hconfig1 : lstat fs1 config_dir = Some (Dir cfg1)).
  { unfold config_dir, child. rewrite (lstat_child _ _ _ _ Hd1).
    by rewrite lookup_insert_eq. }
  assert (Hlink :
    symlink_to (child config_dir "CLAUDE.md") (child user_setup_dir "CLAUDE.md")
      (mkWorld fs1 (w_log w ++ [GitClone repo_dir]))
    = (mkWorld fs2 ((w_log w ++ [GitClone repo_dir])
                    ++ [SymlinkTo (child config_dir "CLAUDE.md")
                          (child user_setup_dir "CLAUDE.md")]), Ok tt)).
  { unfold symlink_to, issue. cbn [w_fs w_log].
    unfold child at 1. rewrite (lstat_child _ _ _ _ Hconfig1).
    rewrite Hfree1. unfold put_or.
    by rewrite (Hput2 : put fs1 (child config_dir "CLAUDE.md") _ = Some fs2). }
  pose proof (lstat_graft _ _ _ _ Hg2) as Hd2.
  destruct (lstat_in_clone fs2 _ cfg2 "commands" Hd2)
    as [Hu2 Hc2]; [by rewrite lookup_insert_eq | |].
  { unfold cfg2. rewrite lookup_insert_ne by done. by apply lookup_singleton_eq. }
  assert (Hconfig2 : lstat fs2 config_dir = Some (Dir cfg2)).
  { unfold config_dir, child. rewrite (lstat_child _ _ _ _ Hd2).
    by rewrite lookup_insert_eq. }
  (* the run up to the commands folder *)
  unfold User.install_with_git_clone. cbv zeta.
  fold config_dir repo_dir user_setup_dir.
  rewrite (bind_ok _ _ _ _ _ Hclone), bind_ask. cbn [w_fs].
  unfold path_exists at 1. rewrite (stat_plain _ _ _ Hu1) by done. cbn [negb].
  rewrite bind_ask. cbn [w_fs].
  unfold path_exists at 1. rewrite (stat_plain _ _ _ Hm1) by done. cbn [negb].
  rewrite (bind_ok _ _ _ _ _ Hlink), bind_ask. cbn [w_fs].
  (* the link to the commands folder *)
  destruct (us !! "commands") as [x |] eqn:Hx.
  - unfold path_exists. rewrite (stat_plain _ _ _ Hc2) by (by apply Hcommands).
    cbn [when].
    destruct (put_grandchild fs2 (home env) ".claude" "commands"
                (Some (Symlink (child user_setup_dir "commands")))
                (<[".claude" := Dir cfg2]> K) cfg2 Hd2)
      as (fs3 & Hput3 & Hg3); [by rewrite lookup_insert_eq |].
    rewrite insert_insert_eq in Hg3.
    exists fs3, [GitClone repo_dir;
                 SymlinkTo (child config_dir "CLAUDE.md")
                   (child user_setup_dir "CLAUDE.md");
                 SymlinkTo (child config_dir "commands")
                   (child user_setup_dir "commands")].
    split.
    + unfold symlink_to, issue. cbn [w_fs w_log].
      unfold child at 1. rewrite (lstat_child _ _ _ _ Hconfig2).
      unfold cfg2 at 1. rewrite lookup_insert_ne by done.
      rewrite Hfree2. unfold put_or.
      rewrite (Hput3 : put fs2 (child config_dir "commands") _ = Some fs3).
      by rewrite <- !app_assoc.
    + rewrite bool_decide_eq_true_2 by (by eexists).
      rewrite <- (graft_graft _ _ _ _ _ Hg1), <- (graft_graft _ _ _ _ _ Hg2).
      exact Hg3.
  - unfold path_exists. rewrite (lstat_None_stat _ _ Hc2). cbn [when].
    exists fs2, [GitClone repo_dir;
                 SymlinkTo (child config_dir "CLAUDE.md")
                   (child user_setup_dir "CLAUDE.md")].
    split; [by rewrite <- !app_assoc |].
    rewrite bool_decide_eq_false_2 by (by intros [? ?]).
    rewrite <- (graft_graft _ _ _ _ _ Hg1). exact Hg2.
Qed.

End UserInstall.

Lemma user_backup_name_not_config env : user_backup_name env <> ".claude".
Proof. unfold user_backup_name. cbn. discriminate. Qed.

(** The first two steps of the user script: the old configuration, if
    there is one, is saved and an empty configuration directory is
    made. *)
Lemma user_main_prepare env w (hs : gmap string node) :
  let config_dir := child (home env) ".claude" in
  lstat (w_fs w) (home env) = Some (Dir hs) ->
  (is_Some (hs !! ".claude") ->
   path_exists (w_fs w) config_dir = true
   /\ hs !! user_backup_name env = None) ->
  exists fs2 evs,
    graft (w_fs w) (home env) (Dir (<[".claude" := Dir ∅]> (saved_home env hs)))
    = Some fs2
    /\ forall (k : M unit),
         (User.backup_existing_config env config_dir ;; mkdir config_dir ;; k) w
         = k (mkWorld fs2 (w_log w ++ evs)).
Proof.
  intros config_dir Hd Hold.
  assert (Hsaved : saved_home env hs !! ".claude" = None).
  { unfold saved_home. destruct (hs !! ".claude") eqn:Hc; [| done].
    rewrite lookup_insert_ne by apply user_backup_name_not_config.
    by rewrite lookup_delete_eq. }
  assert (Hback : exists fs1 evs1,
            User.backup_existing_config env config_dir w
            = (mkWorld fs1 (w_log w ++ evs1), Ok tt)
            /\ graft (w_fs w) (home env) (Dir (saved_home env hs)) = Some fs1).
  { unfold User.backup_existing_config. rewrite bind_ask.
    unfold saved_home. destruct (hs !! ".claude") as [n |] eqn:Hc.
    - destruct Hold as [-> Hb]; [by eexists |]. cbn [negb].
      destruct (move_sibling w (home env) ".claude" (user_backup_name env) n hs
                  Hd Hc Hb) as (fs1 & Hg & Hmove).
      by exists fs1, [Move config_dir (child (home env) (user_backup_name env))].
    - assert (Hne : path_exists (w_fs w) config_dir = false).
      { apply lstat_None_path_exists. unfold config_dir, child.
        by rewrite (lstat_child _ _ _ _ Hd). }
      rewrite Hne. exists (w_fs w), []. rewrite app_nil_r.
      split; [by destruct w | by apply graft_id]. }
  destruct Hback as (fs1 & evs1 & Hback & Hg1).
  destruct (mkdir_run (mkWorld fs1 (w_log w ++ evs1)) (home env) ".claude"
              (saved_home env hs) (lstat_graft _ _ _ _ Hg1) Hsaved)
    as (fs2 & Hg2 & Hmk).
  cbn [w_fs w_log] in *.
  exists fs2, (evs1 ++ [Mkdir config_dir]).
  split; [by rewrite <- (graft_graft _ _ _ _ _ Hg1) |].
  intros k. rewrite (bind_ok _ _ _ _ _ Hback).
  rewrite (bind_ok _ _ _ _ _ Hmk). by rewrite <- app_assoc.
Qed.

(** X11. The user script from end to end.  For a user who is not root,
    whose configuration, if there is one, is not a link that leads
    nowhere and whose backup name is free, and a clone that delivers the
    user setup with its manifest: the script succeeds; the old
    configuration is under the backup name; the configuration directory
    holds the clone, a link to the manifest of the clone and, exactly
    when the clone has a commands folder, a link to it.  Nothing else
    changes. *)
Theorem user_main_installs (env : Env) (w : World) (hs us : gmap string node)
  (repo manifest : node) :
  let config_dir := child (home env) ".claude" in
  euid env <> 0%Z ->
  lstat (w_fs w) (home env) = Some (Dir hs) ->
  (is_Some (hs !! ".claude") ->
   path_exists (w_fs w) config_dir = true
   /\ hs !! user_backup_name env = None) ->
  remote env = Some repo ->
  lstat repo ["claude"; "user_setup"] = Some (Dir us) ->
  us !! "CLAUDE.md" = Some manifest ->
  is_link_node manifest = false ->
  (forall x, us !! "commands" = Some x -> is_link_node x = false) ->
  exists fs' evs,
    User.main env w = (mkWorld fs' (w_log w ++ evs), Ok tt)
    /\ graft (w_fs w) (home env)
         (Dir (<[".claude" :=
                   Dir (installed_config config_dir repo
                          (bool_decide (is_Some (us !! "commands"))))]>
                 (saved_home env hs)))
       = Some fs'.
Proof.
  intros config_dir Hu Hd Hold Hremote Hsetup Hm Hplain Hcommands.
  destruct (user_main_prepare env w hs Hd Hold) as (fs2 & evs2 & Hg2 & Hprep).
  destruct (user_install_run env repo us manifest Hremote Hsetup Hm Hplain
              Hcommands (mkWorld fs2 (w_log w ++ evs2))
              (<[".claude" := Dir ∅]> (saved_home env hs)))
    as (fs' & evs & Hrun & Hg);
    [by eapply lstat_graft | by rewrite lookup_insert_eq |].
  cbn [w_fs w_log] in *. rewrite insert_insert_eq in Hg.
  exists fs', (evs2 ++ evs). split.
  - unfold User.main. apply Z.eqb_neq in Hu. rewrite Hu. cbv zeta.
    fold config_dir. rewrite Hprep. fold config_dir in Hrun. rewrite Hrun.
    by rewrite <- app_assoc.
  - by rewrite <- (graft_graft _ _ _ _ _ Hg2).
Qed.

Lemma user_main_installs_witness :
  exists fs',
    User.main (linked_env full_repo) old_config_world
    = (mkWorld fs'
         [Move ["home"; "alice"; ".claude"]
            ["home"; "alice"; ".claude_backup_20250914_120000"];
          Mkdir ["home"; "alice"; ".claude"];
          GitClone ["home"; "alice"; ".claude"; "instructions_repository_clone"];
          SymlinkTo ["home"; "alice"; ".claude"; "CLAUDE.md"]
            ["home"; "alice"; ".claude"; "instructions_repository_clone";
             "claude"; "user_setup"; "CLAUDE.md"];
          SymlinkTo ["home"; "alice"; ".claude"; "commands"]
            ["home"; "alice"; ".claude"; "instructions_repository_clone";
             "claude"; "user_setup"; "commands"]], Ok tt)
    /\ lstat fs' ["home"; "alice"; ".claude_backup_20250914_120000"]
       = Some (dir_of [("settings.json", File "mine")])
    /\ lstat fs' ["home"; "alice"; ".claude"; "commands"]
       = Some (Symlink ["home"; "alice"; ".claude";
                        "instructions_repository_clone";
                        "claude"; "user_setup"; "commands"]).
Proof.
  destruct (user_main_installs (linked_env full_repo) old_config_world
              old_config_entries
              (list_to_map [("CLAUDE.md", File "instructions");
                            ("commands", dir_of [("review.md", File "review")])])
              full_repo (File "instructions"))
    as (fs' & evs & Hrun & Hg).
  - discriminate.
  - reflexivity.
  - intros _. split; reflexivity.
  - reflexivity.
  - reflexivity.
  - reflexivity.
  - reflexivity.
  - intros x Hx. vm_compute in Hx. injection Hx as <-. reflexivity.
  - exists fs'. split.
    + rewrite Hrun. f_equal. f_equal.
      pose proof (f_equal (fun r => w_log (fst r)) Hrun) as Hlog.
      cbn [fst w_log] in Hlog. rewrite <- Hlog. vm_compute. reflexivity.
    + apply (f_equal (default Special)) in Hg. cbn [from_option id] in Hg.
      subst fs'. split; vm_compute; reflexivity.
Defined.

(** X12. The user script stops before it changes anything when it is
    run as root, and when the configuration path holds a link that leads
    nowhere: the link does not count as an existing configuration, so
    nothing is saved, and the [mkdir] that follows raises a file-exists
    error. *)
Theorem user_main_guards (env : Env) (w : World) :
  let config_dir := child (home env) ".claude" in
  (euid env = 0%Z -> User.main env w = (w, Err RootRun))
  /\ (euid env <> 0%Z ->
      is_Some (lstat (w_fs w) config_dir) ->
      path_exists (w_fs w) config_dir = false ->
      User.main env w
      = (mkWorld (w_fs w) (w_log w ++ [Mkdir config_dir]),
         Err (Lib FileExistsError config_dir))).
Proof.
  intros config_dir. unfold User.main. cbv zeta. fold config_dir. split.
  - by intros ->.
  - intros Hu [n Hn] He. apply Z.eqb_neq in Hu. rewrite Hu.
    unfold User.backup_existing_config at 1.
    rewrite bind_assoc, bind_ask, He. cbn [negb]. rewrite bind_ret.
    apply bind_err. unfold mkdir, issue. by rewrite Hn.
Qed.

Lemma user_main_guards_witness :
  User.main root_env old_config_world = (old_config_world, Err RootRun)
  /\ User.main plain_env dangling_config_world
     = (mkWorld (w_fs dangling_config_world)
          [Mkdir ["home"; "alice"; ".claude"]],
        Err (Lib FileExistsError ["home"; "alice"; ".claude"])).
Proof.
  split.
  - destruct (user_main_guards root_env old_config_world) as [H _].
    apply H. reflexivity.
  - destruct (user_main_guards plain_env dangling_config_world) as [_ H].
    apply H; [discriminate | by eexists | reflexivity].
Defined.

(** X13. When the download fails, or delivers a tree without the user
    setup, the user script has already saved the old configuration and
    made the new directory: it raises, the old configuration is under
    the backup name, and the configuration directory is empty after a
    failed download and holds only the clone, without a link, after a
    download without the user setup. *)
Theorem user_main_failed_download (env : Env) (w : World)
  (hs : gmap string node) :
  let config_dir := child (home env) ".claude" in
  let repo_dir := child config_dir "instructions_repository_clone" in
  let user_setup_dir := child (child repo_dir "claude") "user_setup" in
  euid env <> 0%Z ->
  lstat (w_fs w) (home env) = Some (Dir hs) ->
  (is_Some (hs !! ".claude") ->
   path_exists (w_fs w) config_dir = true
   /\ hs !! user_backup_name env = None) ->
  (remote env = None ->
   exists fs' evs,
     User.main env w
     = (mkWorld fs' (w_log w ++ evs), Err (Lib CalledProcessError repo_dir))
     /\ graft (w_fs w) (home env)
          (Dir (<[".claude" := Dir ∅]> (saved_home env hs))) = Some fs')
  /\ (forall repo,
        remote env = Some repo ->
        lstat repo ["claude"; "user_setup"] = None ->
        exists fs' evs,
          User.main env w
          = (mkWorld fs' (w_log w ++ evs), Err (UserSetupNotFound user_setup_dir))
          /\ graft (w_fs w) (home env)
               (Dir (<[".claude" :=
                         Dir {["instructions_repository_clone" := repo]}]>
                       (saved_home env hs))) = Some fs').
Proof.
  intros config_dir repo_dir user_setup_dir Hu Hd Hold.
  destruct (user_main_prepare env w hs Hd Hold) as (fs2 & evs2 & Hg2 & Hprep).
  apply Z.eqb_neq in Hu.
  pose proof (lstat_graft _ _ _ _ Hg2) as Hd2.
  split.
  - intros Hremote. exists fs2, (evs2 ++ [GitClone repo_dir]).
    split; [| done].
    unfold User.main. rewrite Hu. cbv zeta. fold config_dir. rewrite Hprep.
    unfold User.install_with_git_clone. cbv zeta. fold repo_dir.
    apply bind_err. unfold git_clone, issue. rewrite Hremote. cbn [w_fs w_log].
    by rewrite <- app_assoc.
  - intros repo Hremote Hnone.
    destruct (put_grandchild fs2 (home env) ".claude"
                "instructions_repository_clone" (Some repo)
                (<[".claude" := Dir ∅]> (saved_home env hs)) ∅ Hd2)
      as (fs3 & Hput3 & Hg3); [by rewrite lookup_insert_eq |].
    rewrite insert_empty, insert_insert_eq in Hg3.
    exists fs3, (evs2 ++ [GitClone repo_dir]).
    split; [| by rewrite <- (graft_graft _ _ _ _ _ Hg2)].
    assert (Hconfig : lstat fs2 config_dir = Some (Dir ∅)).
    { unfold config_dir, child. rewrite (lstat_child _ _ _ _ Hd2).
      by rewrite lookup_insert_eq. }
    assert (Hclone : git_clone (remote env) repo_dir
                       (mkWorld fs2 (w_log w ++ evs2))
                     = (mkWorld fs3 ((w_log w ++ evs2) ++ [GitClone repo_dir]),
                        Ok tt)).
    { unfold git_clone, issue. rewrite Hremote. cbn [w_fs w_log].
      unfold repo_dir at 1, child at 1. rewrite (lstat_child _ _ _ _ Hconfig).
      rewrite lookup_empty. unfold put_or.
      by rewrite (Hput3 : put fs2 repo_dir (Some repo) = Some fs3). }
    assert (Hmissing : path_exists fs3 user_setup_dir = false).
    { apply lstat_None_path_exists.
      unfold user_setup_dir, repo_dir, config_dir, child.
      rewrite <- !app_assoc. cbn [app].
      rewrite lstat_app, (lstat_graft _ _ _ _ Hg3).
      cbn [mbind option_bind lstat].
      rewrite lookup_insert_eq, lookup_singleton_eq. exact Hnone. }
    unfold User.main. rewrite Hu. cbv zeta. fold config_dir. rewrite Hprep.
    unfold User.install_with_git_clone. cbv zeta.
    fold repo_dir user_setup_dir.
    rewrite (bind_ok _ _ _ _ _ Hclone), bind_ask. cbn [w_fs].
    rewrite Hmissing. cbn [negb]. unfold raise. by rewrite <- app_assoc.
Qed.

Lemma user_main_failed_download_witness :
  exists fs' evs,
    User.main plain_env old_config_world
    = (mkWorld fs' evs,
       Err (Lib CalledProcessError
              ["home"; "alice"; ".claude"; "instructions_repository_clone"]))
    /\ lstat fs' ["home"; "alice"; ".claude"] = Some (Dir ∅)
    /\ lstat fs' ["home"; "alice"; ".claude_backup_20250914_120000"]
       = Some (dir_of [("settings.json", File "mine")]).
Proof.
  destruct (user_main_failed_download plain_env old_config_world
              old_config_entries) as [H _].
  - discriminate.
  - reflexivity.
  - intros _. split; reflexivity.
  - destruct (H eq_refl) as (fs' & evs & Hrun & Hg).
    exists fs', ([] ++ evs). split; [exact Hrun |].
    pose proof (lstat_graft _ _ _ _ Hg) as Hd.
    change ["home"; "alice"; ".claude"] with (["home"; "alice"] ++ [".claude"]).
    change ["home"; "alice"; ".claude_backup_20250914_120000"]
      with (["home"; "alice"] ++ [".claude_backup_20250914_120000"]).
    rewrite !(lstat_child _ _ _ _ Hd). split; vm_compute; reflexivity.
Defined.

(** * Properties of the command line of the project script *)

Lemma cbind_ok {A B} (m : Cli A) (k : A -> Cli B) w w' a :
  m w = (w', Done a) -> (m ≫= k) w = k a w'.
Proof. unfold mbind, Cli_bind. by intros ->. Qed.

Lemma cbind_raised {A B} (m : Cli A) (k : A -> Cli B) w w' e :
  m w = (w', Raised e) -> (m ≫= k) w = (w', Raised e).
Proof. unfold mbind, Cli_bind. by intros ->. Qed.

Lemma cbind_ret {A B} (a : A) (k : A -> Cli B) w : (mret a ≫= k) w = k a w.
Proof. done. Qed.

Lemma cbind_ask {A B} (f : node -> A) (k : A -> Cli B) w :
  (lift (ask f) ≫= k) w = k (f (w_fs w)) w.
Proof. done. Qed.

Lemma lift_ok {A} (m : M A) w w' a :
  m w = (w', Ok a) -> lift m w = (w', Done a).
Proof. unfold lift. by intros ->. Qed.

Lemma lift_err {A} (m : M A) w w' e :
  m w = (w', Err e) -> lift m w = (w', Raised (Script e)).
Proof. unfold lift. by intros ->. Qed.

(** X14. The command checks the user and the working directory before
    anything else: run as root it raises the root error, also from an
    unsafe directory; run by another user from a directory that resolves
    as one of the excluded directories does, it raises the
    unsafe-directory error for the first such directory.  In both cases
    nothing is downloaded, no temporary directory is made, the world is
    as it was, and the arguments do not matter. *)
Theorem project_main_guards (env : Env) (inv : Invocation) (w : World) :
  let dest_dir := resolve env (w_fs w) (cwd inv) in
  (euid env = 0%Z -> ProjectCli.main env inv w = (w, Raised (Script RootRun)))
  /\ (euid env <> 0%Z ->
      forall pre ex post,
        Project.excluded_dirs env = pre ++ ex :: post ->
        (forall ex', ex' ∈ pre ->
           resolve env (w_fs w) ex' <> resolve env (w_fs w) dest_dir) ->
        resolve env (w_fs w) ex = resolve env (w_fs w) dest_dir ->
        ProjectCli.main env inv w = (w, Raised (Script (UnsafeDirectory ex)))).
Proof.
  intros dest_dir. unfold ProjectCli.main. rewrite cbind_ask. fold dest_dir.
  split; [by intros -> |].
  intros Hu pre ex post Hsplit Hpre Hex. apply Z.eqb_neq in Hu. rewrite Hu.
  apply cbind_raised, lift_err.
  unfold Project.check_safe_directory. rewrite bind_ask, Hsplit.
  clear Hsplit. induction pre as [| ex' pre IH]; cbn [app Project.check_excluded].
  - rewrite bind_ask. by rewrite decide_True.
  - rewrite bind_ask. rewrite decide_False.
    + apply IH. intros j Hj. apply Hpre. by right.
    + intros Heq. apply (Hpre ex'); [left | done].
Qed.

Lemma project_main_guards_witness :
  ProjectCli.main plain_env
    {| cwd := ["home"; "alice"; "Desktop"]; arg_languages := ["python"];
       arg_interactive := false; answer := EndOfFile;
       listing_download := None; install_download := None;
       unzip := fun _ => None;
       listing_temp := ["tmp"; "a"]; install_temp := ["tmp"; "b"] |}
    empty_dest_world
  = (empty_dest_world,
     Raised (Script (UnsafeDirectory ["home"; "alice"; "Desktop"]))).
Proof.
  destruct (project_main_guards plain_env
    {| cwd := ["home"; "alice"; "Desktop"]; arg_languages := ["python"];
       arg_interactive := false; answer := EndOfFile;
       listing_download := None; install_download := None;
       unzip := fun _ => None;
       listing_temp := ["tmp"; "a"]; install_temp := ["tmp"; "b"] |}
    empty_dest_world) as [_ H].
  apply (H ltac:(discriminate)
           [["home"; "alice"]; ["home"; "alice"; "Documents"]]
           ["home"; "alice"; "Desktop"]
           [["home"; "alice"; "Downloads"]; ["tmp"]; ["var"]; ["Users"];
            ["home"]; ["System"]; ["usr"]; ["opt"]]).
  - reflexivity.
  - intros ex' Hex'.
    repeat (apply elem_of_cons in Hex' as [-> | Hex']; [discriminate |]).
    by apply elem_of_nil in Hex'.
  - reflexivity.
Defined.

(** ** Temporary directories *)

Lemma cleanup_run temp_dir fsi (T : gmap string node) log :
  temp_dir <> [] ->
  lstat fsi temp_dir = Some (Dir T) ->
  exists fs',
    put fsi temp_dir None = Some fs'
    /\ cleanup temp_dir (mkWorld fsi log)
       = (mkWorld fs' (log ++ [Rmtree temp_dir]), Ok tt).
Proof.
  intros Hne Hl. destruct (put_is_Some fsi temp_dir _ None Hl Hne) as [fs' Hput].
  exists fs'. split; [done |]. unfold cleanup, issue, put_or. cbn [w_fs w_log].
  by rewrite Hl, Hput.
Qed.

Section TempDir.

Variable parent : Path.
Variable t : string.
Variable ps : gmap string node.

Let temp := parent ++ [t].

Variable fs : node.
Hypothesis Hparent : lstat fs parent = Some (Dir ps).
Hypothesis Hfree : ps !! t = None.

Lemma temp_made log :
  exists fs1,
    put fs temp (Some (Dir ∅)) = Some fs1
    /\ mkdir temp (mkWorld fs log) = (mkWorld fs1 (log ++ [Mkdir temp]), Ok tt).
Proof.
  destruct (put_child fs parent t (Some (Dir ∅)) ps Hparent) as (fs1 & Hput & _).
  exists fs1. split; [done |]. unfold mkdir, issue, put_or. cbn [w_fs w_log].
  unfold temp. by rewrite (lstat_child _ _ _ _ Hparent), Hfree, Hput.
Qed.

(** Writing below the temporary directory changes its content only. *)
Lemma in_temp_put fsi (T : gmap string node) p new :
  put fs temp (Some (Dir T)) = Some fsi -> p <> [] ->
  put fsi (temp ++ p) new
  = put (Dir T) p new ≫= fun sub => put fs temp (Some sub).
Proof.
  intros Hput Hp.
  rewrite (put_app fsi temp p new (Dir T) (lstat_put_eq _ _ _ _ Hput) Hp).
  destruct (put (Dir T) p new) as [sub |]; [| done].
  cbn [mbind option_bind]. unfold temp. rewrite graft_child.
  exact (put_put _ _ _ _ _ Hput).
Qed.

Lemma lstat_in_temp fsi (T : gmap string node) p :
  put fs temp (Some (Dir T)) = Some fsi ->
  lstat fsi (temp ++ p) = lstat (Dir T) p.
Proof. intros Hput. by rewrite lstat_app, (lstat_put_eq _ _ _ _ Hput). Qed.

(** Removing the temporary directory gives the file system back. *)
Lemma temp_removed fsi (T : gmap string node) :
  put fs temp (Some (Dir T)) = Some fsi -> put fsi temp None = Some fs.
Proof.
  intros Hput. rewrite (put_put _ _ _ _ _ Hput).
  destruct (put_child fs parent t None ps Hparent) as (fs' & Hput' & Hg).
  rewrite delete_id in Hg by done. rewrite (graft_id _ _ _ Hparent) in Hg.
  unfold temp. congruence.
Qed.

(** A body that changes the content of the temporary directory only
    leaves no trace. *)
Lemma with_temporary_directory_inside {A} (body : Cli A) log (r : outcome A) :
  (forall fs1, put fs temp (Some (Dir ∅)) = Some fs1 ->
     exists fs2 (T : gmap string node) evs,
       body (mkWorld fs1 (log ++ [Mkdir temp]))
       = (mkWorld fs2 ((log ++ [Mkdir temp]) ++ evs), r)
       /\ put fs temp (Some (Dir T)) = Some fs2) ->
  exists evs,
    with_temporary_directory temp body (mkWorld fs log)
    = (mkWorld fs (log ++ evs), r).
Proof.
  intros Hbody. destruct (temp_made log) as (fs1 & Hput1 & Hmk).
  destruct (Hbody fs1 Hput1) as (fs2 & T & evs & Hrun & Hput2).
  destruct (cleanup_run temp fs2 T ((log ++ [Mkdir temp]) ++ evs))
    as (fs' & Hrm & Hclean);
    [unfold temp; by destruct parent | by eapply lstat_put_eq |].
  rewrite (temp_removed _ _ Hput2) in Hrm. injection Hrm as <-.
  exists (Mkdir temp :: evs ++ [Rmtree temp]).
  unfold with_temporary_directory. rewrite Hmk, Hrun, Hclean.
  f_equal. f_equal. rewrite <- !app_assoc. done.
Qed.

End TempDir.

(** ** Listing the languages of the repository *)

Lemma filter_children (P : Path -> Prop) `{!forall p, Decision (P p)}
  (d : Path) (ks : list string) :
  name <$> filter P (child d <$> ks) = filter (fun k => P (child d k)) ks.
Proof.
  induction ks as [| k ks IH]; [done |]. cbn [fmap list_fmap].
  rewrite !filter_cons. destruct (decide (P (child d k))).
  - cbn [fmap list_fmap]. rewrite name_child. f_equal. exact IH.
  - exact IH.
Qed.

Section Listing.

Variable inv : Invocation.
Variable parent : Path.
Variable t : string.
Variable ps : gmap string node.
Variable fs : node.

Let temp := listing_temp inv.
Let zip_path := child temp "repo.zip".
Let lang_dir :=
  child (child (child (child (child temp "ai-tool-config-main")
    "claude") "project_setup") "agent_instructions") "languages".

Hypothesis Htemp : listing_temp inv = parent ++ [t].
Hypothesis Hparent : lstat fs parent = Some (Dir ps).
Hypothesis Hfree : ps !! t = None.

Lemma lang_dir_in_temp :
  lang_dir = (parent ++ [t]) ++ "ai-tool-config-main" :: archive_languages.
Proof.
  unfold lang_dir, temp, child. rewrite Htemp, <- !app_assoc. done.
Qed.

(** The download is written into the fresh directory. *)
Lemma listing_download_run fs1 log bytes :
  put fs (parent ++ [t]) (Some (Dir ∅)) = Some fs1 ->
  listing_download inv = Some bytes ->
  exists fs2,
    put fs (parent ++ [t]) (Some (Dir {["repo.zip" := File bytes]})) = Some fs2
    /\ urlretrieve (listing_download inv) zip_path (mkWorld fs1 log)
       = (mkWorld fs2 (log ++ [WriteText zip_path]), Done tt).
Proof.
  intros Hput1 Hd.
  destruct (put_child fs parent t (Some (Dir {["repo.zip" := File bytes]})) ps
              Hparent) as (fs2 & Hput2 & _).
  exists fs2. split; [done |]. rewrite Hd. unfold urlretrieve. apply lift_ok.
  unfold write_text, issue, max_links. cbn [w_fs w_log write_go].
  unfold zip_path, temp, child. rewrite Htemp.
  rewrite (lstat_in_temp parent t fs fs1 ∅ ["repo.zip"] Hput1).
  cbn [lstat]. rewrite lookup_empty. unfold put_or.
  rewrite (in_temp_put parent t fs fs1 ∅ ["repo.zip"] _ Hput1) by done.
  cbn [put mbind option_bind]. rewrite insert_empty. by rewrite Hput2.
Qed.

(** The archive is read and its root folder appears beside it. *)
Lemma listing_extract_run fs2 log bytes a :
  put fs (parent ++ [t]) (Some (Dir {["repo.zip" := File bytes]})) = Some fs2 ->
  unzip inv bytes = Some a ->
  zip_root a = "ai-tool-config-main" ->
  exists fs3,
    put fs (parent ++ [t])
      (Some (Dir (<["ai-tool-config-main" := Dir (zip_tree a)]>
                    {["repo.zip" := File bytes]}))) = Some fs3
    /\ extractall inv zip_path temp (mkWorld fs2 log)
       = (mkWorld fs3 log, Done tt).
Proof.
  intros Hput2 Hz Hroot.
  destruct (put_child fs parent t
              (Some (Dir (<["ai-tool-config-main" := Dir (zip_tree a)]>
                            {["repo.zip" := File bytes]}))) ps Hparent)
    as (fs3 & Hput3 & _).
  exists fs3. split; [done |].
  assert (Hzip : stat fs2 zip_path = Some (File bytes)).
  { apply stat_plain; [| done]. unfold zip_path, temp, child. rewrite Htemp.
    rewrite (lstat_in_temp parent t fs fs2 _ ["repo.zip"] Hput2).
    cbn [lstat]. by rewrite lookup_singleton_eq. }
  unfold extractall.
  erewrite cbind_ok;
    [| apply lift_ok; unfold read_bytes; cbn [w_fs]; by rewrite Hzip].
  rewrite Hz. apply lift_ok. unfold extract_archive. cbn [w_fs w_log].
  unfold temp. rewrite Htemp.
  rewrite (stat_plain _ _ _ (lstat_put_eq _ _ _ _ Hput2)) by done.
  rewrite Hroot. unfold child.
  rewrite (lstat_in_temp parent t fs fs2 _ ["ai-tool-config-main"] Hput2).
  cbn [lstat]. rewrite lookup_singleton_ne by done.
  rewrite (in_temp_put parent t fs fs2 _ ["ai-tool-config-main"] _ Hput2) by done.
  cbn [put mbind option_bind]. by rewrite Hput3.
Qed.

Lemma lstat_listing fs3 bytes a p :
  put fs (parent ++ [t])
    (Some (Dir (<["ai-tool-config-main" := Dir (zip_tree a)]>
                  {["repo.zip" := File bytes]}))) = Some fs3 ->
  lstat fs3 (lang_dir ++ p) = lstat (Dir (zip_tree a)) (archive_languages ++ p).
Proof.
  intros Hput3. rewrite lang_dir_in_temp, <- app_assoc.
  rewrite (lstat_in_temp parent t fs fs3 _ _ Hput3).
  cbn [app lstat]. by rewrite lookup_insert_eq.
Qed.

End Listing.

(** X15. [get_available_languages] leaves no trace: whether the
    download fails, the bytes are no archive, the archive has no
    languages folder or the languages are listed, the temporary
    directory is gone and the file system is as it was.  When the
    archive has a languages folder, the result is the names of its
    entries that are directories, in the order the folder lists them. *)
Theorem get_available_languages_spec (inv : Invocation) (parent : Path)
  (t : string) (ps : gmap string node) (fs : node) (log : list event) :
  let temp := listing_temp inv in
  let zip_path := child temp "repo.zip" in
  let lang_dir :=
    child (child (child (child (child temp "ai-tool-config-main")
      "claude") "project_setup") "agent_instructions") "languages" in
  let run := ProjectCli.get_available_languages inv (mkWorld fs log) in
  listing_temp inv = parent ++ [t] ->
  lstat fs parent = Some (Dir ps) ->
  ps !! t = None ->
  (listing_download inv = None ->
   exists evs, run = (mkWorld fs (log ++ evs), Raised URLError))
  /\ (forall bytes,
        listing_download inv = Some bytes ->
        (unzip inv bytes = None ->
         exists evs, run = (mkWorld fs (log ++ evs), Raised (BadZipFile zip_path)))
        /\ (forall a,
              unzip inv bytes = Some a ->
              zip_root a = "ai-tool-config-main" ->
              (lstat (Dir (zip_tree a)) archive_languages = None ->
               exists evs,
                 run = (mkWorld fs (log ++ evs),
                        Raised (RepoLanguagesDirNotFound lang_dir)))
              /\ (forall les,
                    lstat (Dir (zip_tree a)) archive_languages
                    = Some (Dir les) ->
                    (forall k n, les !! k = Some n -> is_link_node n = false) ->
                    exists evs,
                      run = (mkWorld fs (log ++ evs),
                             Done (directory_names les))))).
Proof.
  intros temp zip_path lang_dir run Htemp Hparent Hfree. subst run.
  pose proof (listing_download_run inv parent t ps fs Htemp Hparent)
    as Hdownload.
  pose proof (listing_extract_run inv parent t ps fs Htemp Hparent)
    as Hextract.
  pose proof (lstat_listing inv parent t fs Htemp) as Hlisting.
  fold temp zip_path in Hdownload, Hextract. fold temp lang_dir in Hlisting.
  unfold ProjectCli.get_available_languages. cbv zeta.
  fold temp zip_path lang_dir. unfold temp at 1 3 5 7. rewrite Htemp.
  split; [| intros bytes Hd; split; [| intros a Hz Hroot; split]].
  - intros Hd.
    apply (with_temporary_directory_inside parent t ps fs Hparent Hfree).
    intros fs1 Hput1. exists fs1, ∅, []. rewrite app_nil_r. split; [| done].
    apply cbind_raised. by rewrite Hd.
  - intros Hz.
    apply (with_temporary_directory_inside parent t ps fs Hparent Hfree).
    intros fs1 Hput1.
    destruct (Hdownload fs1 (log ++ [Mkdir (parent ++ [t])]) bytes
                Hput1 Hd) as (fs2 & Hput2 & Hdl).
    exists fs2, {["repo.zip" := File bytes]}, [WriteText zip_path].
    split; [| done].
    rewrite (cbind_ok _ _ _ _ _ Hdl). apply cbind_raised.
    assert (Hzip : stat fs2 zip_path = Some (File bytes)).
    { apply stat_plain; [| done]. unfold zip_path, temp, child. rewrite Htemp.
      rewrite (lstat_in_temp parent t fs fs2 _ ["repo.zip"] Hput2).
      cbn [lstat]. by rewrite lookup_singleton_eq. }
    unfold extractall.
    erewrite cbind_ok;
      [| apply lift_ok; unfold read_bytes; cbn [w_fs]; by rewrite Hzip].
    by rewrite Hz.
  - intros Hnone.
    apply (with_temporary_directory_inside parent t ps fs Hparent Hfree).
    intros fs1 Hput1.
    destruct (Hdownload fs1 (log ++ [Mkdir (parent ++ [t])]) bytes
                Hput1 Hd) as (fs2 & Hput2 & Hdl).
    destruct (Hextract fs2
                ((log ++ [Mkdir (parent ++ [t])]) ++ [WriteText zip_path])
                bytes a Hput2 Hz Hroot) as (fs3 & Hput3 & Hex).
    eexists fs3, _, [WriteText zip_path]. split; [| exact Hput3].
    rewrite (cbind_ok _ _ _ _ _ Hdl), (cbind_ok _ _ _ _ _ Hex), cbind_ask.
    cbn [w_fs].
    pose proof (Hlisting fs3 bytes a [] Hput3) as Hl.
    rewrite !app_nil_r in Hl. rewrite Hnone in Hl.
    by rewrite (lstat_None_path_exists _ _ Hl).
  - intros les Hles Hnl.
    apply (with_temporary_directory_inside parent t ps fs Hparent Hfree).
    intros fs1 Hput1.
    destruct (Hdownload fs1 (log ++ [Mkdir (parent ++ [t])]) bytes
                Hput1 Hd) as (fs2 & Hput2 & Hdl).
    destruct (Hextract fs2
                ((log ++ [Mkdir (parent ++ [t])]) ++ [WriteText zip_path])
                bytes a Hput2 Hz Hroot) as (fs3 & Hput3 & Hex).
    eexists fs3, _, [WriteText zip_path]. split; [| exact Hput3].
    rewrite (cbind_ok _ _ _ _ _ Hdl), (cbind_ok _ _ _ _ _ Hex), cbind_ask.
    cbn [w_fs].
    pose proof (Hlisting fs3 bytes a [] Hput3) as Hl.
    rewrite !app_nil_r in Hl. rewrite Hles in Hl.
    unfold path_exists. rewrite (stat_plain _ _ _ Hl) by done. cbn [negb].
    erewrite cbind_ok;
      [| apply lift_ok, iterdir_run; cbn [w_fs]; by apply stat_plain].
    rewrite cbind_ask. cbn [w_fs]. unfold mret, Cli_ret. do 2 f_equal.
    rewrite filter_children. unfold directory_names.
    apply list_filter_iff. intros k.
    pose proof (lstat_child _ _ k _ Hl) as Hk. fold (child lang_dir k) in Hk.
    destruct (les !! k) as [n |] eqn:Hn; cbn [default from_option id].
    + unfold is_dir. rewrite (stat_plain _ _ _ Hk) by (by eapply Hnl).
      by destruct n.
    + by rewrite (lstat_None_is_dir _ _ Hk).
Qed.


Lemma get_available_languages_spec_witness :
  exists evs,
    ProjectCli.get_available_languages sample_invocation empty_dest_world
    = (mkWorld (w_fs empty_dest_world) evs, Done ["go"; "python"]).
Proof.
  destruct (get_available_languages_spec sample_invocation ["tmp"]
              "claude_lang_check_k3"
              (list_to_map [("src", sample_bundle)])
              (w_fs empty_dest_world) []) as [_ H];
    [reflexivity | reflexivity | reflexivity |].
  destruct (H "PK" eq_refl) as [_ Ha].
  destruct (Ha sample_archive eq_refl eq_refl) as [_ Hles].
  destruct (Hles sample_languages eq_refl) as [evs Hrun].
  - intros k n Hk. apply elem_of_list_to_map_2 in Hk.
    repeat (apply elem_of_cons in Hk as [[= -> ->] | Hk]; [reflexivity |]).
    by apply elem_of_nil in Hk.
  - exists ([] ++ evs). exact Hrun.
Defined.

(** ** The command from end to end *)

Lemma check_safe_directory_passes env target_dir w :
  (forall ex, ex ∈ Project.excluded_dirs env ->
     resolve env (w_fs w) ex <> resolve env (w_fs w) target_dir) ->
  Project.check_safe_directory env target_dir w = (w, Ok tt).
Proof.
  intros Hsafe. unfold Project.check_safe_directory. rewrite bind_ask.
  destruct (check_excluded_run env (resolve env (w_fs w) target_dir)
              (Project.excluded_dirs env) w) as (r & Hrun & Hiff & _).
  rewrite Hrun. f_equal. destruct r as [[] | e]; [done |].
  destruct (proj1 Hiff eq_refl) as (ex & Hin & Hex). by destruct (Hsafe ex Hin).
Qed.

(** With languages on the command line and the checks passed, the
    command is its [with] block. *)
Lemma main_positional env inv w l ls :
  euid env <> 0%Z ->
  (forall ex, ex ∈ Project.excluded_dirs env ->
     resolve env (w_fs w) ex
     <> resolve env (w_fs w) (resolve env (w_fs w) (cwd inv))) ->
  arg_interactive inv = false ->
  arg_languages inv = l :: ls ->
  ProjectCli.main env inv w
  = with_temporary_directory (install_temp inv)
      (download_and_install env inv (resolve env (w_fs w) (cwd inv)) (l :: ls)) w.
Proof.
  intros Hu Hsafe Hi Hl. unfold ProjectCli.main. rewrite cbind_ask.
  apply Z.eqb_neq in Hu. rewrite Hu.
  rewrite (cbind_ok _ _ _ _ _
             (lift_ok _ _ _ _ (check_safe_directory_passes _ _ _ Hsafe))).
  rewrite Hi, Hl. rewrite cbind_ret. done.
Qed.

Section Download.

Variable env : Env.
Variable inv : Invocation.
Variable parent : Path.
Variable t : string.
Variable ps : gmap string node.
Variable fs : node.

Let temp := install_temp inv.
Let zip_path := child temp "repo.zip".
Let extract_dir := child temp "extract".
Let temp_source_dir :=
  child (child (child extract_dir "ai-tool-config-main") "claude")
    "project_setup".

Hypothesis Htemp : install_temp inv = parent ++ [t].
Hypothesis Hparent : lstat fs parent = Some (Dir ps).
Hypothesis Hfree : ps !! t = None.

Lemma temp_source_dir_in_temp :
  temp_source_dir
  = (parent ++ [t]) ++ "extract" :: "ai-tool-config-main" :: archive_project_setup.
Proof.
  unfold temp_source_dir, extract_dir, temp, child.
  rewrite Htemp, <- !app_assoc. done.
Qed.

(** The download is written into the fresh directory and the folder to
    extract into is made beside it. *)
Lemma install_download_run fs1 log bytes :
  put fs (parent ++ [t]) (Some (Dir ∅)) = Some fs1 ->
  install_download inv = Some bytes ->
  exists fs3,
    put fs (parent ++ [t])
      (Some (Dir (<["extract" := Dir ∅]> {["repo.zip" := File bytes]})))
    = Some fs3
    /\ forall k : Cli unit,
         (urlretrieve (install_download inv) zip_path ;;
          lift (mkdir extract_dir) ;; k) (mkWorld fs1 log)
         = k (mkWorld fs3 (log ++ [WriteText zip_path; Mkdir extract_dir])).
Proof.
  intros Hput1 Hd.
  destruct (put_child fs parent t (Some (Dir {["repo.zip" := File bytes]})) ps
              Hparent) as (fs2 & Hput2 & _).
  destruct (put_child fs parent t
              (Some (Dir (<["extract" := Dir ∅]> {["repo.zip" := File bytes]})))
              ps Hparent) as (fs3 & Hput3 & _).
  exists fs3. split; [done |]. intros k.
  assert (Hdl : urlretrieve (install_download inv) zip_path (mkWorld fs1 log)
                = (mkWorld fs2 (log ++ [WriteText zip_path]), Done tt)).
  { rewrite Hd. unfold urlretrieve. apply lift_ok.
    unfold write_text, issue, max_links. cbn [w_fs w_log write_go].
    unfold zip_path, temp, child. rewrite Htemp.
    rewrite (lstat_in_temp parent t fs fs1 ∅ ["repo.zip"] Hput1).
    cbn [lstat]. rewrite lookup_empty. unfold put_or.
    rewrite (in_temp_put parent t fs fs1 ∅ ["repo.zip"] _ Hput1) by done.
    cbn [put mbind option_bind]. rewrite insert_empty. by rewrite Hput2. }
  assert (Hmk : mkdir extract_dir (mkWorld fs2 (log ++ [WriteText zip_path]))
                = (mkWorld fs3 ((log ++ [WriteText zip_path])
                                ++ [Mkdir extract_dir]), Ok tt)).
  { unfold mkdir, issue. cbn [w_fs w_log].
    unfold extract_dir, temp, child. rewrite Htemp.
    rewrite (lstat_in_temp parent t fs fs2 _ ["extract"] Hput2).
    cbn [lstat]. rewrite lookup_singleton_ne by done. unfold put_or.
    rewrite (in_temp_put parent t fs fs2 _ ["extract"] _ Hput2) by done.
    cbn [put mbind option_bind]. by rewrite Hput3. }
  rewrite (cbind_ok _ _ _ _ _ Hdl).
  rewrite (cbind_ok _ _ _ _ _ (lift_ok _ _ _ _ Hmk)).
  by rewrite <- app_assoc.
Qed.

Lemma install_zip_read fs3 log bytes :
  put fs (parent ++ [t])
    (Some (Dir (<["extract" := Dir ∅]> {["repo.zip" := File bytes]})))
  = Some fs3 ->
  lift (read_bytes zip_path) (mkWorld fs3 log) = (mkWorld fs3 log, Done bytes).
Proof.
  intros Hput3. apply lift_ok. unfold read_bytes. cbn [w_fs].
  rewrite (stat_plain _ _ (File bytes)); [done | | done].
  unfold zip_path, temp, child. rewrite Htemp.
  rewrite (lstat_in_temp parent t fs fs3 _ ["repo.zip"] Hput3).
  cbn [lstat]. rewrite lookup_insert_ne by done. by rewrite lookup_singleton_eq.
Qed.

(** The archive is read and its root folder appears in the folder made
    for it. *)
Lemma install_extract_run fs3 log bytes a :
  put fs (parent ++ [t])
    (Some (Dir (<["extract" := Dir ∅]> {["repo.zip" := File bytes]})))
  = Some fs3 ->
  unzip inv bytes = Some a ->
  zip_root a = "ai-tool-config-main" ->
  exists fs4,
    put fs (parent ++ [t])
      (Some (Dir (<["extract" :=
                      Dir {["ai-tool-config-main" := Dir (zip_tree a)]}]>
                    {["repo.zip" := File bytes]}))) = Some fs4
    /\ extractall inv zip_path extract_dir (mkWorld fs3 log)
       = (mkWorld fs4 log, Done tt).
Proof.
  intros Hput3 Hz Hroot.
  destruct (put_child fs parent t
              (Some (Dir (<["extract" :=
                              Dir {["ai-tool-config-main" := Dir (zip_tree a)]}]>
                            {["repo.zip" := File bytes]}))) ps Hparent)
    as (fs4 & Hput4 & _).
  exists fs4. split; [done |].
  unfold extractall. rewrite (cbind_ok _ _ _ _ _ (install_zip_read _ _ _ Hput3)).
  rewrite Hz. apply lift_ok. unfold extract_archive. cbn [w_fs w_log].
  assert (Hex : lstat fs3 extract_dir = Some (Dir ∅)).
  { unfold extract_dir, temp, child. rewrite Htemp.
    rewrite (lstat_in_temp parent t fs fs3 _ ["extract"] Hput3).
    cbn [lstat]. by rewrite lookup_insert_eq. }
  rewrite (stat_plain _ _ _ Hex) by done. rewrite Hroot.
  unfold child at 1. rewrite (lstat_child _ _ _ _ Hex), lookup_empty.
  unfold extract_dir, temp, child. rewrite Htemp, <- app_assoc. cbn [app].
  rewrite (in_temp_put parent t fs fs3 _ ["extract"; "ai-tool-config-main"] _
             Hput3) by done.
  cbn [put mbind option_bind]. rewrite lookup_insert_eq.
  cbn [put mbind option_bind].
  rewrite insert_empty, insert_insert_eq. by rewrite Hput4.
Qed.

Lemma lstat_extracted fs4 bytes a p :
  put fs (parent ++ [t])
    (Some (Dir (<["extract" :=
                    Dir {["ai-tool-config-main" := Dir (zip_tree a)]}]>
                  {["repo.zip" := File bytes]}))) = Some fs4 ->
  lstat fs4 (temp_source_dir ++ p)
  = lstat (Dir (zip_tree a)) (archive_project_setup ++ p).
Proof.
  intros Hput4. rewrite temp_source_dir_in_temp, <- app_assoc.
  rewrite (lstat_in_temp parent t fs fs4 _ _ Hput4).
  cbn [app lstat]. rewrite lookup_insert_eq. by rewrite lookup_singleton_eq.
Qed.

End Download.

Lemma graft_put fs d sub : d <> [] -> graft fs d sub = put fs d (Some sub).
Proof. by destruct d. Qed.

Lemma is_dir_root n : is_dir n [] = true -> exists T, n = Dir T.
Proof.
  destruct n as [c | T | target |]; [done | by exists T | | done].
  destruct target; vm_compute; discriminate.
Qed.

(** X16. The command from end to end, with languages on the command
    line, under the following conditions: the user is not root; the
    resolved working directory is a directory and is not excluded; the
    temporary directory is made under a free name in an existing
    directory, strictly inside a temporary root, and neither it nor the
    working directory lies inside the other; [Path.resolve] returns as
    it is a path below the extracted project setup that holds no link;
    the download succeeds and unpacks, under the folder
    ai-tool-config-main, to a project setup that is a well-formed bundle
    (files and directories only, the manifest a file of text, the
    languages folder with an entry for each language of the command
    line, these being plain names); no entry of the working directory
    named like an installed item is a symbolic link; the backup name is
    borne neither by an entry of the working directory nor by an
    installed item.  Then the command succeeds; the working directory
    holds the items of the cleaned bundle, its other entries are as they
    were (apart from the backup directory), the temporary directory is
    gone, and every path that lies neither in, nor above, the working
    directory or the temporary directory holds what it held. *)
Theorem project_main_installs (env : Env) (inv : Invocation) (w : World)
  (parent : Path) (t : string) (ps ses es0 : gmap string node)
  (languages : list string) (bytes : string) (a : Archive) :
  let fs := w_fs w in
  let dest_dir := resolve env fs (cwd inv) in
  let temp := install_temp inv in
  let temp_source_dir :=
    child (child (child (child temp "extract") "ai-tool-config-main") "claude")
      "project_setup" in
  let installed := cleaned_bundle languages ses in
  let b := Project.backup_name (now env) in
  arg_interactive inv = false ->
  arg_languages inv = languages ->
  (forall ex, ex ∈ Project.excluded_dirs env ->
     resolve env fs ex <> resolve env fs dest_dir) ->
  install_temp inv = parent ++ [t] ->
  lstat fs parent = Some (Dir ps) ->
  ps !! t = None ->
  install_download inv = Some bytes ->
  unzip inv bytes = Some a ->
  zip_root a = "ai-tool-config-main" ->
  lstat (Dir (zip_tree a)) archive_project_setup = Some (Dir ses) ->
  scratch_ok env temp_source_dir ->
  bundle_ok languages ses ->
  apart temp dest_dir ->
  lstat fs dest_dir = Some (Dir es0) ->
  (forall n x, is_Some (installed !! n) -> es0 !! n = Some x ->
               is_link_node x = false) ->
  es0 !! b = None -> installed !! b = None ->
  exists w1 es1,
    ProjectCli.main env inv w = (w1, Done tt)
    /\ lstat (w_fs w1) dest_dir = Some (Dir es1)
    /\ (forall k, is_Some (installed !! k) -> es1 !! k = installed !! k)
    /\ (forall k, installed !! k = None -> k <> b -> es1 !! k = es0 !! k)
    /\ lstat (w_fs w1) temp = None
    /\ (forall q, apart temp q -> apart dest_dir q ->
                  lstat (w_fs w1) q = lstat fs q).
Proof.
  intros fs dest_dir temp temp_source_dir installed b Hi Hl Hsafe Htemp Hparent
    Hfree Hd Hz Hroot Hses Hscratch Hbundle Hap Hdest Hnolink Hb HCb.
  pose proof (scratch_user _ _ Hscratch) as Hu.
  pose proof (bundle_languages _ _ Hbundle) as Hlangs.
  destruct languages as [| l ls]; [done |].
  destruct w as [fs0 log]. cbn [w_fs] in fs. subst fs.
  rewrite (main_positional env inv (mkWorld fs0 log) l ls Hu Hsafe Hi Hl). cbn [w_fs].
  fold dest_dir. unfold temp in Hap. rewrite Htemp in Hap.
  destruct Hap as [Hap1 Hap2].
  (* the temporary directory and the download *)
  destruct (temp_made parent t ps fs0 Hparent Hfree log) as (fs1 & Hput1 & Hmk).
  destruct (install_download_run inv parent t ps fs0 Htemp Hparent fs1
              (log ++ [Mkdir (parent ++ [t])]) bytes Hput1 Hd)
    as (fs3 & Hput3 & Hdl).
  set (log3 := (log ++ [Mkdir (parent ++ [t])])
               ++ [WriteText (child (install_temp inv) "repo.zip");
                   Mkdir (child (install_temp inv) "extract")]) in *.
  destruct (install_extract_run inv parent t ps fs0 Htemp Hparent fs3 log3
              bytes a Hput3 Hz Hroot) as (fs4 & Hput4 & Hex).
  pose proof (lstat_extracted inv parent t fs0 Htemp fs4 bytes a [] Hput4)
    as Hsrc.
  rewrite !app_nil_r in Hsrc. fold temp temp_source_dir in Hsrc.
  rewrite Hses in Hsrc.
  (* the installation *)
  assert (Hdest4 : lstat fs4 dest_dir = Some (Dir es0)).
  { by rewrite (lstat_put_diverge _ _ _ _ _ Hput4). }
  assert (Hsrc_temp : temp_source_dir
                      = (parent ++ [t])
                        ++ "extract" :: "ai-tool-config-main"
                             :: archive_project_setup)
    by (by apply temp_source_dir_in_temp).
  assert (Hap' : apart temp_source_dir dest_dir).
  { rewrite Hsrc_temp. split.
    - intros Hp. apply Hap1. by eapply prefix_app_l.
    - intros Hp.
      destruct (prefix_weak_total _ _ _ Hp (prefix_app_r _ _ _ (reflexivity _)));
        done. }
  destruct (install_configuration_run env dest_dir temp_source_dir (l :: ls)
              ses es0 (mkWorld fs4 log3) Hscratch Hbundle Hap' Hsrc Hdest4
              Hnolink Hb HCb)
    as (fsp & fs5 & es1 & evs & Hrun & Hgp & Hg5 & Hin & Hout).
  cbn [w_fs w_log] in *.
  (* the cleaning up *)
  assert (Hptemp : exists sub, put fs0 (parent ++ [t]) (Some sub) = Some fsp
                               /\ is_dir sub [] = true).
  { assert (Hgp' : put fs4 ((parent ++ [t])
                     ++ "extract" :: "ai-tool-config-main" :: archive_project_setup)
                     (Some (Dir installed)) = Some fsp).
    { rewrite <- Hsrc_temp, <- Hgp. symmetry. apply graft_put.
      rewrite Hsrc_temp. by destruct parent. }
    rewrite (in_temp_put parent t fs0 fs4 _ _ _ Hput4) in Hgp' by done.
    destruct (put _ ("extract" :: _) _) as [sub |] eqn:Hsub; [| done].
    exists sub. split; [done |]. exact (put_root_dir _ _ _ _ Hsub). }
  destruct Hptemp as (sub & Hputp & Hsub).
  assert (Htemp5 : exists T, lstat fs5 (parent ++ [t]) = Some (Dir T)).
  { rewrite (lstat_graft_diverge _ _ _ _ _ Hg5) by done.
    rewrite (lstat_put_eq _ _ _ _ Hputp).
    destruct (is_dir_root _ Hsub) as [T ->]. by exists T. }
  destruct Htemp5 as (T & Htemp5).
  destruct (cleanup_run (parent ++ [t]) fs5 T (log3 ++ evs))
    as (fs6 & Hput6 & Hclean); [by destruct parent | done |].
  exists (mkWorld fs6 ((log3 ++ evs) ++ [Rmtree (parent ++ [t])])), es1.
  split; [| split; [| split; [done | split; [done | split]]]].
  - unfold with_temporary_directory. rewrite Htemp, Hmk.
    assert (Hbody : download_and_install env inv dest_dir (l :: ls)
                      (mkWorld fs1 (log ++ [Mkdir (parent ++ [t])]))
                    = (mkWorld fs5 (log3 ++ evs), Done tt)).
    { unfold download_and_install. cbv zeta. rewrite Hdl.
      rewrite (cbind_ok _ _ _ _ _ Hex), cbind_ask. cbn [w_fs].
      fold temp temp_source_dir.
      unfold path_exists. rewrite (stat_plain _ _ _ Hsrc) by done. cbn [negb].
      by apply lift_ok. }
    rewrite Hbody, Hclean. done.
  - cbn [w_fs]. rewrite (lstat_put_diverge _ _ _ _ _ Hput6) by done.
    by eapply lstat_graft.
  - cbn [w_fs]. unfold temp. rewrite Htemp. by eapply lstat_put_eq.
  - intros q [Hq1 Hq2] [Hq3 Hq4]. cbn [w_fs]. unfold temp in Hq1, Hq2.
    rewrite Htemp in Hq1, Hq2.
    rewrite (lstat_put_diverge _ _ _ _ _ Hput6) by done.
    rewrite (lstat_graft_diverge _ _ _ _ _ Hg5) by done.
    by rewrite (lstat_put_diverge _ _ _ _ _ Hputp).
Qed.

Lemma project_main_installs_witness :
  exists w1,
    ProjectCli.main plain_env sample_invocation empty_dest_world = (w1, Done tt)
    /\ lstat (w_fs w1) ["work"; "proj"; "CLAUDE.md"]
       = Some (File (filtered_manifest ["python"] sample_manifest))
    /\ lstat (w_fs w1) ["tmp"; "claude_install_x7"] = None
    /\ lstat (w_fs w1) ["tmp"; "src"]
       = lstat (w_fs empty_dest_world) ["tmp"; "src"].
Proof.
  destruct (project_main_installs plain_env sample_invocation empty_dest_world
              ["tmp"] "claude_install_x7"
              (list_to_map [("src", sample_bundle)]) sample_entries ∅
              ["python"] "PK" sample_archive)
    as (w1 & es1 & Hrun & Hd & Hin & _ & Htemp & Hframe).
  - reflexivity.
  - reflexivity.
  - intros ex Hex.
    repeat (apply elem_of_cons in Hex as [-> | Hex]; [discriminate |]).
    by apply elem_of_nil in Hex.
  - reflexivity.
  - reflexivity.
  - reflexivity.
  - reflexivity.
  - reflexivity.
  - reflexivity.
  - reflexivity.
  - split.
    + discriminate.
    + reflexivity.
    + exists ["tmp"]. split; [left |].
      by exists ["claude_install_x7"; "extract"; "ai-tool-config-main";
                 "claude"; "project_setup"].
  - apply sample_bundle_ok.
  - split; intros [r Hr]; discriminate Hr.
  - reflexivity.
  - intros n x _ Hx. by rewrite lookup_empty in Hx.
  - reflexivity.
  - vm_compute. reflexivity.
  - exists w1. split; [exact Hrun |]. split; [| split; [exact Htemp |]].
    + change ["work"; "proj"; "CLAUDE.md"] with (["work"; "proj"] ++ ["CLAUDE.md"]).
      rewrite (lstat_child _ _ _ _ Hd : lstat (w_fs w1) (["work"; "proj"] ++ ["CLAUDE.md"]) = es1 !! "CLAUDE.md").
      rewrite Hin by (vm_compute; by eexists). vm_compute. reflexivity.
    + apply Hframe; split; intros [r Hr]; discriminate Hr.
Defined.

(** X17. A run that fails between the download and the first change of
    the installation leaves no trace: when the download fails, when the
    bytes are no archive, when the archive has no project setup, and
    when the languages of the command line are plain names (no slash,
    not empty, neither "." nor "..") of which one has no entry in the
    languages folder of the archive, the command raises the matching
    error, naming the first such language, the temporary directory is
    gone and the file system is as it was. *)
Theorem project_main_fails_clean (env : Env) (inv : Invocation) (fs : node)
  (log : list event) (parent : Path) (t : string) (ps : gmap string node)
  (l : string) (ls : list string) :
  let dest_dir := resolve env fs (cwd inv) in
  let temp := install_temp inv in
  let zip_path := child temp "repo.zip" in
  let temp_source_dir :=
    child (child (child (child temp "extract") "ai-tool-config-main") "claude")
      "project_setup" in
  let run := ProjectCli.main env inv (mkWorld fs log) in
  euid env <> 0%Z ->
  (forall ex, ex ∈ Project.excluded_dirs env ->
     resolve env fs ex <> resolve env fs dest_dir) ->
  arg_interactive inv = false ->
  arg_languages inv = l :: ls ->
  install_temp inv = parent ++ [t] ->
  lstat fs parent = Some (Dir ps) ->
  ps !! t = None ->
  (install_download inv = None ->
   exists evs, run = (mkWorld fs (log ++ evs), Raised URLError))
  /\ (forall bytes,
        install_download inv = Some bytes ->
        (unzip inv bytes = None ->
         exists evs, run = (mkWorld fs (log ++ evs), Raised (BadZipFile zip_path)))
        /\ (forall a,
              unzip inv bytes = Some a ->
              zip_root a = "ai-tool-config-main" ->
              (lstat (Dir (zip_tree a)) archive_project_setup = None ->
               exists evs,
                 run = (mkWorld fs (log ++ evs),
                        Raised (ProjectSetupNotFound temp_source_dir)))
              /\ (forall n pre lang post,
                    lstat (Dir (zip_tree a)) archive_project_setup = Some n ->
                    is_link_node n = false ->
                    l :: ls = pre ++ lang :: post ->
                    (forall k, k ∈ pre ->
                       plain_name k = true
                       /\ exists x,
                            lstat n ["agent_instructions"; "languages"; k] = Some x
                            /\ is_link_node x = false) ->
                    plain_name lang = true ->
                    lstat n ["agent_instructions"; "languages"; lang] = None ->
                    exists evs,
                      run = (mkWorld fs (log ++ evs),
                             Raised (Script (LanguageNotFound lang)))))).
Proof.
  intros dest_dir temp zip_path temp_source_dir run Hu Hsafe Hi Hl Htemp
    Hparent Hfree. subst run.
  rewrite (main_positional env inv (mkWorld fs log) l ls Hu Hsafe Hi Hl).
  cbn [w_fs]. fold dest_dir. rewrite Htemp.
  pose proof (install_download_run inv parent t ps fs Htemp Hparent) as Hdownload.
  pose proof (install_zip_read inv parent t fs Htemp) as Hread.
  pose proof (install_extract_run inv parent t ps fs Htemp Hparent) as Hextract.
  pose proof (lstat_extracted inv parent t fs Htemp) as Hextracted.
  cbv zeta in Hdownload, Hread, Hextract, Hextracted.
  fold temp in Hdownload, Hread, Hextract, Hextracted.
  fold zip_path in Hdownload, Hread, Hextract.
  fold temp_source_dir in Hextracted.
  split; [| intros bytes Hd; split; [| intros a Hz Hroot; split]].
  - intros Hd.
    apply (with_temporary_directory_inside parent t ps fs Hparent Hfree).
    intros fs1 Hput1. exists fs1, ∅, []. rewrite app_nil_r. split; [| done].
    unfold download_and_install. cbv zeta. apply cbind_raised. by rewrite Hd.
  - intros Hz.
    apply (with_temporary_directory_inside parent t ps fs Hparent Hfree).
    intros fs1 Hput1.
    destruct (Hdownload fs1 (log ++ [Mkdir (parent ++ [t])]) bytes Hput1 Hd)
      as (fs3 & Hput3 & Hdl).
    eexists fs3, _, _. split; [| exact Hput3].
    unfold download_and_install. cbv zeta. fold temp zip_path. rewrite Hdl.
    apply cbind_raised. unfold extractall.
    rewrite (cbind_ok _ _ _ _ _ (Hread _ _ _ Hput3)). by rewrite Hz.
  - intros Hnone.
    apply (with_temporary_directory_inside parent t ps fs Hparent Hfree).
    intros fs1 Hput1.
    destruct (Hdownload fs1 (log ++ [Mkdir (parent ++ [t])]) bytes Hput1 Hd)
      as (fs3 & Hput3 & Hdl).
    destruct (Hextract fs3
                ((log ++ [Mkdir (parent ++ [t])])
                 ++ [WriteText zip_path; Mkdir (child temp "extract")])
                bytes a Hput3 Hz Hroot) as (fs4 & Hput4 & Hex).
    eexists fs4, _, _. split; [| exact Hput4].
    unfold download_and_install. cbv zeta. fold temp zip_path. rewrite Hdl.
    rewrite (cbind_ok _ _ _ _ _ Hex), cbind_ask. cbn [w_fs].
    fold temp_source_dir.
    pose proof (Hextracted fs4 bytes a [] Hput4) as Hsrc.
    rewrite !app_nil_r, Hnone in Hsrc.
    by rewrite (lstat_None_path_exists _ _ Hsrc).
  - intros n pre lang post Hn Hplain Hsplit Hpre Hname Hlang.
    apply (with_temporary_directory_inside parent t ps fs Hparent Hfree).
    intros fs1 Hput1.
    destruct (Hdownload fs1 (log ++ [Mkdir (parent ++ [t])]) bytes Hput1 Hd)
      as (fs3 & Hput3 & Hdl).
    destruct (Hextract fs3
                ((log ++ [Mkdir (parent ++ [t])])
                 ++ [WriteText zip_path; Mkdir (child temp "extract")])
                bytes a Hput3 Hz Hroot) as (fs4 & Hput4 & Hex).
    eexists fs4, _, _. split; [| exact Hput4].
    unfold download_and_install. cbv zeta. fold temp zip_path. rewrite Hdl.
    rewrite (cbind_ok _ _ _ _ _ Hex), cbind_ask. cbn [w_fs].
    fold temp_source_dir.
    pose proof (Hextracted fs4 bytes a [] Hput4) as Hsrc.
    rewrite !app_nil_r, Hn in Hsrc.
    unfold path_exists. rewrite (stat_plain _ _ _ Hsrc) by done. cbn [negb].
    apply lift_err. rewrite Hsplit.
    unfold Project.install_configuration. cbv zeta. apply bind_err.
    assert (Hlang_at : forall k,
              lstat fs4 (child (Project.languages_dir temp_source_dir) k)
              = lstat n ["agent_instructions"; "languages"; k]).
    { intros k. unfold Project.languages_dir, child. rewrite <- !app_assoc.
      cbn [app]. by rewrite lstat_app, Hsrc. }
    apply validate_languages_stop; cbn [w_fs].
    + intros k Hk. destruct (Hpre k Hk) as (Hkname & x & Hx & Hxl).
      rewrite (join_exists_plain _ _ _ Hkname).
      unfold path_exists. rewrite (stat_plain _ _ x); [done | | done].
      by rewrite Hlang_at.
    + rewrite (join_exists_plain _ _ _ Hname).
      apply lstat_None_path_exists. by rewrite Hlang_at.
Qed.

Lemma project_main_fails_clean_witness :
  exists evs,
    ProjectCli.main plain_env (with_languages ["python"; "cobol"] sample_invocation)
      empty_dest_world
    = (mkWorld (w_fs empty_dest_world) evs,
       Raised (Script (LanguageNotFound "cobol"))).
Proof.
  destruct (project_main_fails_clean plain_env
              (with_languages ["python"; "cobol"] sample_invocation)
              (w_fs empty_dest_world) [] ["tmp"] "claude_install_x7"
              (list_to_map [("src", sample_bundle)]) "python" ["cobol"])
    as [_ H].
  - discriminate.
  - intros ex Hex.
    repeat (apply elem_of_cons in Hex as [-> | Hex]; [discriminate |]).
    by apply elem_of_nil in Hex.
  - reflexivity.
  - reflexivity.
  - reflexivity.
  - reflexivity.
  - reflexivity.
  - destruct (H "PK" eq_refl) as [_ Ha].
    destruct (Ha sample_archive eq_refl eq_refl) as [_ Hlang].
    destruct (Hlang sample_bundle ["python"] "cobol" [] eq_refl eq_refl eq_refl)
      as [evs Hrun].
    + intros k ->%list_elem_of_singleton. split; [reflexivity | by eexists].
    + reflexivity.
    + reflexivity.
    + exists ([] ++ evs). exact Hrun.
Defined.

Lemma cbind_assoc {A B D} (m : Cli A) (k : A -> Cli B) (h : B -> Cli D) w :
  ((m ≫= k) ≫= h) w = (m ≫= (fun a => k a ≫= h)) w.
Proof. unfold mbind, Cli_bind. by destruct (m w) as [w' [a | e]]. Qed.

Lemma choose_result_nonempty available answer langs :
  Project.choose_languages_interactively available answer = Ok langs ->
  langs <> [].
Proof.
  destruct answer as [s | |]; [| done | done]. intros Hrun.
  destruct (decide (Str.strip s = EmptyString)) as [He | Hne].
  { unfold Project.choose_languages_interactively in Hrun. by rewrite He in Hrun. }
  rewrite (choose_nonempty _ _ Hne) in Hrun.
  pose proof (split_strip_nonempty s Hne) as Hwords.
  destruct (Project.select_parts available [] (Str.split (Str.strip s)))
    as [chosen |] eqn:Hsel; [| done].
  injection Hrun as <-. rewrite unique_go_empty. apply first_seen_nonempty.
  intros ->. destruct (Str.split (Str.strip s)) as [| word words]; [done |].
  cbn [Project.select_parts] in Hsel.
  destruct (Project.select_part available word) as [lang |]; [| done].
  destruct (forallb (part_ok available) words) eqn:Hall.
  - rewrite (select_parts_ok _ _ _ Hall) in Hsel. done.
  - destruct (forallb_split_first _ _ Hall) as (pre & part & post & -> & Hpre & Hbad).
    by rewrite (select_parts_bad _ _ _ _ _ Hpre Hbad) in Hsel.
Qed.

(** X18. However the languages are chosen, the command goes on as if
    they had been given on the command line.  With [--interactive] the
    available languages are listed and the answer is read, whatever
    languages the command line names: a selection continues as the
    command with that selection on its command line, an answer that is
    refused ends the command with its error.  Without languages and
    without [--interactive], a non-empty listing continues as the
    command with all listed languages on its command line. *)
Theorem project_main_selection (env : Env) (inv : Invocation) (w w' : World)
  (available : list string) :
  euid env <> 0%Z ->
  (forall ex, ex ∈ Project.excluded_dirs env ->
     resolve env (w_fs w) ex
     <> resolve env (w_fs w) (resolve env (w_fs w) (cwd inv))) ->
  ProjectCli.get_available_languages inv w = (w', Done available) ->
  w_fs w' = w_fs w ->
  (arg_interactive inv = true ->
   (forall langs,
      Project.choose_languages_interactively available (answer inv) = Ok langs ->
      ProjectCli.main env inv w
      = ProjectCli.main env (with_languages langs inv) w')
   /\ (forall e,
         Project.choose_languages_interactively available (answer inv) = Err e ->
         ProjectCli.main env inv w = (w', Raised (Script e))))
  /\ (arg_interactive inv = false -> arg_languages inv = [] ->
      available <> [] ->
      ProjectCli.main env inv w
      = ProjectCli.main env (with_languages available inv) w').
Proof.
  intros Hu Hsafe Hget Hfs.
  assert (Hpos : forall langs, langs <> [] ->
            ProjectCli.main env (with_languages langs inv) w'
            = with_temporary_directory (install_temp inv)
                (download_and_install env inv
                   (resolve env (w_fs w) (cwd inv)) langs) w').
  { intros [| l ls] Hne; [done |].
    rewrite (main_positional env (with_languages (l :: ls) inv) w' l ls Hu);
      [by rewrite Hfs | by rewrite Hfs | done | done]. }
  assert (Hstart : forall k : list string -> Cli (list string),
            (lift (Project.check_safe_directory env
                     (resolve env (w_fs w) (cwd inv))) ≫= fun _ =>
             (ProjectCli.get_available_languages inv ≫= k) ≫= fun languages =>
             with_temporary_directory (install_temp inv)
               (download_and_install env inv (resolve env (w_fs w) (cwd inv))
                  languages)) w
            = (k available ≫= fun languages =>
               with_temporary_directory (install_temp inv)
                 (download_and_install env inv (resolve env (w_fs w) (cwd inv))
                    languages)) w').
  { intros k.
    rewrite (cbind_ok _ _ _ _ _
               (lift_ok _ _ _ _ (check_safe_directory_passes _ _ _ Hsafe))).
    rewrite cbind_assoc. by rewrite (cbind_ok _ _ _ _ _ Hget). }
  apply Z.eqb_neq in Hu. split.
  - intros Hi. split.
    + intros langs Hlangs.
      rewrite (Hpos langs (choose_result_nonempty _ _ _ Hlangs)).
      unfold ProjectCli.main. rewrite cbind_ask, Hu, Hi.
      etrans; [apply (Hstart (fun available_languages =>
                 lift_result (Project.choose_languages_interactively
                                available_languages (answer inv)))) |].
      unfold mbind at 1, Cli_bind at 1, lift_result. by rewrite Hlangs.
    + intros e He.
      unfold ProjectCli.main. rewrite cbind_ask, Hu, Hi.
      etrans; [apply (Hstart (fun available_languages =>
                 lift_result (Project.choose_languages_interactively
                                available_languages (answer inv)))) |].
      unfold mbind at 1, Cli_bind at 1, lift_result. by rewrite He.
  - intros Hi Hl Hne. rewrite (Hpos available Hne).
    unfold ProjectCli.main. rewrite cbind_ask, Hu, Hi, Hl.
    rewrite (cbind_ok _ _ _ _ _
               (lift_ok _ _ _ _ (check_safe_directory_passes _ _ _ Hsafe))).
    by rewrite (cbind_ok _ _ _ _ _ Hget).
Qed.

Lemma project_main_selection_witness :
  ProjectCli.main plain_env interactive_invocation empty_dest_world
  = ProjectCli.main plain_env (with_languages ["python"] interactive_invocation)
      (fst (ProjectCli.get_available_languages interactive_invocation
              empty_dest_world)).
Proof.
  destruct (project_main_selection plain_env interactive_invocation
              empty_dest_world
              (fst (ProjectCli.get_available_languages interactive_invocation
                      empty_dest_world))
              ["go"; "python"]) as [H _].
  - discriminate.
  - intros ex Hex.
    repeat (apply elem_of_cons in Hex as [-> | Hex]; [discriminate |]).
    by apply elem_of_nil in Hex.
  - vm_compute. reflexivity.
  - vm_compute. reflexivity.
  - destruct (H eq_refl) as [Hsel _]. apply Hsel. vm_compute. reflexivity.
Defined.

(** * Further properties of the user script: the validator and a second run *)

(** X19. The validator of the user script changes nothing and accepts a
    configuration directory exactly when the resolved home directory is
    a prefix of its resolved path: it returns for such a directory, the
    home directory itself included, and raises the not-relative error,
    carrying both resolved paths, for any other. *)
Theorem user_check_safe_directory_outcome (env : Env) (config_dir : Path)
  (w : World) :
  let resolved := resolve env (w_fs w) config_dir in
  let resolved_home := resolve env (w_fs w) (home env) in
  (resolved_home `prefix_of` resolved ->
   User.check_safe_directory env config_dir w = (w, Ok tt))
  /\ (¬ resolved_home `prefix_of` resolved ->
      User.check_safe_directory env config_dir w
      = (w, Err (NotRelativeTo resolved resolved_home)))
  /\ User.check_safe_directory env (home env) w = (w, Ok tt).
Proof.
  intros resolved resolved_home.
  assert (Hrun : forall p,
            User.check_safe_directory env p w
            = (w, match relative_to (resolve env (w_fs w) p) resolved_home with
                  | Some _ => Ok tt
                  | None => Err (NotRelativeTo (resolve env (w_fs w) p)
                                   resolved_home)
                  end)).
  { intros p. unfold User.check_safe_directory. rewrite !bind_ask.
    fold resolved_home. by destruct (relative_to _ _). }
  split; [| split].
  - intros Hp. rewrite Hrun. fold resolved.
    apply relative_to_spec in Hp as [rel ->]. done.
  - intros Hp. rewrite Hrun. fold resolved.
    destruct (relative_to resolved resolved_home) eqn:Hrel; [| done].
    destruct Hp. apply relative_to_spec. by eexists.
  - rewrite Hrun. fold resolved_home.
    destruct (proj2 (relative_to_spec resolved_home resolved_home)
                (reflexivity _)) as [rel ->]. done.
Qed.

Lemma user_check_safe_directory_outcome_witness :
  User.check_safe_directory plain_env ["home"; "alice"; ".claude"] empty_world
  = (empty_world, Ok tt)
  /\ User.check_safe_directory plain_env ["opt"; "cfg"] empty_world
     = (empty_world, Err (NotRelativeTo ["opt"; "cfg"] ["home"; "alice"])).
Proof.
  destruct (user_check_safe_directory_outcome plain_env
              ["home"; "alice"; ".claude"] empty_world) as (Ha & _).
  destruct (user_check_safe_directory_outcome plain_env ["opt"; "cfg"]
              empty_world) as (_ & Hb & _).
  split.
  - apply Ha. by exists [".claude"].
  - apply Hb. intros [r Hr]. discriminate Hr.
Defined.

Lemma installed_config_manifest config_dir repo commands :
  installed_config config_dir repo commands !! "CLAUDE.md"
  = Some (Symlink (child (child (child (child config_dir
            "instructions_repository_clone") "claude") "user_setup")
            "CLAUDE.md")).
Proof.
  unfold installed_config. destruct commands.
  - rewrite lookup_insert_ne by done. by rewrite lookup_insert_eq.
  - by rewrite lookup_insert_eq.
Qed.

(** X20. The user script run twice, the second time at another second:
    both runs succeed; the second run installs the same configuration
    directory as the first; the directory the first run installed is
    kept, whole, under the second backup name, and the configuration
    saved by the first run stays under the first backup name.  The link
    to the manifest inside that backup still names the path below the
    configuration directory, so that it leads into the new clone and not
    into the backup. *)
Theorem user_main_twice (env1 env2 : Env) (w : World)
  (hs us : gmap string node) (repo manifest : node) :
  let fs := w_fs w in
  let config_dir := child (home env1) ".claude" in
  let b1 := user_backup_name env1 in
  let b2 := user_backup_name env2 in
  let installed :=
    Dir (installed_config config_dir repo
           (bool_decide (is_Some (us !! "commands")))) in
  home env2 = home env1 ->
  euid env1 <> 0%Z -> euid env2 <> 0%Z ->
  remote env1 = Some repo -> remote env2 = Some repo ->
  lstat fs (home env1) = Some (Dir hs) ->
  (is_Some (hs !! ".claude") ->
   path_exists fs config_dir = true /\ hs !! b1 = None) ->
  hs !! b2 = None -> b1 <> b2 ->
  lstat repo ["claude"; "user_setup"] = Some (Dir us) ->
  us !! "CLAUDE.md" = Some manifest ->
  is_link_node manifest = false ->
  (forall x, us !! "commands" = Some x -> is_link_node x = false) ->
  exists fs1 evs1,
    User.main env1 w = (mkWorld fs1 (w_log w ++ evs1), Ok tt)
    /\ lstat fs1 config_dir = Some installed
    /\ forall log,
       exists fs2 evs2,
         User.main env2 (mkWorld fs1 log) = (mkWorld fs2 (log ++ evs2), Ok tt)
         /\ lstat fs2 config_dir = Some installed
         /\ lstat fs2 (child (home env1) b2) = Some installed
         /\ lstat fs2 (child (child (home env1) b2) "CLAUDE.md")
            = Some (Symlink (child (child (child (child config_dir
                      "instructions_repository_clone") "claude") "user_setup")
                      "CLAUDE.md"))
         /\ (forall n, hs !! ".claude" = Some n ->
                       lstat fs2 (child (home env1) b1) = Some n).
Proof.
  intros fs config_dir b1 b2 installed Hhome Hu1 Hu2 Hr1 Hr2 Hd Hold Hb2 Hbb
    Hsetup Hm Hplain Hcommands.
  set (cfg := installed_config config_dir repo
                (bool_decide (is_Some (us !! "commands")))) in *.
  set (hs1 := <[".claude" := Dir cfg]> (saved_home env1 hs)).
  (* the first run *)
  destruct (user_main_prepare env1 w hs Hd Hold) as (fsa & evsa & Hga & Hprep1).
  destruct (user_install_run env1 repo us manifest Hr1 Hsetup Hm Hplain
              Hcommands (mkWorld fsa (w_log w ++ evsa))
              (<[".claude" := Dir ∅]> (saved_home env1 hs)))
    as (fs1 & evsb & Hrun1 & Hg1);
    [by eapply lstat_graft | by rewrite lookup_insert_eq |].
  cbn [w_fs w_log] in *. rewrite insert_insert_eq in Hg1.
  fold config_dir cfg hs1 in Hg1. fold config_dir in Hrun1.
  rewrite (graft_graft _ _ _ _ _ Hga) in Hg1.
  pose proof (lstat_graft _ _ _ _ Hg1) as Hd1.
  assert (Hconfig1 : lstat fs1 config_dir = Some (Dir cfg)).
  { unfold config_dir, child. rewrite (lstat_child _ _ _ _ Hd1).
    unfold hs1. by rewrite lookup_insert_eq. }
  exists fs1, (evsa ++ evsb). split; [| split; [done |]].
  { unfold User.main. apply Z.eqb_neq in Hu1. rewrite Hu1. cbv zeta.
    fold config_dir. rewrite Hprep1, Hrun1. by rewrite <- app_assoc. }
  (* the second run *)
  intros log.
  assert (Hsaved_b2 : saved_home env1 hs !! b2 = None).
  { unfold saved_home. destruct (hs !! ".claude") eqn:Hc; [| done].
    fold b1. rewrite lookup_insert_ne by done.
    rewrite lookup_delete_ne; [done |].
    intros Heq. by apply (user_backup_name_not_config env2). }
  assert (Hsaved2 : saved_home env2 hs1
                    = <[b2 := Dir cfg]> (saved_home env1 hs)).
  { unfold saved_home at 1, hs1. rewrite lookup_insert_eq. fold b2.
    rewrite delete_insert_eq. rewrite delete_id; [done |].
    unfold saved_home. destruct (hs !! ".claude") eqn:Hc; [| done].
    rewrite lookup_insert_ne by apply user_backup_name_not_config.
    by rewrite lookup_delete_eq. }
  destruct (user_main_prepare env2 (mkWorld fs1 log) hs1)
    as (fsc & evsc & Hgc & Hprep2).
  { cbn [w_fs]. by rewrite Hhome. }
  { intros _. cbn [w_fs]. rewrite Hhome. fold config_dir. split.
    - unfold path_exists. by rewrite (stat_plain _ _ _ Hconfig1).
    - fold b2. unfold hs1.
      rewrite lookup_insert_ne; [done |].
      intros Heq. by apply (user_backup_name_not_config env2). }
  cbn [w_fs w_log] in *. rewrite Hhome in Hgc, Hprep2.
  fold config_dir in Hprep2. rewrite Hsaved2 in Hgc.
  destruct (user_install_run env2 repo us manifest Hr2 Hsetup Hm Hplain
              Hcommands (mkWorld fsc (log ++ evsc))
              (<[".claude" := Dir ∅]> (<[b2 := Dir cfg]> (saved_home env1 hs))))
    as (fs2 & evsd & Hrun2 & Hg2).
  { cbn [w_fs]. rewrite Hhome. by eapply lstat_graft. }
  { by rewrite lookup_insert_eq. }
  cbn [w_fs w_log] in *. rewrite Hhome in Hrun2, Hg2.
  rewrite insert_insert_eq in Hg2. fold config_dir cfg in Hg2.
  fold config_dir in Hrun2.
  pose proof (lstat_graft _ _ _ _ Hg2) as Hd2.
  exists fs2, (evsc ++ evsd). split.
  { unfold User.main. apply Z.eqb_neq in Hu2. rewrite Hu2. cbv zeta.
    rewrite Hhome. fold config_dir. rewrite Hprep2, Hrun2.
    by rewrite <- app_assoc. }
  assert (Hb2c : b2 <> ".claude") by apply user_backup_name_not_config.
  assert (Hb1c : b1 <> ".claude") by apply user_backup_name_not_config.
  assert (Hbackup : lstat fs2 (child (home env1) b2) = Some (Dir cfg)).
  { unfold child. rewrite (lstat_child _ _ _ _ Hd2).
    rewrite lookup_insert_ne by done. by rewrite lookup_insert_eq. }
  split; [| split; [done | split]].
  - unfold config_dir, child. rewrite (lstat_child _ _ _ _ Hd2).
    by rewrite lookup_insert_eq.
  - unfold child at 1. rewrite (lstat_child _ _ _ _ Hbackup).
    apply installed_config_manifest.
  - intros n Hn. unfold child. rewrite (lstat_child _ _ _ _ Hd2).
    rewrite lookup_insert_ne by done. rewrite lookup_insert_ne by done.
    unfold saved_home. rewrite Hn. fold b1. by rewrite lookup_insert_eq.
Qed.

Lemma user_main_twice_witness :
  exists fs1 fs2 evs1 evs2,
    User.main (linked_env full_repo) old_config_world
    = (mkWorld fs1 evs1, Ok tt)
    /\ User.main (later_linked_env full_repo) (mkWorld fs1 [])
       = (mkWorld fs2 evs2, Ok tt)
    /\ lstat fs2 ["home"; "alice"; ".claude_backup_20250914_120500"; "CLAUDE.md"]
       = Some (Symlink ["home"; "alice"; ".claude";
                        "instructions_repository_clone";
                        "claude"; "user_setup"; "CLAUDE.md"])
    /\ lstat fs2 ["home"; "alice"; ".claude_backup_20250914_120000"]
       = Some (dir_of [("settings.json", File "mine")]).
Proof.
  destruct (user_main_twice (linked_env full_repo) (later_linked_env full_repo)
              old_config_world old_config_entries
              (list_to_map [("CLAUDE.md", File "instructions");
                            ("commands", dir_of [("review.md", File "review")])])
              full_repo (File "instructions"))
    as (fs1 & evs1 & Hrun1 & _ & Hsecond).
  - reflexivity.
  - discriminate.
  - discriminate.
  - reflexivity.
  - reflexivity.
  - reflexivity.
  - intros _. split; reflexivity.
  - reflexivity.
  - discriminate.
  - reflexivity.
  - reflexivity.
  - reflexivity.
  - intros x Hx. vm_compute in Hx. injection Hx as <-. reflexivity.
  - destruct (Hsecond []) as (fs2 & evs2 & Hrun2 & _ & _ & Hlink & Hold).
    exists fs1, fs2, ([] ++ evs1), ([] ++ evs2).
    split; [exact Hrun1 |]. split; [exact Hrun2 |].
    split; [exact Hlink |]. exact (Hold _ eq_refl).
Defined.

(** * What the deletions can reach *)

(** The three shapes of a run of [safe_delete]: it raises before any
    call, or it issues one call that raises, or it issues one call that
    removes the resolved path, which then lies strictly inside a
    temporary root, for a user who is not root. *)
Lemma safe_delete_shapes env path ok w :
  let fs := w_fs w in
  let rp := resolve env fs path in
  (exists e, Project.safe_delete env path ok w = (w, Err e))
  \/ (exists ev e,
        Project.safe_delete env path ok w
        = (mkWorld fs (w_log w ++ [ev]), Err e))
  \/ (exists ev fs',
        Project.safe_delete env path ok w
        = (mkWorld fs' (w_log w ++ [ev]), Ok tt)
        /\ put fs rp None = Some fs'
        /\ ev ∈ [Rmtree rp; Unlink rp]
        /\ euid env <> 0%Z
        /\ exists root, root ∈ Project.temp_roots /\ strictly_inside root rp).
Proof.
  intros fs rp.
  destruct (decide (euid env = 0%Z)) as [Hu | Hu].
  { left. eexists. by apply safe_delete_root. }
  destruct (decide (length (parts rp) <= 1)%nat) as [Hlen | Hlen].
  { left. eexists. by apply safe_delete_short. }
  destruct (Project.scan_roots false Project.temp_roots rp) eqn:Hscan.
  - apply scan_roots_spec in Hscan as [Hscan | Hroot]; [done |].
    rewrite (safe_delete_inside env w path ok Hu Hroot). fold fs rp.
    destruct (is_dir fs rp && ok).
    { unfold rmtree, issue. fold fs.
      destruct (lstat fs rp) as [[c | es | tg |] |];
        try (right; left; by eexists _, _).
      unfold put_or. destruct (put fs rp None) as [fs' |] eqn:Hput;
        [| right; left; by eexists _, _].
      right. right. exists (Rmtree rp), fs'.
      split; [done |]. split; [done |]. split; [left |]. done. }
    destruct (is_dir fs rp && negb ok); [left; by eexists |].
    destruct (is_file fs rp || is_symlink fs rp).
    { unfold unlink, issue. fold fs.
      destruct (lstat fs rp) as [[c | es | tg |] |];
        try (right; left; by eexists _, _);
        (unfold put_or; destruct (put fs rp None) as [fs' |] eqn:Hput;
         [| right; left; by eexists _, _];
         right; right; exists (Unlink rp), fs';
         split; [done |]; split; [done |]; split; [right; left |]; done). }
    destruct (negb (path_exists fs rp)); left; by eexists.
  - left. eexists. apply safe_delete_outside; [done | by apply Nat.nle_gt |].
    intros root Hroot Hin.
    assert (Project.scan_roots false Project.temp_roots rp = true) as Ht
      by (apply scan_roots_spec; right; by exists root).
    fold rp in Hscan. congruence.
Qed.

(** A path that lies neither in, nor above, a temporary root keeps what
    it holds. *)
Lemma safe_delete_frame env path ok w q :
  (forall root, root ∈ Project.temp_roots -> apart root q) ->
  lstat (w_fs (Project.safe_delete env path ok w).1) q = lstat (w_fs w) q.
Proof.
  intros Hq.
  destruct (safe_delete_shapes env path ok w)
    as [[e ->] | [(ev & e & ->) | (ev & fs' & -> & Hput & _ & _ & Hroot)]];
    [done | done |].
  cbn [fst w_fs]. destruct Hroot as (root & Hin & rest & _ & Hrp).
  destruct (Hq root Hin) as [Hq1 Hq2].
  apply (lstat_put_diverge _ _ _ _ _ Hput); rewrite Hrp.
  - intros Hp. apply Hq1. by eapply prefix_app_l.
  - intros Hp.
    destruct (prefix_weak_total _ _ _ Hp (prefix_app_r _ _ _ (reflexivity _)));
      done.
Qed.

(** X21. [safe_delete] is confined to the temporary roots.  For a
    resolved path that holds no symbolic link, as the paths
    [Path.resolve] returns: a run that returns was made by a user who is
    not root and removed exactly the resolved path, which lies strictly
    inside a temporary root, with one [rmtree] or [unlink]; and whatever
    the outcome, what lies at a path that is neither inside, nor above,
    a temporary root is as it was. *)
Theorem safe_delete_confined (env : Env) (path : Path) (directory_okay : bool)
  (w : World) :
  let fs := w_fs w in
  let resolved_path := resolve env fs path in
  let run := Project.safe_delete env path directory_okay w in
  link_free fs resolved_path ->
  (run.2 = Ok tt ->
   euid env <> 0%Z
   /\ (exists root, root ∈ Project.temp_roots
                    /\ strictly_inside root resolved_path)
   /\ put fs resolved_path None = Some (w_fs run.1)
   /\ lstat (w_fs run.1) resolved_path = None
   /\ (w_log run.1 = w_log w ++ [Rmtree resolved_path]
       \/ w_log run.1 = w_log w ++ [Unlink resolved_path]))
  /\ (forall q,
        (forall root, root ∈ Project.temp_roots -> apart root q) ->
        lstat (w_fs run.1) q = lstat fs q).
Proof.
  intros fs rp run _. split; [| intros q; apply safe_delete_frame].
  subst run.
  destruct (safe_delete_shapes env path directory_okay w)
    as [[e ->] | [(ev & e & ->) | (ev & fs' & -> & Hput & Hev & Hu & Hroot)]];
    [done | done |].
  intros _. cbn [fst snd w_fs w_log]. fold fs rp in Hput, Hev, Hroot.
  split; [done |]. split; [done |]. split; [done |].
  split; [by eapply lstat_put_eq |].
  apply elem_of_cons in Hev as [-> | Hev]; [by left |].
  apply list_elem_of_singleton in Hev as ->. by right.
Qed.

Lemma safe_delete_confined_witness :
  lstat (w_fs (Project.safe_delete plain_env ["tmp"; "work"; "d"] true
                 scratch_world).1) ["tmp"; "work"; "d"] = None
  /\ lstat (w_fs (Project.safe_delete plain_env ["tmp"; "work"; "d"] true
                    scratch_world).1) ["home"; "alice"]
     = lstat (w_fs scratch_world) ["home"; "alice"].
Proof.
  destruct (safe_delete_confined plain_env ["tmp"; "work"; "d"] true
              scratch_world) as [Hok Hframe].
  { eapply lstat_link_free; [vm_compute; reflexivity | reflexivity]. }
  split.
  - destruct (Hok eq_refl) as (_ & _ & _ & Hgone & _). exact Hgone.
  - apply Hframe. intros root Hroot. unfold Project.temp_roots in Hroot.
    repeat (apply elem_of_cons in Hroot as [-> | Hroot];
            [split; intros [r Hr]; discriminate Hr |]).
    by apply elem_of_nil in Hroot.
Defined.
